(** * PDF Studio: the edit-state model and the rebuild/commit engine

    A shallow embedding of the state object [S] of [script.js] (bytes, page
    order table, rotation ledger, selection set, current page) and of the
    functions and click handlers that read and write it: [ingestBytes],
    [rebuild], [applyEdit], [previewMain], [renderGrid], Sortable's
    [onEnd], and the delete, rotate, merge, split and add-text handlers.
    Three other revisions of the script contribute the functions in which
    they differ: the v4 [rebuild] with its hard validation ([V4]), the
    first script's [getRebuildBytes], [reloadFromBytes] and split ([V1]),
    and the minimal script's [rebuild] ([Minimal]).

    pdf-lib and PDF.js are external.  They appear through the interface
    [Codec]: a document is a list of pages, a page has a content and a
    rotation entry, and both parsers read the same bytes the same way.
    Three things pdf-lib and PDF.js do on their own are part of the model:
    [save] adds a blank page to a document that has none, [setRotation]
    throws unless the angle is a multiple of 90, and [getDocument] takes
    the buffer of the array it is given. *)

From stdpp Require Import base option list gmap sets sorting strings.

Open Scope Z_scope.

(** ** Documents as the codec presents them *)

(** The [/Rotate] entry of a page, as [page.getRotation()] meets it. *)
Inductive rotation_entry : Type :=
  | RotAbsent              (* no entry: the call yields [{ angle: 0 }] *)
  | RotAngle (angle : Z)   (* the call yields [{ angle }] *)
  | RotThrows.             (* not a number: the call throws *)

Record page : Type := Page {
  content : string;
  rotation : rotation_entry;
}.

Abbreviation document := (list page).

(** The structural codec: [PDFDocument.load] may reject its input and
    [save] serialises a handle.  What was saved loads back unchanged,
    except that [save] first adds a blank page to a handle that has no
    page.  [detached] is a [Uint8Array] whose buffer was transferred to the
    PDF.js worker: it has length 0 and neither parser reads it. *)
Class Codec : Type := {
  bytes : Type;
  load : bytes → option document;
  save : document → bytes;
  blank_page : page;
  load_save : ∀ d : document,
    load (save d) = Some (match d with [] => [blank_page] | _ => d end);
  detached : bytes;
  load_detached : load detached = None;
}.

(** The pages of the file that [save] writes for a handle. *)
Definition saved_pages `{Codec} (d : document) : document :=
  match d with [] => [blank_page] | _ => d end.

(** A number stored in a JS array slot or used as an object key;
    [None] stands for [undefined]. *)
Abbreviation entry := (option Z).

(** [function getPageRotationAngle(page)]: the guarded read, 0 when the
    rotation is undefined or the read throws. *)
Definition getPageRotationAngle (p : page) : Z :=
  match rotation p with
  | RotAngle a => a
  | RotAbsent => 0
  | RotThrows => 0
  end.


(** [srcPages[i]] inside [copyPages]: [undefined] for a negative, too large
    or [undefined] index. *)
Definition page_at (src : document) (i : entry) : option page :=
  match i with
  | Some z => if decide (0 ≤ z) then src !! Z.to_nat z else None
  | None => None
  end.

(** [arr[i]] for an array of numbers: [undefined] outside the array. *)
Definition js_index (arr : list entry) (i : nat) : entry :=
  default None (arr !! i).

(** [Array.from({ length: n }, (_, i) => i)]. *)
Definition identity_order (n : nat) : list entry :=
  (λ i : nat, Some (Z.of_nat i)) <$> seq 0 n.

(** [arr.splice(start, deleteCount, ...items)] on non-negative arguments:
    the removed elements and the array afterwards. *)
Definition splice {A} (start deleteCount : nat) (items : list A) (arr : list A)
  : list A * list A :=
  (take deleteCount (drop start arr),
   take start arr ++ items ++ drop (start + deleteCount) arr).

(** [Number.isInteger(i) && i >= 0 && i < total], the test of the v4
    script's hard validation: [i] is an index into a document of [total]
    pages. *)
Definition valid_index (total : nat) (i : entry) : Prop :=
  match i with
  | Some z => 0 ≤ z ∧ z < Z.of_nat total
  | None => False
  end.

#[global] Instance valid_index_dec total i : Decision (valid_index total i).
Proof. destruct i; simpl; apply _. Defined.

(** ** Outcomes *)

Inductive error : Type :=
  | NoPdfLoaded          (* [throw new Error('No PDF loaded.')], or a handler
                            leaving at [if (!S.rawBytes) return] *)
  | SourceUnreadable     (* [PDFDocument.load] or [pdfjsLib.getDocument] rejects *)
  | CodecError           (* [copyPages] or a page lookup fails *)
  | StateCorruption      (* 'Internal page order corruption detected.' *)
  | MutationFailed       (* drawing on the page throws *)
  | ValidationError      (* empty text, or [okPage] refuses the page number *)
  | InvalidRange         (* 'Invalid page range.' *)
  | EmptySelection       (* [if (!S.selectedPgs.size) return] *)
  | CannotDeleteAll      (* 'Cannot delete all pages.' *)
  | Cancelled            (* the [confirm] dialog was declined *)
  | InsufficientInputs   (* the spec's name for a merge of fewer than two
                            files; no handler raises it *)
  | RotationRejected     (* [setRotation] on an angle that is not a multiple
                            of 90 *)
  | ReferenceError.      (* a name that no declaration binds *)

Inductive result (A : Type) : Type :=
  | Ok (a : A)
  | Err (e : error).
Arguments Ok {A} a.
Arguments Err {A} e.

#[global] Instance result_ret : MRet result := @Ok.
#[global] Instance result_bind : MBind result :=
  λ A B k r, match r with Ok a => k a | Err e => Err e end.

(** [page.setRotation(degrees(a))]: pdf-lib asserts that the angle is a
    multiple of 90 and throws otherwise. *)
Definition setRotation (a : Z) (p : page) : result page :=
  if decide (Z.rem a 90 = 0)
  then Ok {| content := content p; rotation := RotAngle a |}
  else Err RotationRejected.

Inductive codec_call : Type := CLoad | CCreate | CCopy | CSave.

Inductive filename : Type :=
  | EditedPdf | DocumentPdf | MergedPdf | ModifiedPdf
  | PagesPdf (from to : Z).

Section Editor.
Context `{Codec}.

(** ** The state object [S] *)

Record Session : Type := MkSession {
  pdfJsDoc : option document;    (* PDF.js doc for rendering *)
  rawBytes : option bytes;       (* latest edited bytes, or [null] *)
  pageOrder : list entry;        (* display order of original page indices *)
  pageRots : gmap entry Z;       (* { origIdx: extraDegrees } *)
  selectedPgs : gset nat;
  curPage : Z;
  totalPages : Z;
  mergeFiles : list bytes;
}.

(** The initial value of [S]. *)
Definition S_init : Session :=
  MkSession None None [] ∅ ∅ 1 0 [].

Definition set_pdfJsDoc (v : option document) (s : Session) : Session :=
  MkSession v (rawBytes s) (pageOrder s) (pageRots s) (selectedPgs s)
    (curPage s) (totalPages s) (mergeFiles s).
Definition set_rawBytes (v : option bytes) (s : Session) : Session :=
  MkSession (pdfJsDoc s) v (pageOrder s) (pageRots s) (selectedPgs s)
    (curPage s) (totalPages s) (mergeFiles s).
Definition set_pageOrder (v : list entry) (s : Session) : Session :=
  MkSession (pdfJsDoc s) (rawBytes s) v (pageRots s) (selectedPgs s)
    (curPage s) (totalPages s) (mergeFiles s).
Definition set_pageRots (v : gmap entry Z) (s : Session) : Session :=
  MkSession (pdfJsDoc s) (rawBytes s) (pageOrder s) v (selectedPgs s)
    (curPage s) (totalPages s) (mergeFiles s).
Definition set_selectedPgs (v : gset nat) (s : Session) : Session :=
  MkSession (pdfJsDoc s) (rawBytes s) (pageOrder s) (pageRots s) v
    (curPage s) (totalPages s) (mergeFiles s).
Definition set_curPage (v : Z) (s : Session) : Session :=
  MkSession (pdfJsDoc s) (rawBytes s) (pageOrder s) (pageRots s)
    (selectedPgs s) v (totalPages s) (mergeFiles s).
Definition set_totalPages (v : Z) (s : Session) : Session :=
  MkSession (pdfJsDoc s) (rawBytes s) (pageOrder s) (pageRots s)
    (selectedPgs s) (curPage s) v (mergeFiles s).

Definition set_mergeFiles (v : list bytes) (s : Session) : Session :=
  MkSession (pdfJsDoc s) (rawBytes s) (pageOrder s) (pageRots s)
    (selectedPgs s) (curPage s) (totalPages s) v.

(** The page as a whole: the state object, the codec calls made so far
    (oldest first) and the files handed to the browser by [dlBytes]. *)
Record World : Type := MkWorld {
  sess : Session;
  calls : list codec_call;
  downloads : list (filename * bytes);
}.

(** ** Handlers as state-passing computations that may throw *)

Definition Op (A : Type) : Type := World → World * result A.

Definition ret {A} (a : A) : Op A := λ w, (w, Ok a).
Definition throw {A} (e : error) : Op A := λ w, (w, Err e).
Definition bind {A B} (m : Op A) (k : A → Op B) : Op B :=
  λ w, match m w with
       | (w', Ok a) => k a w'
       | (w', Err e) => (w', Err e)
       end.

#[global] Instance Op_ret : MRet Op := @ret.
#[global] Instance Op_bind : MBind Op := λ A B k m, bind m k.

Definition get : Op Session := λ w, (w, Ok (sess w)).
Definition modify (f : Session → Session) : Op unit :=
  λ w, (MkWorld (f (sess w)) (calls w) (downloads w), Ok tt).
Definition log (c : codec_call) : Op unit :=
  λ w, (MkWorld (sess w) (calls w ++ [c]) (downloads w), Ok tt).
Definition dlBytes (b : bytes) (name : filename) : Op unit :=
  λ w, (MkWorld (sess w) (calls w) (downloads w ++ [(name, b)]), Ok tt).
Definition from_option {A} (e : error) (o : option A) : Op A :=
  match o with Some a => ret a | None => throw e end.
Definition from_result {A} (r : result A) : Op A :=
  match r with Ok a => ret a | Err e => throw e end.
(** A promise that is not awaited: its effects happen, its rejection is
    lost. *)
Definition unawaited {A} (m : Op A) : Op unit :=
  λ w, (fst (m w), Ok tt).

(** ** The codec and the parser as used by the handlers *)

Definition PDFDocument_load (b : bytes) : Op document :=
  log CLoad;; from_option SourceUnreadable (load b).
Definition PDFDocument_create : Op document :=
  log CCreate;; mret [].
Definition copyPages (src : document) (indices : list entry) : Op (list page) :=
  log CCopy;; from_option CodecError (mapM (page_at src) indices).
Definition doc_save (d : document) : Op bytes :=
  log CSave;; mret (save d).
Definition pdfjs_getDocument (b : bytes) : Op document :=
  from_option SourceUnreadable (load b).
Definition pdfjs_getPage (d : document) (pageNumber : entry) : Op page :=
  from_option CodecError
    (n ← pageNumber; page_at d (Some (n - 1))).

(** [arr.forEach((x, i) => ...)], threading the handle that the callback
    mutates. *)
Fixpoint forEach_from {A B} (f : B → A → nat → B) (i : nat) (arr : list A) (b : B) : B :=
  match arr with
  | [] => b
  | x :: arr' => forEach_from f (S i) arr' (f b x i)
  end.
Definition forEach {A B} (f : B → A → nat → B) (arr : list A) (b : B) : B :=
  forEach_from f 0 arr b.

(** [for (const x of arr) { ... await ... }], threading the handle and
    stopping at the first rejection. *)
Fixpoint for_of {A B} (f : B → A → Op B) (arr : list A) (b : B) : Op B :=
  match arr with
  | [] => mret b
  | x :: arr' => b' ← f b x; for_of f arr' b'
  end.

(** [dest.addPage(page)]. *)
Definition addPage (dest : document) (pg : page) : document := dest ++ [pg].

(** ** CORE: REBUILD *)

(** The callback of [pages.forEach] in [rebuild]; [order] is the array the
    callback indexes and [rots] is [S.pageRots].  The handle is an error
    once a call of the callback has thrown: [forEach] stops there. *)
Definition rebuild_page (order : list entry) (rots : gmap entry Z)
    (dest : result document) (pg : page) (i : nat) : result document :=
  d ← dest;
  let origIdx := js_index order i in
  let extra := default 0 (rots !! origIdx) in
  if decide (extra ≠ 0)
  then pg' ← setRotation (Z.rem (getPageRotationAngle pg + extra) 360) pg;
       Ok (addPage d pg')
  else Ok (addPage d pg).

Definition rebuild : Op bytes :=
  s ← get;
  raw ← from_option NoPdfLoaded (rawBytes s);
  src ← PDFDocument_load raw;
  dest ← PDFDocument_create;
  pages ← copyPages src (pageOrder s);
  dest' ← from_result
    (forEach (rebuild_page (pageOrder s) (pageRots s)) pages (Ok dest));
  doc_save dest'.

(** ** Preview and thumbnails: what they do to [S] and when they reject *)

(** [origIdx + 1]: [NaN] when [origIdx] is [undefined]. *)
Definition succ_entry (e : entry) : entry := z ← e; Some (z + 1).

Definition previewMain (pg : Z) : Op unit :=
  s ← get;
  match pdfJsDoc s with
  | None => mret tt
  | Some doc =>
      let pg := Z.max 1 (Z.min pg (totalPages s)) in
      modify (set_curPage pg);;
      let origIdx := js_index (pageOrder s) (Z.to_nat (pg - 1)) in
      pdfjs_getPage doc (succ_entry origIdx);;
      mret tt
  end.

Definition renderGrid : Op unit :=
  s ← get;
  match pdfJsDoc s with
  | None => mret tt
  | Some doc =>
      mapM (λ origIdx, pdfjs_getPage doc (succ_entry origIdx)) (pageOrder s);;
      mret tt
  end.

(** ** UPLOAD *)

Definition ingestBytes (b : bytes) (isNew : bool) : Op unit :=
  modify (set_rawBytes (Some b));;
  doc ← pdfjs_getDocument b;
  modify (set_pdfJsDoc (Some doc));;
  modify (set_totalPages (Z.of_nat (length doc)));;
  if isNew then
    modify (set_pageOrder (identity_order (length doc)));;
    modify (set_pageRots ∅);;
    modify (set_selectedPgs ∅);;
    modify (set_curPage 1)
  else mret tt.

Definition loadFile (b : bytes) : Op unit :=
  ingestBytes b true;;
  previewMain 1.

(** ** After an overlay edit *)

Definition applyEdit (b : bytes) : Op unit :=
  s ← get;
  let prevPage := curPage s in
  modify (set_rawBytes (Some b));;
  doc ← pdfjs_getDocument b;
  modify (set_pdfJsDoc (Some doc));;
  modify (set_totalPages (Z.of_nat (length doc)));;
  modify (set_pageOrder (identity_order (length doc)));;
  modify (set_pageRots ∅);;
  modify (set_curPage (Z.min prevPage (Z.of_nat (length doc))));;
  s' ← get;
  previewMain (curPage s').

(** ** PAGES GRID *)

(** The click handler of a thumbnail: toggle its position in the
    selection. *)
Definition thumbClick (idx : nat) : Op unit :=
  modify (λ s, set_selectedPgs
                 (if decide (idx ∈ selectedPgs s)
                  then selectedPgs s ∖ {[idx]}
                  else selectedPgs s ∪ {[idx]}) s).

(** [S.pageOrder.forEach((_, i) => S.selectedPgs.add(i))]. *)
Definition selectAllBtn : Op unit :=
  modify (λ s, set_selectedPgs
                 (selectedPgs s ∪ list_to_set (seq 0 (length (pageOrder s)))) s).

(** Sortable's [onEnd(ev)] with [ev.oldIndex] and [ev.newIndex]. *)
Definition onEnd (oldIndex newIndex : nat) : Op unit :=
  s ← get;
  let '(removed, arr1) := splice oldIndex 1 [] (pageOrder s) in
  let moved := js_index removed 0 in
  let '(_, arr2) := splice newIndex 0 [moved] arr1 in
  modify (set_pageOrder arr2);;
  modify (set_selectedPgs ∅).

(** [[...set].sort((a, b) => b - a)]. *)
Definition sort_desc (l : list nat) : list nat :=
  @merge_sort nat (λ a b : nat, (b ≤ a)%nat) (λ a b, decide (b ≤ a)%nat) l.

(** [positions.forEach(i => arr.splice(i, 1))]. *)
Definition splice_each (positions : list nat) (arr : list entry) : list entry :=
  foldl (λ arr i, (splice i 1 [] arr).2) arr positions.

(** The click handler of [deleteSelectedBtn]; [confirmed] is the answer to
    the [confirm] dialog. *)
Definition deleteSelectedBtn (confirmed : bool) : Op unit :=
  s ← get;
  if decide (size (selectedPgs s) = 0%nat) then throw EmptySelection else
  if decide (length (pageOrder s) ≤ size (selectedPgs s))%nat
  then throw CannotDeleteAll else
  if negb confirmed then throw Cancelled else
  modify (set_pageOrder
            (splice_each (sort_desc (elements (selectedPgs s))) (pageOrder s)));;
  modify (set_selectedPgs ∅);;
  modify (λ s, set_totalPages (Z.of_nat (length (pageOrder s))) s);;
  modify (λ s, set_curPage (Z.min (curPage s) (totalPages s)) s);;
  renderGrid;;
  s' ← get;
  unawaited (previewMain (curPage s')).

(** The callback of [S.selectedPgs.forEach] in [rotateSel]. *)
Definition rotate_one (order : list entry) (deg : Z) (i : nat)
    (rots : gmap entry Z) : gmap entry Z :=
  let orig := js_index order i in
  <[orig := Z.rem (default 0 (rots !! orig) + deg + 360) 360]> rots.

Definition rotateSel (deg : Z) : Op unit :=
  s ← get;
  if decide (size (selectedPgs s) = 0%nat) then throw EmptySelection else
  modify (set_pageRots
            (set_fold (rotate_one (pageOrder s) deg) (pageRots s) (selectedPgs s)));;
  modify (set_selectedPgs ∅);;
  renderGrid;;
  s' ← get;
  unawaited (previewMain (curPage s')).

(** ** MERGE *)

(** [addMergeFiles(files)]: every file is parsed for the preview and
    pushed onto [S.mergeFiles]; the first file that does not parse ends
    the loop. *)
Definition addMergeFiles (files : list bytes) : Op unit :=
  for_of (λ _ f, pdfjs_getDocument f;;
                 modify (λ s, set_mergeFiles (mergeFiles s ++ [f]) s))
    files tt.

(** The body of [for (const f of S.mergeFiles)]. *)
Definition merge_one (merged : document) (buf : bytes) : Op document :=
  doc ← PDFDocument_load buf;
  pgs ← copyPages doc (identity_order (length doc));
  mret (forEach (λ m p _, addPage m p) pgs merged).

(** The click handler of [mergeBtn].  With fewer than two files it
    returns at its first line: nothing is thrown and nothing is shown. *)
Definition mergeBtn : Op unit :=
  s ← get;
  if decide (length (mergeFiles s) < 2)%nat then mret tt else
  merged ← PDFDocument_create;
  merged' ← for_of merge_one (mergeFiles s) merged;
  out ← doc_save merged';
  dlBytes out MergedPdf.

(** ** SPLIT *)

(** The click handler of [splitBtn]; [from] and [to] are the results of
    [parseInt], [None] for [NaN]. *)
Definition splitBtn (from to : entry) : Op unit :=
  s ← get;
  raw ← from_option NoPdfLoaded (rawBytes s);
  match from, to with
  | Some from, Some to =>
      if decide (from < 1 ∨ totalPages s < to ∨ to < from)
      then throw InvalidRange else
      src ← PDFDocument_load raw;
      dest ← PDFDocument_create;
      let idxs := (λ i : nat, Some (from - 1 + Z.of_nat i))
                    <$> seq 0 (Z.to_nat (to - from + 1)) in
      pgs ← copyPages src idxs;
      out ← doc_save (forEach (λ d p _, addPage d p) pgs dest);
      dlBytes out (PagesPdf from to)
  | _, _ => throw InvalidRange
  end.

(** ** Overlays: text, image, signature *)

(** [okPage(n)]. *)
Definition okPage (n : entry) : Op Z :=
  s ← get;
  match n with
  | Some n => if decide (n < 1 ∨ totalPages s < n) then throw ValidationError
              else mret n
  | None => throw ValidationError
  end.

(** What the three overlay handlers compute inside [try] before they call
    [applyEdit]: the baseline from [rebuild], reopened, mutated by
    [mutate], and saved. *)
Definition edited_bytes (mutate : document → result document) : Op bytes :=
  base ← rebuild;
  doc ← PDFDocument_load base;
  match mutate doc with
  | Ok doc' => doc_save doc'
  | Err e => throw e
  end.

(** [doc.getPages()[pg - 1]] followed by a drawing call on that page;
    [draw] is the drawing call with its arguments. *)
Definition draw_on_page (pg : Z) (draw : page → option page) (doc : document)
  : result document :=
  match page_at doc (Some (pg - 1)) with
  | None => Err MutationFailed
  | Some p =>
      match draw p with
      | None => Err MutationFailed
      | Some p' => Ok (<[Z.to_nat (pg - 1) := p']> doc)
      end
  end.

(** The click handler of [addTextBtn]; [text] is the trimmed input. *)
Definition addTextBtn (text : string) (pg : entry) (draw : page → option page)
  : Op unit :=
  s ← get;
  raw ← from_option NoPdfLoaded (rawBytes s);
  if decide (text = EmptyString) then throw ValidationError else
  pg ← okPage pg;
  saved ← edited_bytes (draw_on_page pg draw);
  applyEdit saved.

(** ** DOWNLOAD *)

Definition downloadBtn : Op unit :=
  s ← get;
  raw ← from_option NoPdfLoaded (rawBytes s);
  out ← rebuild;
  dlBytes out EditedPdf.

End Editor.

(** ** The rebuild of the v4 script, with its hard validation

    The v4 script declares none of the names it takes from pdf-lib (its
    header: no destructuring at module level, all calls go through
    [PDFLib.X]), and its [rebuild] is the one function that still uses the
    bare names [PDFDocument], [degrees] and [getPageRotationAngle]. *)

Module V4.
Section V4.
Context `{Codec}.

(** Evaluating the name [PDFDocument], which nothing binds. *)
Definition PDFDocument_name : Op unit := throw ReferenceError.

Definition rebuild : Op bytes :=
  s ← get;
  raw ← from_option NoPdfLoaded (rawBytes s);
  PDFDocument_name;;
  src ← PDFDocument_load raw;
  PDFDocument_name;;
  dest ← PDFDocument_create;
  let total := length src in
  let safeOrder := filter (valid_index total) (pageOrder s) in
  if decide (length safeOrder ≠ length (pageOrder s))
  then throw StateCorruption else
  pages ← copyPages src safeOrder;
  dest' ← from_result
    (forEach (rebuild_page safeOrder (pageRots s)) pages (Ok dest));
  doc_save dest'.

End V4.
End V4.

(** ** The first script: [getRebuildBytes], [reloadFromBytes] and a split
    that goes through the rebuild

    Its state object names the same fields [pageRotations],
    [selectedPages] and [currentPreviewPage]; [state.pdfDoc] and
    [state.pdfJsDoc] are set together and are kept here as one parsed
    document.  It hands its byte arrays to [pdfjsLib.getDocument] as they
    are, without the [slice()] of [script.js]. *)

Module V1.
Section V1.
Context `{Codec}.

(** [page.getRotation().angle], unguarded. *)
Definition rotation_angle (p : page) : result Z :=
  match rotation p with
  | RotAngle a => Ok a
  | RotAbsent => Ok 0
  | RotThrows => Err CodecError
  end.

(** The callback of [copiedPages.forEach]; an error once it has thrown. *)
Definition rebuild_page (order : list entry) (rots : gmap entry Z)
    (dest : result document) (pg : page) (orderIdx : nat) : result document :=
  d ← dest;
  let origIdx := js_index order orderIdx in
  let addedRotation := default 0 (rots !! origIdx) in
  if decide (addedRotation ≠ 0)
  then current ← rotation_angle pg;
       pg' ← setRotation (Z.rem (current + addedRotation) 360) pg;
       Ok (addPage d pg')
  else Ok (addPage d pg).

Definition getRebuildBytes : Op bytes :=
  s ← get;
  raw ← from_option NoPdfLoaded (rawBytes s);
  srcDoc ← PDFDocument_load raw;
  newDoc ← PDFDocument_create;
  copiedPages ← copyPages srcDoc (pageOrder s);
  newDoc' ← from_result
    (forEach (rebuild_page (pageOrder s) (pageRots s)) copiedPages (Ok newDoc));
  doc_save newDoc'.

(** [pdfjsLib.getDocument({ data: bytes })] on the array that
    [state.rawBytes] points to: the worker takes its buffer, and what
    [state.rawBytes] holds from then on is the detached array. *)
Definition pdfjs_getDocument_of_rawBytes (b : bytes) : Op document :=
  modify (set_rawBytes (Some detached));;
  pdfjs_getDocument b.

Definition reloadFromBytes (b : bytes) : Op unit :=
  modify (set_rawBytes (Some b));;
  PDFDocument_load b;;
  doc ← pdfjs_getDocument_of_rawBytes b;
  modify (set_pdfJsDoc (Some doc));;
  modify (set_totalPages (Z.of_nat (length doc)));;
  s ← get;
  (if decide (length (pageOrder s) ≠ length doc)
   then modify (set_pageOrder (identity_order (length doc)));;
        modify (set_pageRots ∅)
   else mret tt);;
  s' ← get;
  previewMain (curPage s').

Definition splitBtn (from to : entry) : Op unit :=
  s ← get;
  from_option NoPdfLoaded (pdfJsDoc s);;
  match from, to with
  | Some from, Some to =>
      if decide (from < 1 ∨ totalPages s < to ∨ to < from)
      then throw InvalidRange else
      b ← getRebuildBytes;
      srcDoc ← PDFDocument_load b;
      newDoc ← PDFDocument_create;
      let indices := (λ i : nat, Some (from - 1 + Z.of_nat i))
                       <$> seq 0 (Z.to_nat (to - from + 1)) in
      copied ← copyPages srcDoc indices;
      pdfBytes ← doc_save (forEach (λ d p _, addPage d p) copied newDoc);
      dlBytes pdfBytes (PagesPdf from to)
  | _, _ => throw InvalidRange
  end.

End V1.
End V1.

(** ** The minimal script: a rebuild that validates before it loads

    Its state object has [pageCount] for [totalPages], [rotations] for
    [pageRots] and no selection; the download button runs [rebuild]
    itself. *)

Module Minimal.
Section Minimal.
Context `{Codec}.

(** The callback of [copiedPages.forEach]: the ledger value replaces the
    rotation of the page. *)
Definition rebuild_page (safeOrder : list entry) (rots : gmap entry Z)
    (newDoc : result document) (pg : page) (idx : nat) : result document :=
  d ← newDoc;
  let originalIndex := js_index safeOrder idx in
  let rotation := default 0 (rots !! originalIndex) in
  if decide (rotation ≠ 0)
  then pg' ← setRotation rotation pg; Ok (addPage d pg')
  else Ok (addPage d pg).

Definition rebuild : Op unit :=
  s ← get;
  raw ← from_option NoPdfLoaded (rawBytes s);
  let totalSrcPages := totalPages s in
  let safeOrder :=
    filter (λ i, valid_index (Z.to_nat totalSrcPages) i) (pageOrder s) in
  if decide (length safeOrder ≠ length (pageOrder s))
  then throw StateCorruption else
  srcDoc ← PDFDocument_load raw;
  newDoc ← PDFDocument_create;
  copiedPages ← copyPages srcDoc safeOrder;
  newDoc' ← from_result
    (forEach (rebuild_page safeOrder (pageRots s)) copiedPages (Ok newDoc));
  finalBytes ← doc_save newDoc';
  dlBytes finalBytes ModifiedPdf.

End Minimal.
End Minimal.

(** ** A codec to run the handlers on

    The serialised form of a handle is its list of pages, with the blank
    page when it has none; [None] is a file that [load] rejects, the
    detached array among them. *)
Definition mem_codec : Codec := {|
  bytes := option document;
  load b := b;
  save d := Some (match d with [] => [Page "" RotAbsent] | _ => d end);
  blank_page := Page "" RotAbsent;
  load_save d := eq_refl;
  detached := None;
  load_detached := eq_refl;
|}.

(** A fresh page and the world before any file is loaded. *)
Definition world0 `{Codec} : World := MkWorld S_init [] [].
Definition run `{Codec} {A} (m : Op A) (w : World) : World * result A := m w.

(** ** Notions used to state the properties *)

(** The delta the ledger holds for an original index, 0 when it holds
    none: [S.pageRots[i] || 0]. *)
Definition ledger_delta (rots : gmap entry Z) (i : entry) : Z :=
  default 0 (rots !! i).

(** The page that [rebuild] appends at position [i] for the copied page
    [pg], when [setRotation] accepts the angle. *)
Definition baked_page (order : list entry) (rots : gmap entry Z)
    (i : nat) (pg : page) : page :=
  if decide (ledger_delta rots (js_index order i) ≠ 0)
  then {| content := content pg;
          rotation := RotAngle
            (Z.rem (getPageRotationAngle pg + ledger_delta rots (js_index order i)) 360) |}
  else pg.

(** [setRotation] accepts what [rebuild] asks for a page with the delta
    [delta]: either [rebuild] leaves the page alone, or the angle it
    computes is a multiple of 90. *)
Definition turn_accepted (delta : Z) (pg : page) : Prop :=
  delta = 0 ∨ Z.rem (Z.rem (getPageRotationAngle pg + delta) 360) 90 = 0.

#[global] Instance turn_accepted_dec delta pg : Decision (turn_accepted delta pg).
Proof. unfold turn_accepted. apply _. Defined.

(** [setRotation] accepts every page that the order table [order] takes
    from the document [src] under the ledger [rots]. *)
Definition turns_accepted (src : document) (order : list entry)
    (rots : gmap entry Z) : Prop :=
  Forall (λ e, match page_at src e with
               | Some p => turn_accepted (ledger_delta rots e) p
               | None => True
               end) order.

#[global] Instance turns_accepted_dec src order rots :
  Decision (turns_accepted src order rots).
Proof. apply Forall_dec. intros e. destruct (page_at src e); apply _. Defined.

(** The elements of [arr] whose position, counted from [i], is not in
    [sel]. *)
Fixpoint keep_unselected_from {A} (sel : gset nat) (i : nat) (arr : list A) : list A :=
  match arr with
  | [] => []
  | x :: arr' =>
      if decide (i ∈ sel) then keep_unselected_from sel (S i) arr'
      else x :: keep_unselected_from sel (S i) arr'
  end.
Definition keep_unselected {A} (sel : gset nat) (arr : list A) : list A :=
  keep_unselected_from sel 0 arr.

(** The codec calls of a merge of [n] files. *)
Definition merge_calls (n : nat) : list codec_call :=
  [CCreate] ++ concat (replicate n [CLoad; CCopy]) ++ [CSave].

(** What the loop of a merge over [files] does, starting from the handle
    [merged]: the codec calls and the handle at the end, or the rejection
    of the first file that does not load. *)
Fixpoint merge_outcome `{Codec} (files : list bytes) (merged : document)
  : list codec_call * result document :=
  match files with
  | [] => ([], Ok merged)
  | f :: files' =>
      match load f with
      | None => ([CLoad], Err SourceUnreadable)
      | Some doc =>
          let '(cs, r) := merge_outcome files' (merged ++ doc) in
          ([CLoad; CCopy] ++ cs, r)
      end
  end.

(** The indices [splitBtn] asks [copyPages] for:
    [Array.from({ length: to - from + 1 }, (_, i) => from - 1 + i)]. *)
Definition range_indices (from to : Z) : list entry :=
  (λ i : nat, Some (from - 1 + Z.of_nat i)) <$> seq 0 (Z.to_nat (to - from + 1)).

(** What a split of the bytes [raw] at [from..to] does once the range was
    accepted: the codec calls, the files downloaded and the result. *)
Definition split_outcome `{Codec} (raw : bytes) (from to : Z)
  : list codec_call * list (filename * bytes) * result unit :=
  match load raw with
  | None => ([CLoad], [], Err SourceUnreadable)
  | Some src =>
      match mapM (page_at src) (range_indices from to) with
      | None => ([CLoad; CCreate; CCopy], [], Err CodecError)
      | Some pgs =>
          ([CLoad; CCreate; CCopy; CSave], [(PagesPdf from to, save pgs)], Ok tt)
      end
  end.

(** The pages [from..to] (1-indexed, inclusive) of a document. *)
Definition page_range (src : document) (from to : Z) : document :=
  take (Z.to_nat (to - from + 1)) (drop (Z.to_nat (from - 1)) src).



(** The worlds a page can be in after a file was ingested and any number
    of operations completed; the flag records whether a delete completed
    since the current snapshot was installed.  Sortable reports an
    [oldIndex] that is a position of the grid, hence the bound in
    [reach_reorder]. *)
Inductive reachable `{Codec} : bool → World → Prop :=
  | reach_ingest w b w' :
      run (ingestBytes b true) w = (w', Ok tt) →
      reachable false w'
  | reach_reorder d w oldIndex newIndex w' :
      reachable d w →
      (oldIndex < length (pageOrder (sess w)))%nat →
      run (onEnd oldIndex newIndex) w = (w', Ok tt) →
      reachable d w'
  | reach_select d w idx w' :
      reachable d w →
      run (thumbClick idx) w = (w', Ok tt) →
      reachable d w'
  | reach_select_all d w w' :
      reachable d w →
      run selectAllBtn w = (w', Ok tt) →
      reachable d w'
  | reach_rotate d w deg w' :
      reachable d w →
      run (rotateSel deg) w = (w', Ok tt) →
      reachable d w'
  | reach_delete d w confirmed w' :
      reachable d w →
      run (deleteSelectedBtn confirmed) w = (w', Ok tt) →
      reachable true w'
  | reach_commit d w text pg draw w' :
      reachable d w →
      run (addTextBtn text pg draw) w = (w', Ok tt) →
      reachable false w'.

(** The files a handler handed to [dlBytes], given the downloads before
    and after it ran. *)
Definition new_downloads `{Codec} (before after : World) : list (filename * bytes) :=
  drop (length (downloads before)) (downloads after).

(** ** Sample documents and worlds, on [mem_codec] *)

Section Samples.
#[local] Existing Instance mem_codec.

(** The world a handler leaves behind. *)
Definition after {A} (m : Op A) (w : World) : World := (run m w).1.

Definition page_A : page := Page "A" RotAbsent.
Definition page_B : page := Page "B" (RotAngle 90).
Definition page_C : page := Page "C" (RotAngle 450).
Definition page_D : page := Page "D" (RotAngle 0).
Definition doc_ABCD : document := [page_A; page_B; page_C; page_D].

(** A drawing call that appends the text to the page, and one that
    throws, as [drawText] does on a character the font cannot encode. *)
Definition draw_text (text : string) (p : page) : option page :=
  Some (Page (content p +:+ text) (rotation p)).
Definition draw_throws (p : page) : option page := None.

(** [doc_ABCD] freshly ingested. *)
Definition w_ABCD : World := after (ingestBytes (Some doc_ABCD) true) world0.
(** The same, page 2 rotated right. *)
Definition w_rotated : World := after (thumbClick 1;; rotateSel 90) w_ABCD.
(** The same bytes with the first page dragged to the third place and the
    page now first rotated right. *)
Definition w_edited : World :=
  after (onEnd 0 2;; thumbClick 0;; rotateSel 90) w_ABCD.
(** [doc_ABCD] with the first thumbnail selected. *)
Definition w_selected : World := after (thumbClick 0) w_ABCD.
(** [doc_ABCD] with the first page deleted. *)
Definition w_deleted : World := after (deleteSelectedBtn true) w_selected.
(** An order table with an entry outside the four pages. *)
Definition w_corrupt : World :=
  MkWorld (set_pageOrder [Some 0; Some 7] (sess w_ABCD)) [] [].
(** A single page whose rotation entry is 450, and one rotated by 90. *)
Definition w_C : World := after (ingestBytes (Some [page_C]) true) world0.
Definition w_B : World := after (ingestBytes (Some [page_B]) true) world0.
(** Two files queued for a merge: A with two pages, B with three. *)
Definition doc_A2 : document := [Page "A1" RotAbsent; Page "A2" RotAbsent].
Definition doc_B3 : document :=
  [Page "B1" RotAbsent; Page "B2" (RotAngle 90); Page "B3" RotAbsent].
Definition w_merge : World :=
  after (addMergeFiles [Some doc_A2; Some doc_B3]) w_edited.
(** A single page whose rotation entry is 45, rotated right once. *)
Definition page_S : page := Page "S" (RotAngle 45).
Definition w_S : World :=
  after (thumbClick 0;; rotateSel 90) (after (ingestBytes (Some [page_S]) true) world0).
(** A single page whose rotation entry cannot be read, rotated right
    once. *)
Definition page_T : page := Page "T" RotThrows.
Definition w_T : World :=
  after (thumbClick 0;; rotateSel 90) (after (ingestBytes (Some [page_T]) true) world0).
(** A document without a page, freshly ingested. *)
Definition w_empty : World := after (ingestBytes (Some []) true) world0.

End Samples.

(** * More of the scripts *)

Section EditorMore.
Context `{Codec}.

(** ** [script.js]: navigation, selection, clearing, the password button *)

(** The click handlers of [prevPage] and [nextPage]. *)
Definition prevPage : Op unit :=
  s ← get;
  previewMain (curPage s - 1).

(** The click handler of [deselectAllBtn]. *)
Definition deselectAllBtn : Op unit :=
  modify (set_selectedPgs ∅).

(** The click handler of [clearFile]: [Object.assign(S, {...})] followed by
    [S.selectedPgs.clear()]; the merge queue is not among the fields it
    assigns. *)
Definition clearFile : Op unit :=
  modify (λ s, MkSession None None [] ∅ (selectedPgs s) 1 0 (mergeFiles s));;
  modify (set_selectedPgs ∅).

(** The click handler of [applyPwdBtn]; [up] and [owner] are the values of
    the two password fields.  The passwords only go into the toast. *)
Definition applyPwdBtn (up owner : string) : Op unit :=
  s ← get;
  raw ← from_option NoPdfLoaded (rawBytes s);
  if decide (up = EmptyString) then throw ValidationError else
  b ← rebuild;
  dlBytes b DocumentPdf.

End EditorMore.

(** ** [script.js]: the colour of the text overlay *)

(** The value of a hexadecimal digit, either case: what [[a-f\d]] matches
    under the [i] flag and [parseInt(_, 16)] reads. *)
Definition hex_digit (c : Ascii.ascii) : option Z :=
  let n := Z.of_N (Ascii.N_of_ascii c) in
  if decide (48 ≤ n ≤ 57) then Some (n - 48)
  else if decide (97 ≤ n ≤ 102) then Some (n - 87)
  else if decide (65 ≤ n ≤ 70) then Some (n - 55)
  else None.

(** [parseInt(m[k], 16)] for a group of two hexadecimal digits. *)
Definition hex_pair (c1 c2 : Ascii.ascii) : option Z :=
  d1 ← hex_digit c1; d2 ← hex_digit c2; Some (16 * d1 + d2).

Record rgb : Type := RGB { rgb_r : Z; rgb_g : Z; rgb_b : Z }.

(** [function hexRgb(hex)]: the pattern
    [/^#?([a-f\d]{2})([a-f\d]{2})([a-f\d]{2})$/i], black when it does
    not match. *)
Definition hexRgb (hex : string) : rgb :=
  let digits :=
    match hex with
    | String c rest => if decide (String c EmptyString = "#") then rest else hex
    | EmptyString => hex
    end in
  match digits with
  | String c1 (String c2 (String c3 (String c4 (String c5 (String c6 EmptyString))))) =>
      match hex_pair c1 c2, hex_pair c3 c4, hex_pair c5 c6 with
      | Some r, Some g, Some b => RGB r g b
      | _, _, _ => RGB 0 0 0
      end
  | _ => RGB 0 0 0
  end.

(** ** The v4 script: its delete handler *)

Module V4Script.
Section V4Script.
Context `{Codec}.

(** The empty selection and the selection of everything share one guard
    and one message. *)
Definition deleteSelectedBtn (confirmed : bool) : Op unit :=
  s ← get;
  if decide (size (selectedPgs s) = 0%nat
             ∨ (length (pageOrder s) ≤ size (selectedPgs s))%nat)
  then throw CannotDeleteAll else
  if negb confirmed then throw Cancelled else
  modify (set_pageOrder
            (splice_each (sort_desc (elements (selectedPgs s))) (pageOrder s)));;
  modify (set_selectedPgs ∅);;
  modify (λ s, set_totalPages (Z.of_nat (length (pageOrder s))) s);;
  modify (λ s, set_curPage (Z.min (curPage s) (totalPages s)) s);;
  renderGrid;;
  s' ← get;
  unawaited (previewMain (curPage s')).

End V4Script.
End V4Script.

(** ** The first script: upload, delete and the text overlay

    As in [V1], [state.pdfDoc] and [state.pdfJsDoc] are one parsed
    document, [renderPageGrid] is [renderGrid] and [renderPreview] is
    [previewMain]. *)

Module FirstScript.
Section FirstScript.
Context `{Codec}.

(** [handleFileUpload(file)]: pdf-lib loads the bytes before anything is
    assigned; PDF.js then gets the array that [state.rawBytes] points
    to. *)
Definition handleFileUpload (b : bytes) : Op unit :=
  PDFDocument_load b;;
  modify (set_rawBytes (Some b));;
  doc ← V1.pdfjs_getDocument_of_rawBytes b;
  modify (set_pdfJsDoc (Some doc));;
  modify (set_totalPages (Z.of_nat (length doc)));;
  modify (set_pageOrder (identity_order (length doc)));;
  modify (set_pageRots ∅);;
  modify (set_selectedPgs ∅);;
  modify (set_curPage 1);;
  s ← get;
  previewMain (curPage s).

(** The confirmation comes before the delete-all test, and the current
    page is left alone. *)
Definition deleteSelectedBtn (confirmed : bool) : Op unit :=
  s ← get;
  if decide (size (selectedPgs s) = 0%nat) then throw EmptySelection else
  if negb confirmed then throw Cancelled else
  if decide (length (pageOrder s) ≤ size (selectedPgs s))%nat
  then throw CannotDeleteAll else
  modify (set_pageOrder
            (splice_each (sort_desc (elements (selectedPgs s))) (pageOrder s)));;
  modify (set_selectedPgs ∅);;
  modify (λ s, set_totalPages (Z.of_nat (length (pageOrder s))) s);;
  renderGrid.

(** The click handler of [addTextBtn]: the chain ends in
    [reloadFromBytes]. *)
Definition addTextBtn (text : string) (pageNum : entry)
    (draw : page → option page) : Op unit :=
  s ← get;
  from_option NoPdfLoaded (pdfJsDoc s);;
  if decide (text = EmptyString) then throw ValidationError else
  match pageNum with
  | None => throw ValidationError
  | Some n =>
      if decide (n < 1 ∨ totalPages s < n) then throw ValidationError else
      b ← V1.getRebuildBytes;
      doc ← PDFDocument_load b;
      match draw_on_page n draw doc with
      | Err e => throw e
      | Ok doc' =>
          newBytes ← doc_save doc';
          V1.reloadFromBytes newBytes
      end
  end.

End FirstScript.
End FirstScript.

(** ** [script.js]: the merge panel

    The four merge fields of [S] taken by themselves; no function of the
    panel reads or writes another field. *)

Module MergePanel.
Section MergePanel.
Context `{Codec}.

Record State : Type := MkState {
  mergeFiles : list bytes;       (* File[] *)
  mergeJsDocs : list document;   (* pdfjsLib docs for merge preview *)
  mergeCurDoc : Z;               (* which merge doc is previewed *)
  mergeCurPg : Z;
}.

Definition init : State := MkState [] [] 0 1.

(** [arr[i]] for a number [i]: [undefined] for a negative index or one past
    the end. *)
Definition doc_at (docs : list document) (i : Z) : option document :=
  if decide (0 ≤ i) then docs !! Z.to_nat i else None.

(** [renderMergePreview()]: the state it leaves, and whether its
    [getPage] was accepted. *)
Definition renderMergePreview (s : State) : State * result unit :=
  match mergeJsDocs s with
  | [] => (s, Ok tt)
  | _ =>
      match doc_at (mergeJsDocs s) (mergeCurDoc s) with
      | None => (s, Ok tt)
      | Some doc =>
          let pg := Z.max 1 (Z.min (mergeCurPg s) (Z.of_nat (length doc))) in
          (MkState (mergeFiles s) (mergeJsDocs s) (mergeCurDoc s) pg,
           match page_at doc (Some (pg - 1)) with
           | Some _ => Ok tt
           | None => Err CodecError
           end)
      end
  end.

(** The loop of [addMergeFiles]: the files pushed, or the state at the
    first file that does not parse. *)
Fixpoint push_files (files : list bytes) (s : State) : State * result unit :=
  match files with
  | [] => (s, Ok tt)
  | f :: files' =>
      match load f with
      | None => (s, Err SourceUnreadable)
      | Some jsDoc =>
          push_files files'
            (MkState (mergeFiles s ++ [f]) (mergeJsDocs s ++ [jsDoc])
               (mergeCurDoc s) (mergeCurPg s))
      end
  end.

Definition addMergeFiles (files : list bytes) (s : State) : State * result unit :=
  match push_files files s with
  | (s1, Err e) => (s1, Err e)
  | (s1, Ok _) =>
      renderMergePreview
        (MkState (mergeFiles s1) (mergeJsDocs s1)
           (Z.max 0 (Z.of_nat (length (mergeFiles s1)) - 1)) 1)
  end.

(** [window.removeMergeFile(i)]; the preview it starts is not awaited. *)
Definition removeMergeFile (i : nat) (s : State) : State :=
  let files := (splice i 1 [] (mergeFiles s)).2 in
  let docs := (splice i 1 [] (mergeJsDocs s)).2 in
  let cur := Z.min (mergeCurDoc s) (Z.of_nat (length files) - 1) in
  let cur := if decide (cur < 0) then 0 else cur in
  (renderMergePreview (MkState files docs cur 1)).1.

(** [window.previewMergeDoc(i)]. *)
Definition previewMergeDoc (i : Z) (s : State) : State :=
  (renderMergePreview (MkState (mergeFiles s) (mergeJsDocs s) i 1)).1.

(** The click handlers of the four navigation buttons. *)
Definition mergePrevDoc (s : State) : State :=
  (renderMergePreview
     (MkState (mergeFiles s) (mergeJsDocs s) (mergeCurDoc s - 1) 1)).1.
Definition mergeNextDoc (s : State) : State :=
  (renderMergePreview
     (MkState (mergeFiles s) (mergeJsDocs s) (mergeCurDoc s + 1) 1)).1.
Definition mergePrevPg (s : State) : State :=
  (renderMergePreview
     (MkState (mergeFiles s) (mergeJsDocs s) (mergeCurDoc s) (mergeCurPg s - 1))).1.
Definition mergeNextPg (s : State) : State :=
  (renderMergePreview
     (MkState (mergeFiles s) (mergeJsDocs s) (mergeCurDoc s) (mergeCurPg s + 1))).1.

(** [S.mergeJsDocs[S.mergeCurDoc]?.numPages || 1]. *)
Definition numPages_or_1 (s : State) : Z :=
  match doc_at (mergeJsDocs s) (mergeCurDoc s) with
  | Some doc => if decide (length doc = 0%nat) then 1 else Z.of_nat (length doc)
  | None => 1
  end.

(** What [updateMergeList] computes for the [disabled] attribute of the
    four navigation buttons. *)
Definition prevDoc_disabled (s : State) : Prop := mergeCurDoc s ≤ 0.
Definition nextDoc_disabled (s : State) : Prop :=
  Z.of_nat (length (mergeJsDocs s)) - 1 ≤ mergeCurDoc s.
Definition prevPg_disabled (s : State) : Prop := mergeCurPg s ≤ 1.
Definition nextPg_disabled (s : State) : Prop :=
  mergeJsDocs s = [] ∨ numPages_or_1 s ≤ mergeCurPg s.

(** The preview documents are the parses of the queued files, in order;
    the previewed document is one of them (document 0 when there is
    none); the previewed page is at least 1 and at most the page count of
    that document (1 when there is no document or it has no page). *)
Definition aligned (s : State) : Prop :=
  mapM load (mergeFiles s) = Some (mergeJsDocs s) ∧
  0 ≤ mergeCurDoc s ≤ Z.max 0 (Z.of_nat (length (mergeJsDocs s)) - 1) ∧
  1 ≤ mergeCurPg s ≤ numPages_or_1 s.

(** The states the panel can be in: files are added, removed or previewed
    by the buttons of the list, and the navigation buttons are clicked
    while [updateMergeList] has them enabled. *)
Inductive reachable : State → Prop :=
  | reach_init : reachable init
  | reach_add s files s' r :
      reachable s → addMergeFiles files s = (s', r) → reachable s'
  | reach_remove s i :
      reachable s → (i < length (mergeFiles s))%nat →
      reachable (removeMergeFile i s)
  | reach_preview s i :
      reachable s → (i < length (mergeFiles s))%nat →
      reachable (previewMergeDoc (Z.of_nat i) s)
  | reach_prevDoc s :
      reachable s → ¬ prevDoc_disabled s → reachable (mergePrevDoc s)
  | reach_nextDoc s :
      reachable s → ¬ nextDoc_disabled s → reachable (mergeNextDoc s)
  | reach_prevPg s :
      reachable s → ¬ prevPg_disabled s → reachable (mergePrevPg s)
  | reach_nextPg s :
      reachable s → ¬ nextPg_disabled s → reachable (mergeNextPg s).

End MergePanel.
End MergePanel.

(** ** Notions used to state the further properties *)

(** The hexadecimal digit for a value below 16, in either case, and the
    two digits of a value below 256. *)
Definition to_hex_digit (upper : bool) (d : Z) : Ascii.ascii :=
  Ascii.ascii_of_N
    (Z.to_N (if decide (d < 10) then 48 + d
             else if upper then 55 + d else 87 + d)).
Definition hex2 (upper : bool) (n : Z) : string :=
  String (to_hex_digit upper (n / 16))
    (String (to_hex_digit upper (n `mod` 16)) EmptyString).

(** The whole of what the handlers keep true: the preview document is the
    parse of the installed bytes, the order table holds distinct indices
    into it, [S.totalPages] is the table's length and [S.curPage] is a
    position of the table (1 when the table is empty). *)
Definition session_ok `{Codec} (s : Session) : Prop :=
  ∃ raw src,
    rawBytes s = Some raw ∧ load raw = Some src ∧ pdfJsDoc s = Some src ∧
    NoDup (pageOrder s) ∧
    Forall (valid_index (length src)) (pageOrder s) ∧
    totalPages s = Z.of_nat (length (pageOrder s)) ∧
    1 ≤ curPage s ≤ Z.max 1 (totalPages s).

(** * Properties *)

(** Unfold the plumbing of [Op]. *)
Ltac op_unfold :=
  unfold run, mbind, mret, Op_bind, Op_ret, bind, ret, throw, get, modify, log,
    dlBytes, from_option, from_result, unawaited in *.

Section Properties.
Context `{Codec}.

(** ** Running [rebuild] *)

Lemma load_save_pages (d : document) : load (save d) = Some (saved_pages d).
Proof. apply load_save. Qed.

Lemma load_save_nonempty (d : document) : d ≠ [] → load (save d) = Some d.
Proof. intros Hd. rewrite load_save. by destruct d. Qed.

Lemma saved_pages_nonempty (d : document) : d ≠ [] → saved_pages d = d.
Proof. by destruct d. Qed.

Lemma rebuild_page_step order rots d pg i :
  rebuild_page order rots (Ok d) pg i =
    if decide (turn_accepted (ledger_delta rots (js_index order i)) pg)
    then Ok (d ++ [baked_page order rots i pg])
    else Err RotationRejected.
Proof.
  unfold rebuild_page, baked_page, turn_accepted, ledger_delta, setRotation, addPage.
  unfold mbind, result_bind.
  set (delta := default 0 (rots !! js_index order i)).
  destruct (decide (delta ≠ 0)) as [Hd|Hd].
  - destruct (decide (Z.rem (Z.rem (getPageRotationAngle pg + delta) 360) 90 = 0))
      as [Hr|Hr].
    + by rewrite decide_True by by right.
    + rewrite decide_False; [done|]. intros [?|?]; done.
  - rewrite decide_True; [done|]. left. lia.
Qed.

Lemma forEach_from_rebuild_page_Err order rots pages e n :
  forEach_from (rebuild_page order rots) n pages (Err e) = Err e.
Proof. revert n. induction pages as [|pg pages IH]; intros n; simpl; [done|apply IH]. Qed.

Lemma forEach_from_rebuild_page order rots pages dest n :
  (∀ i pg, pages !! i = Some pg →
     turn_accepted (ledger_delta rots (js_index order (n + i))) pg) →
  forEach_from (rebuild_page order rots) n pages (Ok dest) =
  Ok (dest ++ imap (λ i, baked_page order rots (n + i)) pages).
Proof.
  revert dest n. induction pages as [|pg pages IH]; intros dest n Hacc.
  - simpl. by rewrite app_nil_r.
  - cbn [forEach_from]. rewrite rebuild_page_step.
    rewrite decide_True.
    2:{ specialize (Hacc 0%nat pg eq_refl). by rewrite Nat.add_0_r in Hacc. }
    rewrite IH.
    2:{ intros i p Hp. specialize (Hacc (S i) p Hp).
        by replace (S n + i)%nat with (n + S i)%nat by lia. }
    rewrite <- app_assoc. simpl. rewrite Nat.add_0_r. do 3 f_equal.
    apply imap_ext. intros i x _. simpl. f_equal. lia.
Qed.

Lemma forEach_from_rebuild_page_rejected order rots pages dest n i pg :
  pages !! i = Some pg →
  ¬ turn_accepted (ledger_delta rots (js_index order (n + i))) pg →
  forEach_from (rebuild_page order rots) n pages (Ok dest) = Err RotationRejected.
Proof.
  revert dest n i. induction pages as [|p pages IH]; intros dest n i Hp Hrej; [done|].
  cbn [forEach_from]. rewrite rebuild_page_step.
  case_decide as Hhead.
  - destruct i as [|i].
    + injection Hp as ->. by rewrite Nat.add_0_r in Hrej.
    + apply (IH _ _ i); [done|].
      by replace (S n + i)%nat with (n + S i)%nat by lia.
  - apply forEach_from_rebuild_page_Err.
Qed.

Lemma page_at_valid src i :
  valid_index (length src) i → is_Some (page_at src i).
Proof.
  destruct i as [z|]; simpl; [|done]. intros [? ?].
  rewrite decide_True by done. apply lookup_lt_is_Some. lia.
Qed.

Lemma copy_lookup src (order : list entry) pages k e :
  mapM (page_at src) order = Some pages → order !! k = Some e →
  ∃ p, pages !! k = Some p ∧ page_at src e = Some p.
Proof.
  rewrite mapM_Some. intros HF He.
  destruct (Forall2_lookup_l _ _ _ _ _ HF He) as (p & ? & ?). eauto.
Qed.

Lemma copy_lookup_page src (order : list entry) pages k pg :
  mapM (page_at src) order = Some pages → pages !! k = Some pg →
  ∃ i : Z, order !! k = Some (Some i) ∧ src !! Z.to_nat i = Some pg.
Proof.
  rewrite mapM_Some. intros HF Hp.
  destruct (Forall2_lookup_r _ _ _ _ _ HF Hp) as ([i|] & Ho & Hat); [|done].
  exists i. split; [done|]. simpl in Hat. by case_decide.
Qed.

Lemma copy_valid src (order : list entry) :
  Forall (valid_index (length src)) order → is_Some (mapM (page_at src) order).
Proof.
  intros HF. apply mapM_is_Some. eapply Forall_impl; [exact HF|].
  intros e He. by apply page_at_valid.
Qed.

Lemma copied_turns_accepted src (order : list entry) rots pages :
  mapM (page_at src) order = Some pages →
  turns_accepted src order rots →
  ∀ i pg, pages !! i = Some pg →
    turn_accepted (ledger_delta rots (js_index order (0 + i))) pg.
Proof.
  intros Hcopy Hacc k pg Hp.
  rewrite mapM_Some in Hcopy.
  destruct (Forall2_lookup_r _ _ _ _ _ Hcopy Hp) as (e & Ho & Hat).
  unfold js_index. simpl. rewrite Ho. simpl.
  pose proof (Forall_lookup_1 _ _ _ _ Hacc Ho) as He. simpl in He.
  by rewrite Hat in He.
Qed.

Lemma turns_accepted_empty src (order : list entry) : turns_accepted src order ∅.
Proof.
  apply Forall_forall. intros e _. destruct (page_at src e); [|done].
  left. unfold ledger_delta. by rewrite lookup_empty.
Qed.

Lemma rebuild_run (w : World) raw src pages :
  rawBytes (sess w) = Some raw → load raw = Some src →
  mapM (page_at src) (pageOrder (sess w)) = Some pages →
  turns_accepted src (pageOrder (sess w)) (pageRots (sess w)) →
  run rebuild w =
    (MkWorld (sess w) (calls w ++ [CLoad; CCreate; CCopy; CSave]) (downloads w),
     Ok (save (imap (baked_page (pageOrder (sess w)) (pageRots (sess w))) pages))).
Proof.
  intros Hraw Hload Hcopy Hacc. unfold rebuild.
  unfold run, mbind, Op_bind, bind, get, PDFDocument_load, PDFDocument_create,
    copyPages, doc_save, log, mbind, Op_bind, bind. simpl.
  rewrite Hraw. simpl. rewrite Hload. simpl. rewrite Hcopy. simpl.
  unfold forEach. rewrite forEach_from_rebuild_page
    by by eapply copied_turns_accepted.
  simpl. rewrite <- !app_assoc. reflexivity.
Qed.

Lemma rebuild_run_rejected (w : World) raw src :
  rawBytes (sess w) = Some raw → load raw = Some src →
  Forall (valid_index (length src)) (pageOrder (sess w)) →
  ¬ turns_accepted src (pageOrder (sess w)) (pageRots (sess w)) →
  run rebuild w =
    (MkWorld (sess w) (calls w ++ [CLoad; CCreate; CCopy]) (downloads w),
     Err RotationRejected).
Proof.
  intros Hraw Hload Hvalid Hrej.
  destruct (copy_valid src _ Hvalid) as [pages Hcopy].
  apply not_Forall_Exists in Hrej; [|intros e; destruct (page_at src e); apply _].
  apply Exists_exists in Hrej as (e & He & Hrej).
  apply list_elem_of_lookup in He as [k Hk].
  destruct (copy_lookup _ _ _ _ _ Hcopy Hk) as (p & Hp & Hat).
  unfold compose in Hrej. rewrite Hat in Hrej.
  unfold rebuild.
  unfold run, mbind, Op_bind, bind, get, PDFDocument_load, PDFDocument_create,
    copyPages, doc_save, log, mbind, Op_bind, bind. simpl.
  rewrite Hraw. simpl. rewrite Hload. simpl. rewrite Hcopy. simpl.
  unfold forEach. rewrite (forEach_from_rebuild_page_rejected _ _ _ _ _ k p Hp).
  - simpl. by rewrite <- !app_assoc.
  - unfold js_index. simpl. by rewrite Hk.
Qed.

(** C1, as the code has it.  For a loaded snapshot and an order table of
    valid original indices, [rebuild] loads, creates and copies.  When
    [setRotation] accepts every angle it is asked for, [rebuild] saves, and
    the saved file has one page per entry of the table (and one blank page
    when the table is empty); page [k] has the content of source page
    [order[k]].  Its rotation is the source page's own when the ledger
    holds no delta (or 0) for [order[k]], and [(intrinsic + delta) % 360]
    otherwise, an absent or unreadable intrinsic rotation counting as 0.
    Whenever the intrinsic rotation lies in [0, 360) and the delta is not
    negative, that is [(intrinsic + delta) mod 360].  When some page of the
    table has a delta and [(intrinsic + delta) % 360] is not a multiple of
    90, [setRotation] throws and [rebuild] fails after the copy, without a
    save. *)
Theorem rebuild_output (w : World) (raw : bytes) (src : document) :
  rawBytes (sess w) = Some raw →
  load raw = Some src →
  Forall (valid_index (length src)) (pageOrder (sess w)) →
  (turns_accepted src (pageOrder (sess w)) (pageRots (sess w)) →
   ∃ out outdoc,
    run rebuild w =
      (MkWorld (sess w) (calls w ++ [CLoad; CCreate; CCopy; CSave]) (downloads w),
       Ok out) ∧
    load out = Some outdoc ∧
    (pageOrder (sess w) ≠ [] → length outdoc = length (pageOrder (sess w))) ∧
    (pageOrder (sess w) = [] → outdoc = [blank_page]) ∧
    ∀ (k : nat) (i : Z), pageOrder (sess w) !! k = Some (Some i) →
      ∃ p q, src !! Z.to_nat i = Some p ∧ outdoc !! k = Some q ∧
        content q = content p ∧
        (ledger_delta (pageRots (sess w)) (Some i) = 0 → rotation q = rotation p) ∧
        (ledger_delta (pageRots (sess w)) (Some i) ≠ 0 →
           rotation q = RotAngle (Z.rem (getPageRotationAngle p
                          + ledger_delta (pageRots (sess w)) (Some i)) 360)) ∧
        (0 ≤ getPageRotationAngle p < 360 →
         0 ≤ ledger_delta (pageRots (sess w)) (Some i) →
           getPageRotationAngle q =
             (getPageRotationAngle p + ledger_delta (pageRots (sess w)) (Some i))
               `mod` 360)) ∧
  (¬ turns_accepted src (pageOrder (sess w)) (pageRots (sess w)) →
   run rebuild w =
     (MkWorld (sess w) (calls w ++ [CLoad; CCreate; CCopy]) (downloads w),
      Err RotationRejected)).
Proof.
  intros Hraw Hload Hvalid. split; [|by apply (rebuild_run_rejected w raw src)].
  intros Hacc.
  destruct (copy_valid src _ Hvalid) as [pages Hcopy].
  assert (Hlen : length pages = length (pageOrder (sess w))).
  { apply mapM_Some in Hcopy. symmetry. by eapply Forall2_length. }
  eexists _, _. split; [by apply (rebuild_run w raw src)|].
  split; [apply load_save_pages|]. split; [|split].
  { intros Hne. rewrite saved_pages_nonempty.
    - by rewrite length_imap.
    - intros Hnil. apply (f_equal length) in Hnil.
      rewrite length_imap, Hlen in Hnil. by destruct (pageOrder (sess w)). }
  { intros Hnil. rewrite Hnil in Hlen. by destruct pages. }
  intros k i Hk.
  destruct (copy_lookup _ _ _ _ _ Hcopy Hk) as (p & Hp & Hat).
  assert (Hsrc : src !! Z.to_nat i = Some p).
  { simpl in Hat. by case_decide. }
  exists p, (baked_page (pageOrder (sess w)) (pageRots (sess w)) k p).
  split; [done|]. split.
  { rewrite saved_pages_nonempty; [by rewrite list_lookup_imap, Hp|].
    intros Hnil. apply (f_equal length) in Hnil. rewrite length_imap in Hnil.
    apply lookup_lt_Some in Hp. simpl in Hnil. lia. }
  unfold baked_page, js_index. rewrite Hk. simpl.
  set (delta := ledger_delta _ _).
  case_decide as Hd; simpl.
  - split; [done|]. split; [done|]. split; [done|].
    intros [? ?] ?. unfold getPageRotationAngle at 1. simpl.
    by rewrite Z.rem_mod_nonneg by lia.
  - split; [done|]. split; [done|]. split; [done|].
    intros ? _. assert (delta = 0) as -> by lia.
    by rewrite Z.add_0_r, Z.mod_small by lia.
Qed.


Lemma identity_order_lookup n k :
  (k < n)%nat → identity_order n !! k = Some (Some (Z.of_nat k)).
Proof.
  intros Hk. unfold identity_order. rewrite list_lookup_fmap.
  rewrite lookup_seq_lt by done. done.
Qed.

Lemma identity_order_length n : length (identity_order n) = n.
Proof. unfold identity_order. by rewrite length_fmap, length_seq. Qed.

Lemma previewMain_ok (w w' : World) (pg : Z) (doc : document) :
  pdfJsDoc (sess w) = Some doc →
  run (previewMain pg) w = (w', Ok tt) →
  w' = MkWorld (set_curPage (Z.max 1 (Z.min pg (totalPages (sess w)))) (sess w))
         (calls w) (downloads w).
Proof.
  intros Hdoc. unfold previewMain. op_unfold. rewrite Hdoc. simpl.
  unfold pdfjs_getPage. op_unfold.
  destruct (option_bind _ _ _ _); simpl; congruence.
Qed.

Lemma applyEdit_ok (w w' : World) (b : bytes) :
  run (applyEdit b) w = (w', Ok tt) →
  ∃ doc,
    load b = Some doc ∧
    rawBytes (sess w') = Some b ∧
    totalPages (sess w') = Z.of_nat (length doc) ∧
    pageOrder (sess w') = identity_order (length doc) ∧
    pageRots (sess w') = ∅ ∧
    selectedPgs (sess w') = selectedPgs (sess w) ∧
    curPage (sess w') = Z.max 1 (Z.min (curPage (sess w)) (Z.of_nat (length doc))) ∧
    1 ≤ curPage (sess w') ≤ Z.of_nat (length doc).
Proof.
  unfold applyEdit, pdfjs_getDocument. op_unfold. simpl.
  destruct (load b) as [doc|] eqn:Hload; simpl; [|congruence].
  unfold previewMain, pdfjs_getPage. op_unfold. simpl.
  set (n := Z.of_nat (length doc)).
  set (pg := Z.max 1 (Z.min (Z.min (curPage (sess w)) n) n)).
  destruct (option_bind _ _ _ _) as [p|] eqn:Hp; simpl; [|congruence].
  intros [= <-]. simpl. exists doc.
  assert (Hn : 1 ≤ n).
  { destruct (decide (1 ≤ n)) as [|Hn]; [done|].
    assert (length doc = 0%nat) as Hl by lia.
    unfold js_index in Hp. rewrite Hl in Hp. done. }
  repeat split; try done; subst pg; lia.
Qed.


Lemma applyEdit_doc (w w' : World) (b : bytes) :
  run (applyEdit b) w = (w', Ok tt) → pdfJsDoc (sess w') = load b.
Proof.
  unfold applyEdit, pdfjs_getDocument. op_unfold. simpl.
  destruct (load b) as [doc|] eqn:Hload; simpl; [|congruence].
  unfold previewMain, pdfjs_getPage. op_unfold. simpl.
  destruct (option_bind _ _ _ _) as [p|]; simpl; [|congruence].
  by intros [= <-].
Qed.

(** [applyEdit] assigns [S.rawBytes] before it parses the bytes: on bytes
    that do not parse it rejects with the new bytes already in place and
    the order table and ledger of the old ones. *)
Lemma applyEdit_unreadable (w : World) (b : bytes) :
  load b = None →
  run (applyEdit b) w =
    (MkWorld (set_rawBytes (Some b) (sess w)) (calls w) (downloads w),
     Err SourceUnreadable).
Proof.
  intros Hload. unfold applyEdit, pdfjs_getDocument. op_unfold. simpl.
  by rewrite Hload.
Qed.

Lemma rebuild_sess (w : World) :
  sess (run rebuild w).1 = sess w ∧ downloads (run rebuild w).1 = downloads w.
Proof.
  unfold rebuild, PDFDocument_load, PDFDocument_create, copyPages, doc_save.
  op_unfold. simpl.
  destruct (rawBytes (sess w)) as [raw|]; simpl; [|done].
  destruct (load raw) as [src|]; simpl; [|done].
  destruct (mapM _ _); simpl; [|done].
  destruct (forEach _ _ _); simpl; done.
Qed.

Lemma edited_bytes_sess (mutate : document → result document) (w : World) :
  sess (run (edited_bytes mutate) w).1 = sess w.
Proof.
  destruct (rebuild_sess w) as [Hs _]. revert Hs.
  unfold edited_bytes. unfold run, mbind, Op_bind, bind.
  destruct (rebuild w) as [w1 [base|e]]; simpl; [|done].
  intros <-. unfold PDFDocument_load, doc_save. op_unfold. simpl.
  destruct (load base) as [doc|]; simpl; [|done].
  destruct (mutate doc); done.
Qed.

(** C3.  Rebuilding the baseline, reopening it, mutating it and saving it
    all happen before [applyEdit] is called and none of them writes to
    [S]: when that part of the add-text handler fails, the handler reports
    an error and the state object (bytes, order table, ledger, selection,
    current page) is exactly what it was. *)
Theorem failed_edit_commits_nothing (w w1 : World) (text : string) (n : Z)
    (draw : page → option page) (e : error) :
  run (edited_bytes (draw_on_page n draw)) w = (w1, Err e) →
  sess w1 = sess w ∧
  ∃ e', (run (addTextBtn text (Some n) draw) w).2 = Err e' ∧
        sess (run (addTextBtn text (Some n) draw) w).1 = sess w.
Proof.
  intros Hfail.
  split. { pose proof (edited_bytes_sess (draw_on_page n draw) w) as Hs.
           unfold run in *. by rewrite Hfail in Hs. }
  unfold addTextBtn, okPage. unfold run, mbind, Op_bind, bind, get, from_option.
  destruct (rawBytes (sess w)) as [raw|]; simpl; [|by eexists].
  case_decide; simpl; [by eexists|].
  case_decide; simpl; [by eexists|].
  unfold run in Hfail. rewrite Hfail. simpl.
  pose proof (edited_bytes_sess (draw_on_page n draw) w) as Hs.
  unfold run in Hs. rewrite Hfail in Hs. eauto.
Qed.

Lemma addTextBtn_ok (w w' : World) (text : string) (pg : entry)
    (draw : page → option page) :
  run (addTextBtn text pg draw) w = (w', Ok tt) →
  ∃ b doc,
    load b = Some doc ∧
    rawBytes (sess w') = Some b ∧
    totalPages (sess w') = Z.of_nat (length doc) ∧
    pageOrder (sess w') = identity_order (length doc) ∧
    pageRots (sess w') = ∅ ∧
    selectedPgs (sess w') = selectedPgs (sess w) ∧
    curPage (sess w') = Z.max 1 (Z.min (curPage (sess w)) (Z.of_nat (length doc))) ∧
    1 ≤ curPage (sess w') ≤ Z.of_nat (length doc).
Proof.
  unfold addTextBtn, okPage. unfold run, mbind, Op_bind, bind, get, from_option.
  destruct (rawBytes (sess w)) as [raw|]; simpl; [|done].
  case_decide; simpl; [done|].
  destruct pg as [n|]; simpl; [|done].
  case_decide; simpl; [done|].
  pose proof (edited_bytes_sess (draw_on_page n draw) w) as Hs. unfold run in Hs.
  destruct (edited_bytes _ w) as [w1 [saved|e]]; simpl in *; [|done].
  intros Hrun. destruct (applyEdit_ok w1 w' saved Hrun) as (doc & Hd).
  exists saved, doc. by rewrite <- Hs.
Qed.

Lemma addTextBtn_bytes (w w' : World) (text : string) (pg : entry)
    (draw : page → option page) :
  run (addTextBtn text pg draw) w = (w', Ok tt) →
  ∃ n b w1,
    pg = Some n ∧ 1 ≤ n ≤ totalPages (sess w) ∧
    run (edited_bytes (draw_on_page n draw)) w = (w1, Ok b) ∧
    run (applyEdit b) w1 = (w', Ok tt).
Proof.
  unfold addTextBtn, okPage. unfold run, mbind, Op_bind, bind, get, from_option.
  destruct (rawBytes (sess w)) as [raw|]; simpl; [|done].
  case_decide; simpl; [done|].
  destruct pg as [n|]; simpl; [|done].
  case_decide as Hn; simpl; [done|].
  destruct (edited_bytes (draw_on_page n draw) w) as [w1 [saved|e]] eqn:Hed;
    simpl; [|done].
  intros Hrun. exists n, saved, w1.
  split; [done|]. split; [lia|]. split; [exact Hed|]. exact Hrun.
Qed.

(** C2, as the code has it.  When the add-text handler completes, the
    bytes that the edit saved (the rebuilt baseline, reopened, drawn on
    and serialised) are the new snapshot and the document previewed is
    their parse, the order table is the identity over the new page count,
    the ledger is empty and the current page lies within
    [1, new page count]; the selection is what it was before the edit. *)
Theorem addText_commit (w w' : World) (text : string) (pg : entry)
    (draw : page → option page) :
  run (addTextBtn text pg draw) w = (w', Ok tt) →
  ∃ n b doc,
    pg = Some n ∧
    (run (edited_bytes (draw_on_page n draw)) w).2 = Ok b ∧
    rawBytes (sess w') = Some b ∧
    load b = Some doc ∧
    pdfJsDoc (sess w') = Some doc ∧
    totalPages (sess w') = Z.of_nat (length doc) ∧
    pageOrder (sess w') = identity_order (length doc) ∧
    pageRots (sess w') = ∅ ∧
    selectedPgs (sess w') = selectedPgs (sess w) ∧
    curPage (sess w') = Z.max 1 (Z.min (curPage (sess w)) (Z.of_nat (length doc))) ∧
    1 ≤ curPage (sess w') ≤ Z.of_nat (length doc).
Proof.
  intros Hrun.
  destruct (addTextBtn_bytes _ _ _ _ _ Hrun) as (n & b & w1 & -> & _ & Hb & Hcommit).
  destruct (addTextBtn_ok _ _ _ _ _ Hrun)
    as (b' & doc & Hload & Hraw & Ht & Ho & Hr & Hs & Hc & Hc').
  destruct (applyEdit_ok _ _ _ Hcommit) as (doc' & Hload' & Hraw' & _).
  assert (b' = b) as -> by congruence.
  exists n, b, doc. rewrite Hb.
  split; [done|]. split; [done|]. split; [done|]. split; [done|].
  split; [by rewrite (applyEdit_doc _ _ _ Hcommit)|].
  split; [done|]. split; [done|]. split; [done|]. split; [done|]. by split.
Qed.

(** ** Validation of the order table *)

Lemma page_at_invalid src i :
  ¬ valid_index (length src) i → page_at src i = None.
Proof.
  destruct i as [z|]; simpl; [|done]. intros Hv.
  case_decide; [|done]. apply lookup_ge_None. lia.
Qed.

Lemma filter_length_neq {A} (P : A → Prop) `{!∀ x, Decision (P x)} (l : list A) :
  ¬ Forall P l → length (filter P l) ≠ length l.
Proof.
  intros Hn. apply not_Forall_Exists in Hn; [|apply _].
  apply Exists_exists in Hn as (x & Hx & HP).
  pose proof (length_filter_lt P l x Hx HP). lia.
Qed.

(** The v4 [rebuild] never gets to its validation: with a file loaded,
    the first thing it does is evaluate [PDFDocument], which the v4 script
    does not declare. *)
Lemma v4_rebuild_unbound (w : World) (raw : bytes) :
  rawBytes (sess w) = Some raw →
  run V4.rebuild w = (w, Err ReferenceError).
Proof.
  intros Hraw. unfold V4.rebuild, V4.PDFDocument_name. op_unfold. simpl.
  rewrite Hraw. simpl. by destruct w.
Qed.

(** C4, as the code has it.  [rebuild] has no validation of its own.  On
    a loadable snapshot and an order table with an entry that is not an
    index into it, it loads the bytes, creates the destination and fails
    in [copyPages] with the codec's error: it makes no save call, returns
    no bytes, downloads nothing and leaves [S] as it was. *)
Theorem rebuild_invalid_order (w : World) (raw : bytes) (src : document) :
  rawBytes (sess w) = Some raw →
  load raw = Some src →
  ¬ Forall (valid_index (length src)) (pageOrder (sess w)) →
  run rebuild w =
    (MkWorld (sess w) (calls w ++ [CLoad; CCreate; CCopy]) (downloads w),
     Err CodecError).
Proof.
  intros Hraw Hload Hbad.
  assert (mapM (page_at src) (pageOrder (sess w)) = None) as Hcopy.
  { apply mapM_None. apply not_Forall_Exists in Hbad; [|apply _].
    eapply Exists_impl; [exact Hbad|]. intros e He. by apply page_at_invalid. }
  unfold rebuild, PDFDocument_load, PDFDocument_create, copyPages. op_unfold.
  simpl. rewrite Hraw. simpl. rewrite Hload. simpl. rewrite Hcopy. simpl.
  by rewrite <- !app_assoc.
Qed.

(** ** Ingest followed by rebuild *)

Lemma copy_identity (src : document) :
  mapM (page_at src) (identity_order (length src)) = Some src.
Proof.
  apply mapM_Some. apply Forall2_same_length_lookup_2.
  - by rewrite identity_order_length.
  - intros k e p He Hp.
    assert (k < length src)%nat as Hk by (by eapply lookup_lt_Some).
    rewrite identity_order_lookup in He by done. injection He as <-.
    simpl. rewrite decide_True by lia. by rewrite Nat2Z.id.
Qed.

Lemma baked_page_empty (order : list entry) (pages : list page) :
  imap (baked_page order ∅) pages = pages.
Proof.
  rewrite <- (list_fmap_id pages) at 2. rewrite <- imap_const.
  apply imap_ext. intros i p _. unfold baked_page, ledger_delta.
  rewrite lookup_empty. simpl. done.
Qed.

Lemma ingestBytes_new (w : World) (b : bytes) (doc : document) :
  load b = Some doc →
  run (ingestBytes b true) w =
    (MkWorld
       (MkSession (Some doc) (Some b) (identity_order (length doc)) ∅ ∅ 1
          (Z.of_nat (length doc)) (mergeFiles (sess w)))
       (calls w) (downloads w),
     Ok tt).
Proof.
  intros Hload. unfold ingestBytes, pdfjs_getDocument. op_unfold. simpl.
  by rewrite Hload.
Qed.

(** C6, as the code has it.  Ingesting a document and rebuilding at once
    gives a file whose pages are those of the input: as many of them, and
    every page has the content and the rotation entry of the input page,
    so the rotation is 0 exactly where the input's is.  The one exception
    is an input without a page, which comes out with one blank page. *)
Theorem ingest_rebuild_round_trip (w : World) (b : bytes) (doc : document) :
  load b = Some doc →
  ∃ w1 out outdoc,
    run (ingestBytes b true) w = (w1, Ok tt) ∧
    (run rebuild w1).2 = Ok out ∧
    load out = Some outdoc ∧
    (doc ≠ [] → length outdoc = length doc) ∧
    (doc = [] → outdoc = [blank_page]) ∧
    ∀ (k : nat) (p : page), doc !! k = Some p →
      ∃ q, outdoc !! k = Some q ∧ content q = content p ∧ rotation q = rotation p.
Proof.
  intros Hload. eexists _, _, (saved_pages doc). split; [by apply ingestBytes_new|].
  erewrite (rebuild_run _ b doc doc); simpl;
    [|done|done|apply copy_identity|apply turns_accepted_empty].
  rewrite baked_page_empty, load_save_pages.
  split; [done|]. split; [done|].
  split; [intros Hne; by rewrite saved_pages_nonempty|].
  split; [by intros ->|].
  intros k p Hp. exists p. rewrite saved_pages_nonempty; [done|].
  by intros ->.
Qed.

(** ** Deleting the selected positions *)

Lemma splice_delete {A} (i : nat) (arr : list A) :
  (splice i 1 [] arr).2 = delete i arr.
Proof.
  unfold splice. simpl. rewrite delete_take_drop. by rewrite Nat.add_1_r.
Qed.

Lemma keep_unselected_from_ext {A} (sel sel' : gset nat) (i : nat) (arr : list A) :
  (∀ k, (i ≤ k < i + length arr)%nat → k ∈ sel ↔ k ∈ sel') →
  keep_unselected_from sel i arr = keep_unselected_from sel' i arr.
Proof.
  revert i. induction arr as [|x arr IH]; intros i Hext; simpl; [done|].
  rewrite (IH (S i)) by (intros k Hk; apply Hext; simpl; lia).
  destruct (decide (i ∈ sel)) as [Hi|Hi], (decide (i ∈ sel')) as [Hi'|Hi']; try done.
  - exfalso. apply Hi', Hext; [simpl; lia|done].
  - exfalso. apply Hi, Hext; [simpl; lia|done].
Qed.

Lemma keep_unselected_from_none {A} (sel : gset nat) (i : nat) (arr : list A) :
  (∀ k, (i ≤ k < i + length arr)%nat → k ∉ sel) →
  keep_unselected_from sel i arr = arr.
Proof.
  revert i. induction arr as [|x arr IH]; intros i Hnone; simpl; [done|].
  rewrite decide_False by (apply Hnone; simpl; lia).
  f_equal. apply IH. intros k Hk. apply Hnone. simpl. lia.
Qed.

Lemma keep_unselected_from_app {A} (sel : gset nat) (i : nat) (l1 l2 : list A) :
  keep_unselected_from sel i (l1 ++ l2) =
  keep_unselected_from sel i l1 ++ keep_unselected_from sel (i + length l1) l2.
Proof.
  revert i. induction l1 as [|x l1 IH]; intros i; simpl.
  - by rewrite Nat.add_0_r.
  - rewrite IH. replace (S i + length l1)%nat with (i + S (length l1))%nat by lia.
    by case_decide.
Qed.

Lemma keep_unselected_from_sublist {A} (sel : gset nat) (i : nat) (arr : list A) :
  keep_unselected_from sel i arr `sublist_of` arr.
Proof.
  revert i. induction arr as [|x arr IH]; intros i; simpl; [done|].
  case_decide; [by apply sublist_cons|by apply sublist_skip].
Qed.

Lemma splice_each_cons (p : nat) (ps : list nat) (arr : list entry) :
  splice_each (p :: ps) arr = splice_each ps (delete p arr).
Proof. unfold splice_each. cbn [foldl]. by rewrite splice_delete. Qed.

(** Removing one position after the other, largest first, removes exactly
    the listed positions. *)
Lemma splice_each_descending (ps : list nat) (arr : list entry) :
  StronglySorted (λ a b : nat, (b < a)%nat) ps →
  splice_each ps arr = keep_unselected (list_to_set ps) arr.
Proof.
  unfold keep_unselected.
  intros Hs. revert arr. induction Hs as [|p ps Hs IH Hlt]; intros arr.
  - symmetry. apply keep_unselected_from_none. set_solver.
  - rewrite splice_each_cons, IH. cbn [list_to_set foldr].
    assert (Hps : ∀ k, k ∈ ps → (k < p)%nat).
    { intros k Hk. by eapply Forall_forall in Hlt. }
    destruct (decide (p < length arr)%nat) as [Hp|Hp].
    + destruct (lookup_lt_is_Some_2 arr p Hp) as [x Hx].
      rewrite delete_take_drop.
      rewrite <- (take_drop_middle arr p x Hx) at 3.
      rewrite !keep_unselected_from_app. simpl.
      rewrite length_take_le by lia. simpl.
      rewrite decide_True by set_solver.
      f_equal.
      * apply keep_unselected_from_ext. intros k Hk.
        rewrite length_take_le in Hk by lia.
        rewrite elem_of_union, elem_of_singleton. split; [by right|].
        intros [->|?]; [lia|done].
      * rewrite !keep_unselected_from_none; [done| |].
        -- intros k Hk. rewrite elem_of_union, elem_of_singleton, elem_of_list_to_set.
           intros [->|Hk']; [lia|]. apply Hps in Hk'. lia.
        -- intros k Hk. rewrite elem_of_list_to_set. intros Hk'. apply Hps in Hk'. lia.
    + rewrite delete_take_drop.
      rewrite take_ge, drop_ge by lia. rewrite app_nil_r.
      apply keep_unselected_from_ext. intros k Hk.
      rewrite elem_of_union, elem_of_singleton. split; [by right|].
      intros [->|?]; [lia|done].
Qed.

#[local] Instance descending_trans : Transitive (λ a b : nat, (b ≤ a)%nat).
Proof. intros a b c ??. lia. Qed.
#[local] Instance descending_total : Total (λ a b : nat, (b ≤ a)%nat).
Proof. intros a b. lia. Qed.

Lemma StronglySorted_strict (l : list nat) :
  NoDup l → StronglySorted (λ a b : nat, (b ≤ a)%nat) l →
  StronglySorted (λ a b : nat, (b < a)%nat) l.
Proof.
  intros Hnd Hs. induction Hs as [|p l Hs IH Hle]; [constructor|].
  apply NoDup_cons in Hnd as [Hp Hnd]. constructor; [by apply IH|].
  apply Forall_forall. intros k Hk.
  assert (k ≠ p) by (by intros ->).
  eapply Forall_forall in Hle; [|done]. simpl in Hle. lia.
Qed.

Lemma splice_each_selection (sel : gset nat) (arr : list entry) :
  splice_each (sort_desc (elements sel)) arr = keep_unselected sel arr.
Proof.
  rewrite splice_each_descending.
  - f_equal. apply set_eq. intros k.
    rewrite elem_of_list_to_set. unfold sort_desc.
    rewrite merge_sort_Permutation. apply elem_of_elements.
  - apply StronglySorted_strict.
    + unfold sort_desc. rewrite merge_sort_Permutation. apply NoDup_elements.
    + apply (StronglySorted_merge_sort _).
Qed.

(** ** What the handlers leave alone *)

Lemma set_curPage_id (s : Session) : set_curPage (curPage s) s = s.
Proof. by destruct s. Qed.

Lemma pdfjs_getPage_world (doc : document) (e : entry) (w : World) :
  (run (pdfjs_getPage doc e) w).1 = w.
Proof. unfold pdfjs_getPage, run, from_option. by destruct (_ ≫= _). Qed.

Lemma getPages_world (doc : document) (l : list entry) (w : World) :
  (run (mapM (λ origIdx, pdfjs_getPage doc (succ_entry origIdx)) l) w).1 = w.
Proof.
  induction l as [|e l IH]; [done|].
  pose proof (pdfjs_getPage_world doc (succ_entry e) w) as He.
  unfold run in *. cbn [mapM]. unfold mbind, Op_bind, bind.
  destruct (pdfjs_getPage doc (succ_entry e) w) as [w1 [p|err]]; simpl in *;
    subst w1; [|done].
  fold (mapM (λ origIdx, pdfjs_getPage doc (succ_entry origIdx)) l).
  destruct (mapM (M:=Op) _ l w) as [w1 [k|err]]; simpl in *; by subst.
Qed.

Lemma renderGrid_world (w : World) : (run renderGrid w).1 = w.
Proof.
  unfold renderGrid. unfold run, mbind, Op_bind, bind, get.
  destruct (pdfJsDoc (sess w)) as [doc|]; [|done].
  pose proof (getPages_world doc (pageOrder (sess w)) w) as Hw. unfold run in Hw.
  destruct (mapM (M:=Op) _ _ w) as [w1 [k|err]]; simpl in *; by subst.
Qed.


(** ** Reordering *)

Lemma onEnd_run (w : World) (oldIndex newIndex : nat) (x : entry) :
  pageOrder (sess w) !! oldIndex = Some x →
  run (onEnd oldIndex newIndex) w =
    (MkWorld
       (set_selectedPgs ∅
          (set_pageOrder
             (take newIndex (delete oldIndex (pageOrder (sess w))) ++
              x :: drop newIndex (delete oldIndex (pageOrder (sess w))))
             (sess w)))
       (calls w) (downloads w),
     Ok tt).
Proof.
  intros Hx. unfold onEnd, splice. op_unfold. simpl.
  rewrite Nat.add_0_r, Nat.add_1_r, <- !delete_take_drop.
  unfold js_index. rewrite lookup_take_lt by lia. rewrite lookup_drop, Nat.add_0_r, Hx.
  done.
Qed.

Lemma reorder_Permutation {A} (l : list A) (i j : nat) (x : A) :
  l !! i = Some x →
  take j (delete i l) ++ x :: drop j (delete i l) ≡ₚ l.
Proof.
  intros Hx. rewrite <- Permutation_middle, take_drop.
  rewrite delete_take_drop. rewrite <- (take_drop_middle l i x Hx) at 3.
  by rewrite <- Permutation_middle.
Qed.

(** ** The order table in every reachable world *)

Lemma identity_order_NoDup (n : nat) : NoDup (identity_order n).
Proof.
  unfold identity_order. apply NoDup_fmap_2; [|apply NoDup_seq].
  intros a b [=]. lia.
Qed.

Lemma identity_order_valid (n : nat) : Forall (valid_index n) (identity_order n).
Proof.
  apply Forall_forall. intros e. unfold identity_order.
  rewrite list_elem_of_fmap. intros (k & -> & Hk).
  apply elem_of_seq in Hk. simpl. lia.
Qed.





(** ** Downloads *)

Lemma new_downloads_app (w : World) (s : Session) (cs : list codec_call)
    (ds : list (filename * bytes)) :
  new_downloads w (MkWorld s cs (downloads w ++ ds)) = ds.
Proof. unfold new_downloads. simpl. by rewrite drop_app_length. Qed.


(** ** The delete handler *)


(** ** Merge *)

Lemma forEach_from_addPage (pgs : list page) (d : document) (n : nat) :
  forEach_from (λ m p _, addPage m p) n pgs d = d ++ pgs.
Proof.
  revert d n. induction pgs as [|p pgs IH]; intros d n; simpl.
  - by rewrite app_nil_r.
  - rewrite IH. unfold addPage. by rewrite <- app_assoc.
Qed.

Lemma merge_one_run (merged : document) (buf : bytes) (doc : document) (w : World) :
  load buf = Some doc →
  run (merge_one merged buf) w =
    (MkWorld (sess w) (calls w ++ [CLoad; CCopy]) (downloads w), Ok (merged ++ doc)).
Proof.
  intros Hload. unfold merge_one, PDFDocument_load, copyPages. op_unfold. simpl.
  rewrite Hload. simpl. rewrite copy_identity. simpl.
  unfold forEach. by rewrite forEach_from_addPage, <- app_assoc.
Qed.

Lemma for_of_merge_run (files : list bytes) (docs : list document)
    (merged : document) (w : World) :
  mapM load files = Some docs →
  run (for_of merge_one files merged) w =
    (MkWorld (sess w) (calls w ++ concat (replicate (length docs) [CLoad; CCopy]))
       (downloads w),
     Ok (merged ++ concat docs)).
Proof.
  revert docs merged w. induction files as [|f files IH]; intros docs merged w Hm.
  - apply mapM_Some in Hm. apply Forall2_nil_inv_l in Hm as ->. simpl.
    unfold run, mret, Op_ret, ret. rewrite !app_nil_r. by destruct w.
  - apply mapM_Some in Hm. apply Forall2_cons_inv_l in Hm as (doc & docs' & Hf & Hm & ->).
    apply mapM_Some in Hm.
    unfold run in *. cbn [for_of]. unfold mbind, Op_bind, bind.
    pose proof (merge_one_run merged f doc w Hf) as H1. unfold run in H1. rewrite H1.
    rewrite (IH docs' _ _ Hm). simpl. by rewrite <- !app_assoc.
Qed.

Lemma for_of_merge_outcome (files : list bytes) (merged : document) (w : World) :
  run (for_of merge_one files merged) w =
    (MkWorld (sess w) (calls w ++ (merge_outcome files merged).1) (downloads w),
     (merge_outcome files merged).2).
Proof.
  revert merged w. induction files as [|f files IH]; intros merged w.
  - simpl. unfold run, mret, Op_ret, ret. rewrite app_nil_r. by destruct w.
  - unfold run in *. cbn [for_of merge_outcome]. unfold mbind, Op_bind, bind.
    destruct (load f) as [doc|] eqn:Hf.
    + pose proof (merge_one_run merged f doc w Hf) as H1. unfold run in H1.
      rewrite H1, IH. simpl.
      destruct (merge_outcome files (merged ++ doc)) as [cs r]. simpl.
      by rewrite <- app_assoc.
    + unfold merge_one, PDFDocument_load. op_unfold. simpl. by rewrite Hf.
Qed.

Lemma mergeBtn_run (w : World) :
  (2 ≤ length (mergeFiles (sess w)))%nat →
  run mergeBtn w =
    match (merge_outcome (mergeFiles (sess w)) []).2 with
    | Ok merged =>
        (MkWorld (sess w)
           (calls w ++ [CCreate] ++ (merge_outcome (mergeFiles (sess w)) []).1 ++ [CSave])
           (downloads w ++ [(MergedPdf, save merged)]),
         Ok tt)
    | Err e =>
        (MkWorld (sess w)
           (calls w ++ [CCreate] ++ (merge_outcome (mergeFiles (sess w)) []).1)
           (downloads w ++ []),
         Err e)
    end.
Proof.
  intros Hge. unfold mergeBtn, PDFDocument_create, doc_save.
  unfold run, mbind, Op_bind, bind, get, throw, log, mret, Op_ret, ret, dlBytes.
  rewrite decide_False by lia. simpl.
  match goal with |- context [for_of merge_one ?fs ?m ?w0] =>
    pose proof (for_of_merge_outcome fs m w0) as Hrun end.
  unfold run in Hrun. rewrite Hrun. simpl.
  destruct (merge_outcome _ _) as [cs [merged|e]]; simpl.
  - by rewrite <- !app_assoc.
  - by rewrite <- !app_assoc, app_nil_r.
Qed.

Lemma mergeBtn_few (w : World) :
  (length (mergeFiles (sess w)) < 2)%nat → run mergeBtn w = (w, Ok tt).
Proof.
  intros Hlt. unfold mergeBtn.
  unfold run, mbind, Op_bind, bind, get, mret, Op_ret, ret.
  by rewrite decide_True by done.
Qed.

(** C9, as the code has it.  With fewer than two files the merge handler
    returns at its guard: it raises and reports nothing, makes no codec
    call and hands nothing to the browser.
    With two or more files that load, it creates one document, loads and
    copies every file in list order, and downloads the concatenation of
    their pages, each file's pages in their own order.  In every case the
    state object of the open document is what it was, and any other
    session with the same [S.mergeFiles] gets the same result and the same
    download: nothing of the open document enters the merge. *)
Theorem merge_concatenates (w : World) :
  ((length (mergeFiles (sess w)) < 2)%nat →
     run mergeBtn w = (w, Ok tt)) ∧
  (∀ docs : list document,
     (2 ≤ length (mergeFiles (sess w)))%nat →
     mapM load (mergeFiles (sess w)) = Some docs →
     run mergeBtn w =
       (MkWorld (sess w) (calls w ++ merge_calls (length docs))
          (downloads w ++ [(MergedPdf, save (concat docs))]),
        Ok tt)) ∧
  sess (run mergeBtn w).1 = sess w ∧
  (∀ w2 : World,
     mergeFiles (sess w2) = mergeFiles (sess w) →
     (run mergeBtn w2).2 = (run mergeBtn w).2 ∧
     new_downloads w2 (run mergeBtn w2).1 = new_downloads w (run mergeBtn w).1).
Proof.
  split; [|split; [|split]].
  - apply mergeBtn_few.
  - intros docs Hge Hload. unfold mergeBtn, PDFDocument_create, doc_save.
    unfold run, mbind, Op_bind, bind, get, throw, log, mret, Op_ret, ret, dlBytes.
    rewrite decide_False by lia. simpl.
    pose proof (for_of_merge_run _ docs []
                  (MkWorld (sess w) (calls w ++ [CCreate]) (downloads w)) Hload) as Hrun.
    unfold run in Hrun. rewrite Hrun. simpl.
    unfold merge_calls. by rewrite <- !app_assoc.
  - destruct (decide (length (mergeFiles (sess w)) < 2)%nat) as [Hlt|Hge].
    + unfold mergeBtn. unfold run, mbind, Op_bind, bind, get, mret, Op_ret, ret.
      by rewrite decide_True by done.
    + rewrite mergeBtn_run by lia. by destruct (merge_outcome _ _).2.
  - intros w2 Hsame.
    destruct (decide (length (mergeFiles (sess w)) < 2)%nat) as [Hlt|Hge].
    + unfold mergeBtn. unfold run, mbind, Op_bind, bind, get, mret, Op_ret, ret.
      rewrite Hsame. rewrite !decide_True by done. simpl.
      unfold new_downloads. by rewrite !drop_all.
    + rewrite !mergeBtn_run by (rewrite ?Hsame; lia). rewrite Hsame.
      destruct (merge_outcome _ _).2; simpl; by rewrite !new_downloads_app.
Qed.

(** ** Split *)

Lemma splitBtn_run (w : World) (raw : bytes) (from to : Z) :
  rawBytes (sess w) = Some raw →
  1 ≤ from → from ≤ to → to ≤ totalPages (sess w) →
  run (splitBtn (Some from) (Some to)) w =
    (MkWorld (sess w) (calls w ++ (split_outcome raw from to).1.1)
       (downloads w ++ (split_outcome raw from to).1.2),
     (split_outcome raw from to).2).
Proof.
  intros Hraw H1 H2 H3. unfold splitBtn, split_outcome, PDFDocument_load,
    PDFDocument_create, copyPages, doc_save.
  fold (range_indices from to). op_unfold. simpl. rewrite Hraw. simpl.
  rewrite decide_False by lia. simpl.
  destruct (load raw) as [src|]; simpl.
  - destruct (mapM (page_at src) (range_indices from to)) as [pgs|]; simpl.
    + unfold forEach. rewrite forEach_from_addPage. simpl.
      by rewrite <- !app_assoc.
    + by rewrite <- !app_assoc, app_nil_r.
  - by rewrite app_nil_r.
Qed.

Lemma copy_range (src : document) (from to : Z) :
  1 ≤ from → from ≤ to → to ≤ Z.of_nat (length src) →
  mapM (page_at src) (range_indices from to) = Some (page_range src from to).
Proof.
  intros H1 H2 H3. apply mapM_Some. unfold range_indices, page_range.
  apply Forall2_same_length_lookup_2.
  - rewrite length_fmap, length_seq, length_take, length_drop. lia.
  - intros k e p He Hp. rewrite list_lookup_fmap in He.
    destruct (seq 0 _ !! k) as [k'|] eqn:Hk; [|done].
    apply lookup_seq in Hk as [-> Hk]. injection He as <-. simpl.
    rewrite decide_True by lia.
    rewrite lookup_take_lt, lookup_drop in Hp by lia.
    rewrite <- Hp. f_equal. lia.
Qed.

(** C10.  Two sessions that hold the same bytes and both accept the range
    get the same result and the same downloaded file from the split,
    whatever their order tables, ledgers and selections, and neither state
    object changes; when the bytes load and hold [to] pages, the file is
    the pages [from..to] of the bytes, in their order. *)
Theorem split_ignores_pending_edits (w1 w2 : World) (raw : bytes) (from to : Z) :
  rawBytes (sess w1) = Some raw →
  rawBytes (sess w2) = Some raw →
  1 ≤ from → from ≤ to →
  to ≤ totalPages (sess w1) → to ≤ totalPages (sess w2) →
  (run (splitBtn (Some from) (Some to)) w1).2 =
    (run (splitBtn (Some from) (Some to)) w2).2 ∧
  new_downloads w1 (run (splitBtn (Some from) (Some to)) w1).1 =
    new_downloads w2 (run (splitBtn (Some from) (Some to)) w2).1 ∧
  sess (run (splitBtn (Some from) (Some to)) w1).1 = sess w1 ∧
  sess (run (splitBtn (Some from) (Some to)) w2).1 = sess w2 ∧
  (∀ src, load raw = Some src → to ≤ Z.of_nat (length src) →
     (run (splitBtn (Some from) (Some to)) w1).2 = Ok tt ∧
     new_downloads w1 (run (splitBtn (Some from) (Some to)) w1).1 =
       [(PagesPdf from to, save (page_range src from to))]).
Proof.
  intros Hr1 Hr2 H1 H2 Ht1 Ht2.
  rewrite (splitBtn_run w1 raw from to), (splitBtn_run w2 raw from to) by done.
  simpl. rewrite !new_downloads_app.
  split; [done|]. split; [done|]. split; [done|]. split; [done|].
  intros src Hsrc Hlen. unfold split_outcome.
  by rewrite Hsrc, copy_range.
Qed.

(** ** Reorder, then delete, then rebuild *)

(** C7.  On any four-page document: the fresh table is [0,1,2,3];
    dragging position 0 to position 2 gives [1,2,0,3]; position 1 then
    holds 2, and deleting it gives [1,0,3]; [rebuild] then saves the
    original pages 1, 0, 3 in that order. *)
Theorem reorder_then_delete (p0 p1 p2 p3 : page) (w : World) :
  ∃ w1 w2 w3 w4,
    run (ingestBytes (save [p0; p1; p2; p3]) true) w = (w1, Ok tt) ∧
    pageOrder (sess w1) = [Some 0; Some 1; Some 2; Some 3] ∧
    run (onEnd 0 2) w1 = (w2, Ok tt) ∧
    pageOrder (sess w2) = [Some 1; Some 2; Some 0; Some 3] ∧
    run (thumbClick 1) w2 = (w3, Ok tt) ∧
    selectedPgs (sess w3) = {[1%nat]} ∧
    js_index (pageOrder (sess w3)) 1 = Some 2 ∧
    run (deleteSelectedBtn true) w3 = (w4, Ok tt) ∧
    pageOrder (sess w4) = [Some 1; Some 0; Some 3] ∧
    (run rebuild w4).2 = Ok (save [p1; p0; p3]).
Proof.
  eexists _, _, _, _.
  split; [by apply ingestBytes_new, load_save_nonempty|]. split; [done|].
  split; [by apply (onEnd_run _ _ _ (Some 0))|]. split; [done|].
  split; [done|]. split; [done|]. split; [done|].
  split; [vm_compute; reflexivity|]. split; [done|].
  erewrite (rebuild_run _ _ [p0; p1; p2; p3] [p1; p0; p3]);
    [done|done|by apply load_save_nonempty|done|apply turns_accepted_empty].
Qed.

(** ** The minimal script *)

Lemma minimal_rebuild_validates_first (w : World) (raw : bytes) :
  rawBytes (sess w) = Some raw →
  ¬ Forall (valid_index (Z.to_nat (totalPages (sess w)))) (pageOrder (sess w)) →
  run Minimal.rebuild w = (w, Err StateCorruption).
Proof.
  intros Hraw Hbad. unfold Minimal.rebuild. op_unfold. simpl.
  rewrite Hraw. simpl.
  by rewrite decide_True by by apply filter_length_neq.
Qed.

(** * Further properties of the scripts *)

(** ** What holds in every reachable world *)

Lemma previewMain_curPage (pg : Z) (w : World) :
  (run (previewMain pg) w).1 =
    MkWorld
      (set_curPage
         (match pdfJsDoc (sess w) with
          | Some _ => Z.max 1 (Z.min pg (totalPages (sess w)))
          | None => curPage (sess w)
          end)
         (sess w))
      (calls w) (downloads w).
Proof.
  unfold previewMain, pdfjs_getPage. op_unfold.
  destruct (pdfJsDoc (sess w)) as [doc|]; simpl.
  - by destruct (option_bind _ _ _ _).
  - rewrite set_curPage_id. by destruct w.
Qed.

Lemma pdfjs_getPage_valid (doc : document) (e : entry) (w : World) :
  valid_index (length doc) e →
  ∃ p, run (pdfjs_getPage doc (succ_entry e)) w = (w, Ok p).
Proof.
  destruct e as [z|]; simpl; [|done]. intros [H0 H1].
  unfold pdfjs_getPage, run, from_option. simpl.
  rewrite decide_True by lia.
  destruct (lookup_lt_is_Some_2 doc (Z.to_nat (z + 1 - 1))) as [p Hp]; [lia|].
  rewrite Hp. by exists p.
Qed.

Lemma getPages_valid (doc : document) (l : list entry) (w : World) :
  Forall (valid_index (length doc)) l →
  ∃ ps, run (mapM (λ origIdx, pdfjs_getPage doc (succ_entry origIdx)) l) w = (w, Ok ps).
Proof.
  induction 1 as [|e l He Hl [ps IH]]; [by exists []|].
  destruct (pdfjs_getPage_valid doc e w He) as [p Hp].
  exists (p :: ps). unfold run in *. cbn [mapM]. unfold mbind, Op_bind, bind in *.
  rewrite Hp. cbn beta iota.
  fold (mapM (λ origIdx, pdfjs_getPage doc (succ_entry origIdx)) l).
  by rewrite IH.
Qed.

Lemma renderGrid_valid (w : World) (doc : document) :
  pdfJsDoc (sess w) = Some doc →
  Forall (valid_index (length doc)) (pageOrder (sess w)) →
  run renderGrid w = (w, Ok tt).
Proof.
  intros Hdoc Hv. unfold renderGrid. unfold run, mbind, Op_bind, bind, get.
  rewrite Hdoc.
  destruct (getPages_valid doc _ w Hv) as [ps Hps].
  unfold run, mbind, Op_bind, bind in Hps. by rewrite Hps.
Qed.

Lemma previewMain_valid (pg : Z) (w : World) (doc : document) :
  pdfJsDoc (sess w) = Some doc →
  Forall (valid_index (length doc)) (pageOrder (sess w)) →
  totalPages (sess w) = Z.of_nat (length (pageOrder (sess w))) →
  pageOrder (sess w) ≠ [] →
  run (previewMain pg) w =
    (MkWorld (set_curPage (Z.max 1 (Z.min pg (totalPages (sess w)))) (sess w))
       (calls w) (downloads w),
     Ok tt).
Proof.
  intros Hdoc Hv Ht Hne. unfold previewMain. unfold run, mbind, Op_bind, bind, get.
  rewrite Hdoc. unfold modify. cbn [sess].
  set (c := Z.max 1 (Z.min pg (totalPages (sess w)))).
  assert (length (pageOrder (sess w)) ≠ 0%nat) by (by destruct (pageOrder (sess w))).
  destruct (lookup_lt_is_Some_2 (pageOrder (sess w)) (Z.to_nat (c - 1))) as [e He];
    [subst c; lia|].
  unfold js_index. rewrite He. simpl.
  assert (valid_index (length doc) e) as Hve.
  { eapply Forall_forall in Hv; [done|]. by eapply list_elem_of_lookup_2. }
  match goal with |- context [pdfjs_getPage doc (succ_entry e) ?w0] =>
    destruct (pdfjs_getPage_valid doc e w0 Hve) as [p Hp] end.
  unfold run in Hp. by rewrite Hp.
Qed.

(** Distinct indices into [n] pages are at most [n]. *)
Lemma valid_NoDup_length (n : nat) (l : list entry) :
  NoDup l → Forall (valid_index n) l → (length l ≤ length (identity_order n))%nat.
Proof.
  intros Hnd Hv. apply submseteq_length, NoDup_submseteq; [done|].
  intros e He. eapply Forall_forall in Hv; [|done].
  destruct e as [z|]; simpl in Hv; [|done].
  unfold identity_order. apply list_elem_of_fmap. exists (Z.to_nat z).
  split; [f_equal; lia|]. apply elem_of_seq. lia.
Qed.


Lemma applyEdit_sess (w w' : World) (b : bytes) :
  run (applyEdit b) w = (w', Ok tt) →
  ∃ doc,
    load b = Some doc ∧ (1 ≤ length doc)%nat ∧
    w' = MkWorld
           (MkSession (Some doc) (Some b) (identity_order (length doc)) ∅
              (selectedPgs (sess w))
              (Z.max 1 (Z.min (curPage (sess w)) (Z.of_nat (length doc))))
              (Z.of_nat (length doc)) (mergeFiles (sess w)))
           (calls w) (downloads w).
Proof.
  unfold applyEdit, pdfjs_getDocument. op_unfold. simpl.
  destruct (load b) as [doc|] eqn:Hload; simpl; [|congruence].
  unfold previewMain, pdfjs_getPage. op_unfold. simpl.
  set (n := Z.of_nat (length doc)).
  destruct (option_bind _ _ _ _) as [p|] eqn:Hp; simpl; [|congruence].
  intros [= <-]. exists doc.
  assert (Hn : (1 ≤ length doc)%nat).
  { destruct (decide (1 ≤ length doc)%nat) as [|Hn]; [done|].
    assert (length doc = 0%nat) as Hl by lia.
    unfold js_index in Hp. rewrite Hl in Hp. done. }
  split; [done|]. split; [done|]. unfold set_curPage; simpl. do 2 f_equal. lia.
Qed.

Lemma addTextBtn_sess (w w' : World) (text : string) (pg : entry)
    (draw : page → option page) :
  run (addTextBtn text pg draw) w = (w', Ok tt) →
  ∃ b doc,
    load b = Some doc ∧ (1 ≤ length doc)%nat ∧
    sess w' =
      MkSession (Some doc) (Some b) (identity_order (length doc)) ∅
        (selectedPgs (sess w))
        (Z.max 1 (Z.min (curPage (sess w)) (Z.of_nat (length doc))))
        (Z.of_nat (length doc)) (mergeFiles (sess w)).
Proof.
  unfold addTextBtn, okPage. unfold run, mbind, Op_bind, bind, get, from_option.
  destruct (rawBytes (sess w)) as [raw|]; simpl; [|done].
  case_decide; simpl; [done|].
  destruct pg as [n|]; simpl; [|done].
  case_decide; simpl; [done|].
  pose proof (edited_bytes_sess (draw_on_page n draw) w) as Hs. unfold run in Hs.
  destruct (edited_bytes _ w) as [w1 [saved|e]]; simpl in *; [|done].
  intros Hrun. destruct (applyEdit_sess w1 w' saved Hrun) as (doc & Hd & Hn & ->).
  exists saved, doc. by rewrite Hs.
Qed.

Lemma rotateSel_sess (w w' : World) (deg : Z) :
  run (rotateSel deg) w = (w', Ok tt) →
  sess w' =
    set_curPage
      (match pdfJsDoc (sess w) with
       | Some _ => Z.max 1 (Z.min (curPage (sess w)) (totalPages (sess w)))
       | None => curPage (sess w)
       end)
      (set_selectedPgs ∅
         (set_pageRots
            (set_fold (rotate_one (pageOrder (sess w)) deg) (pageRots (sess w))
               (selectedPgs (sess w)))
            (sess w))).
Proof.
  unfold rotateSel. unfold run, mbind, Op_bind, bind, get, throw.
  case_decide; [done|]. unfold modify. simpl.
  match goal with |- context [renderGrid ?w0] => set (w1 := w0) end.
  pose proof (renderGrid_world w1) as Hr. unfold run in Hr.
  destruct (renderGrid w1) as [w2 [[]|e]]; cbn [fst] in Hr; [|done]. subst w2.
  unfold unawaited. intros [= <-].
  match goal with |- context [previewMain ?pg w1] =>
    pose proof (previewMain_curPage pg w1) as Hc end.
  unfold run in Hc. by rewrite Hc.
Qed.

Lemma deleteSelectedBtn_sess (w w' : World) (confirmed : bool) :
  run (deleteSelectedBtn confirmed) w = (w', Ok tt) →
  let order' := keep_unselected (selectedPgs (sess w)) (pageOrder (sess w)) in
  sess w' =
    set_curPage
      (match pdfJsDoc (sess w) with
       | Some _ =>
           Z.max 1 (Z.min (Z.min (curPage (sess w)) (Z.of_nat (length order')))
                      (Z.of_nat (length order')))
       | None => Z.min (curPage (sess w)) (Z.of_nat (length order'))
       end)
      (set_totalPages (Z.of_nat (length order'))
         (set_selectedPgs ∅ (set_pageOrder order' (sess w)))).
Proof.
  unfold deleteSelectedBtn. unfold run, mbind, Op_bind, bind, get, throw.
  case_decide; [done|]. case_decide; [done|].
  destruct confirmed; simpl; [|done].
  rewrite splice_each_selection.
  match goal with |- context [renderGrid ?w0] => set (w1 := w0) end.
  pose proof (renderGrid_world w1) as Hr. unfold run in Hr.
  destruct (renderGrid w1) as [w2 [[]|e]]; cbn [fst] in Hr; [|done]. subst w2.
  unfold unawaited. intros [= <-].
  match goal with |- context [previewMain ?pg w1] =>
    pose proof (previewMain_curPage pg w1) as Hc end.
  unfold run in Hc. rewrite Hc. simpl.
  by destruct (pdfJsDoc (sess w)).
Qed.

Lemma session_ok_identity (b : bytes) (doc : document) (sel : gset nat)
    (c : Z) (files : list bytes) :
  load b = Some doc → 1 ≤ c ≤ Z.max 1 (Z.of_nat (length doc)) →
  session_ok
    (MkSession (Some doc) (Some b) (identity_order (length doc)) ∅ sel c
       (Z.of_nat (length doc)) files).
Proof.
  intros Hload Hc. exists b, doc. simpl.
  split; [done|]. split; [done|]. split; [done|].
  split; [apply identity_order_NoDup|]. split; [apply identity_order_valid|].
  by rewrite identity_order_length.
Qed.

Lemma reachable_session_ok (d : bool) (w : World) :
  reachable d w → session_ok (sess w).
Proof.
  induction 1 as [w b w' Hrun | d w i j w' Hr IH Hi Hrun | d w idx w' Hr IH Hrun
                 | d w w' Hr IH Hrun | d w deg w' Hr IH Hrun | d w c w' Hr IH Hrun
                 | d w text pg draw w' Hr IH Hrun].
  - unfold ingestBytes, pdfjs_getDocument in Hrun. op_unfold. simpl in Hrun.
    destruct (load b) as [doc|] eqn:Hload; simpl in Hrun; [|done].
    injection Hrun as <-. simpl. apply session_ok_identity; [done|lia].
  - destruct (lookup_lt_is_Some_2 _ _ Hi) as [x Hx].
    rewrite (onEnd_run w i j x Hx) in Hrun. injection Hrun as <-.
    pose proof (reorder_Permutation (pageOrder (sess w)) i j x Hx) as Hp.
    destruct IH as (raw & src & Hraw & Hload & Hdoc & Hnd & Hv & Ht & Hc).
    exists raw, src. simpl. repeat split; try done; try (by rewrite Hp); try lia.
  - unfold thumbClick in Hrun. op_unfold. by injection Hrun as <-.
  - unfold selectAllBtn in Hrun. op_unfold. by injection Hrun as <-.
  - apply rotateSel_sess in Hrun.
    destruct IH as (raw & src & Hraw & Hload & Hdoc & Hnd & Hv & Ht & Hc).
    exists raw, src. rewrite Hrun, Hdoc. simpl. repeat split; try done; lia.
  - apply deleteSelectedBtn_sess in Hrun.
    destruct IH as (raw & src & Hraw & Hload & Hdoc & Hnd & Hv & Ht & Hc).
    pose proof (keep_unselected_from_sublist (selectedPgs (sess w)) 0
                  (pageOrder (sess w))) as Hsub.
    exists raw, src. rewrite Hrun, Hdoc. simpl. repeat split; try done; try lia.
    + by eapply sublist_NoDup.
    + eapply Forall_forall. intros e He.
      eapply Forall_forall in Hv; [done|]. by eapply elem_of_sublist.
  - apply addTextBtn_sess in Hrun as (b & doc & Hload & Hn & ->).
    apply session_ok_identity; [done|lia].
Qed.

(** In every reachable world the preview document is the parse of the
    installed bytes, the order table has at most as many entries as the
    snapshot has pages, and the current page is a position of the table
    (1 when the table is empty). *)
Theorem reachable_preview_consistent (d : bool) (w : World) :
  reachable d w →
  ∃ raw src,
    rawBytes (sess w) = Some raw ∧ load raw = Some src ∧
    pdfJsDoc (sess w) = Some src ∧
    (length (pageOrder (sess w)) ≤ length src)%nat ∧
    1 ≤ curPage (sess w) ≤ Z.max 1 (Z.of_nat (length (pageOrder (sess w)))).
Proof.
  intros Hr. destruct (reachable_session_ok d w Hr)
    as (raw & src & Hraw & Hload & Hdoc & Hnd & Hv & Ht & Hc).
  exists raw, src. repeat split; try done; try lia.
  pose proof (valid_NoDup_length _ _ Hnd Hv) as Hl.
  by rewrite identity_order_length in Hl.
Qed.

Lemma saved_pages_length (l : document) :
  length (saved_pages l) = Nat.max 1 (length l).
Proof. destruct l; simpl; lia. Qed.

(** In every reachable world the download button succeeds exactly when
    [setRotation] accepts the angle of every page that has a delta.  Then
    it makes the four codec calls and hands one file to the browser, whose
    document has one page per entry of the order table (one blank page
    when the table is empty), and leaves [S] as it was.  Otherwise it
    fails after the copy: nothing is saved and nothing is handed to the
    browser. *)
Theorem download_outcome (d : bool) (w : World) :
  reachable d w →
  ∃ src,
    pdfJsDoc (sess w) = Some src ∧
    (turns_accepted src (pageOrder (sess w)) (pageRots (sess w)) →
     ∃ out outdoc,
       run downloadBtn w =
         (MkWorld (sess w) (calls w ++ [CLoad; CCreate; CCopy; CSave])
            (downloads w ++ [(EditedPdf, out)]),
          Ok tt) ∧
       load out = Some outdoc ∧
       length outdoc = Nat.max 1 (length (pageOrder (sess w)))) ∧
    (¬ turns_accepted src (pageOrder (sess w)) (pageRots (sess w)) →
     run downloadBtn w =
       (MkWorld (sess w) (calls w ++ [CLoad; CCreate; CCopy]) (downloads w),
        Err RotationRejected)).
Proof.
  intros Hr. destruct (reachable_session_ok d w Hr)
    as (raw & src & Hraw & Hload & Hdoc & Hnd & Hv & Ht & Hc).
  exists src. split; [done|]. split.
  - intros Hacc. destruct (copy_valid src _ Hv) as [pages Hcopy].
    eexists _, _. split; [|split; [apply load_save_pages|]].
    + unfold downloadBtn. unfold run, mbind, Op_bind, bind, get, from_option.
      rewrite Hraw. simpl.
      pose proof (rebuild_run w raw src pages Hraw Hload Hcopy Hacc) as Hrun.
      unfold run in Hrun. rewrite Hrun. reflexivity.
    + rewrite saved_pages_length, length_imap. apply mapM_Some in Hcopy.
      f_equal. symmetry. by eapply Forall2_length.
  - intros Hrej. unfold downloadBtn. unfold run, mbind, Op_bind, bind, get, from_option.
    rewrite Hraw. simpl.
    pose proof (rebuild_run_rejected w raw src Hraw Hload Hv Hrej) as Hrun.
    unfold run in Hrun. by rewrite Hrun.
Qed.

Lemma page_range_length (src : document) (from to : Z) :
  1 ≤ from → from ≤ to → to ≤ Z.of_nat (length src) →
  Z.of_nat (length (page_range src from to)) = to - from + 1.
Proof.
  intros. unfold page_range. rewrite length_take, length_drop. lia.
Qed.

(** In every reachable world a split over a range the handler accepts
    succeeds, and the file holds the pages [from..to] of the installed
    snapshot (not of the order table), [to - from + 1] of them. *)
Theorem split_succeeds (d : bool) (w : World) (from to : Z) :
  reachable d w →
  1 ≤ from → from ≤ to → to ≤ totalPages (sess w) →
  ∃ raw src,
    rawBytes (sess w) = Some raw ∧ load raw = Some src ∧
    run (splitBtn (Some from) (Some to)) w =
      (MkWorld (sess w) (calls w ++ [CLoad; CCreate; CCopy; CSave])
         (downloads w ++ [(PagesPdf from to, save (page_range src from to))]),
       Ok tt) ∧
    Z.of_nat (length (page_range src from to)) = to - from + 1.
Proof.
  intros Hr H1 H2 H3. destruct (reachable_session_ok d w Hr)
    as (raw & src & Hraw & Hload & Hdoc & Hnd & Hv & Ht & Hc).
  pose proof (valid_NoDup_length _ _ Hnd Hv) as Hl.
  rewrite identity_order_length in Hl.
  assert (to ≤ Z.of_nat (length src)) as Hto by lia.
  exists raw, src. split; [done|]. split; [done|].
  split; [|by apply page_range_length].
  rewrite (splitBtn_run w raw from to Hraw H1 H2 H3).
  unfold split_outcome. by rewrite Hload, copy_range.
Qed.

(** ** Counting what a delete removes *)

Lemma keep_unselected_from_length {A} (sel : gset nat) (i : nat) (arr : list A) :
  (length (keep_unselected_from sel i arr)
   + length (filter (λ k, k ∈ sel) (seq i (length arr))) = length arr)%nat.
Proof.
  revert i. induction arr as [|x arr IH]; intros i; simpl; [done|].
  rewrite filter_cons. specialize (IH (S i)).
  destruct (decide (i ∈ sel)); simpl; lia.
Qed.


Lemma selected_in_range_eq (sel : gset nat) (n : nat) :
  (∀ k, k ∈ sel → (k < n)%nat) →
  length (filter (λ k, k ∈ sel) (seq 0 n)) = size sel.
Proof.
  intros Hin. unfold size, set_size. simpl. apply Permutation_length.
  apply NoDup_Permutation.
  - apply NoDup_filter, NoDup_seq.
  - apply NoDup_elements.
  - intros k. rewrite list_elem_of_filter, elem_of_seq, elem_of_elements.
    split; [by intros [? _]|]. intros Hk. split; [done|]. apply Hin in Hk. lia.
Qed.


(** ** Moving through the pages *)


(** ** Rotating the selection *)

Lemma rotate_fold_lookup (order : list entry) (deg : Z) (rots : gmap entry Z)
    (sel : gset nat) (key : entry) :
  ((∀ k, k ∈ sel → js_index order k ≠ key) →
     set_fold (rotate_one order deg) rots sel !! key = rots !! key) ∧
  (∀ k, k ∈ sel → js_index order k = key →
     (∀ k', k' ∈ sel → js_index order k' = key → k' = k) →
     set_fold (rotate_one order deg) rots sel !! key =
       Some (Z.rem (default 0 (rots !! key) + deg + 360) 360)).
Proof.
  apply (set_fold_ind_L
    (λ r X,
       ((∀ k, k ∈ X → js_index order k ≠ key) → r !! key = rots !! key) ∧
       (∀ k, k ∈ X → js_index order k = key →
          (∀ k', k' ∈ X → js_index order k' = key → k' = k) →
          r !! key = Some (Z.rem (default 0 (rots !! key) + deg + 360) 360)))).
  - split; [done|]. intros k Hk. by apply not_elem_of_empty in Hk.
  - intros x X r Hx [IHa IHb]. unfold rotate_one. split.
    + intros Hno.
      rewrite lookup_insert_ne
        by (apply Hno, elem_of_union; left; by apply elem_of_singleton).
      apply IHa. intros k Hk. apply Hno, elem_of_union. by right.
    + intros k Hk Hkey Huniq.
      destruct (decide (js_index order x = key)) as [Hxk|Hxk].
      * assert (x = k) as -> by (apply Huniq; [apply elem_of_union; left; by apply elem_of_singleton|done]).
        rewrite Hkey, lookup_insert_eq. rewrite IHa; [done|].
        intros k' Hk' Hk'key.
        assert (k' = k) as -> by (apply Huniq; [apply elem_of_union; by right|done]).
        done.
      * rewrite lookup_insert_ne by done.
        assert (k ∈ X) as HkX.
        { apply elem_of_union in Hk as [Hk|Hk]; [|done].
          apply elem_of_singleton in Hk. by subst. }
        apply (IHb k HkX Hkey). intros k' Hk' Hk'key.
        apply Huniq; [apply elem_of_union; by right|done].
Qed.

Lemma js_index_entry (order : list entry) (k : nat) (z : Z) :
  js_index order k = Some z → order !! k = Some (Some z).
Proof.
  unfold js_index. destruct (order !! k) as [e|]; simpl; [|done]. by intros ->.
Qed.

Lemma rotateSel_reachable (d : bool) (w : World) (deg : Z) :
  reachable d w →
  (0 < size (selectedPgs (sess w)))%nat →
  ∃ w',
    run (rotateSel deg) w = (w', Ok tt) ∧
    pageOrder (sess w') = pageOrder (sess w) ∧
    selectedPgs (sess w') = ∅ ∧
    ∀ (k : nat) (i : entry), pageOrder (sess w) !! k = Some i →
      ledger_delta (pageRots (sess w')) i =
        if decide (k ∈ selectedPgs (sess w))
        then Z.rem (ledger_delta (pageRots (sess w)) i + deg + 360) 360
        else ledger_delta (pageRots (sess w)) i.
Proof.
  intros Hr Hsel. destruct (reachable_session_ok d w Hr)
    as (raw & src & Hraw & Hload & Hdoc & Hnd & Hv & Ht & Hc).
  assert (Hrun : ∃ w', run (rotateSel deg) w = (w', Ok tt)).
  { unfold rotateSel. unfold run, mbind, Op_bind, bind, get, throw.
    case_decide; [lia|]. unfold modify. simpl.
    match goal with |- context [renderGrid ?w0] => set (w1 := w0) end.
    pose proof (renderGrid_valid w1 src Hdoc Hv) as Hg. unfold run in Hg.
    rewrite Hg. unfold unawaited. by eexists. }
  destruct Hrun as [w' Hrun]. exists w'. split; [done|].
  apply rotateSel_sess in Hrun. rewrite Hrun. simpl.
  split; [done|]. split; [done|].
  intros k i Hk.
  assert (∃ z, i = Some z) as [z ->].
  { eapply Forall_forall in Hv; [|by eapply list_elem_of_lookup_2].
    destruct i; [by eexists|done]. }
  assert (Hkey : js_index (pageOrder (sess w)) k = Some z)
    by (unfold js_index; by rewrite Hk).
  assert (Huniq : ∀ k', js_index (pageOrder (sess w)) k' = Some z → k' = k).
  { intros k' Hk'. apply js_index_entry in Hk'.
    by eapply NoDup_lookup. }
  destruct (rotate_fold_lookup (pageOrder (sess w)) deg (pageRots (sess w))
              (selectedPgs (sess w)) (Some z)) as [Ha Hb].
  unfold ledger_delta. case_decide as Hin.
  - rewrite (Hb k Hin Hkey); [done|]. intros k' _. apply Huniq.
  - rewrite Ha; [done|]. intros k' Hk' Heq. apply Huniq in Heq. by subst.
Qed.

(** In every reachable world rotating a non-empty selection completes,
    keeps the order table, clears the selection, and changes the ledger
    for exactly the pages at the selected positions: their delta becomes
    [(delta + deg + 360) % 360], every other page of the table keeps
    its delta. *)
Theorem rotate_selected_pages (d : bool) (w : World) (deg : Z) :
  reachable d w →
  (0 < size (selectedPgs (sess w)))%nat →
  ∃ w',
    run (rotateSel deg) w = (w', Ok tt) ∧
    pageOrder (sess w') = pageOrder (sess w) ∧
    selectedPgs (sess w') = ∅ ∧
    ∀ (k : nat) (i : entry), pageOrder (sess w) !! k = Some i →
      ledger_delta (pageRots (sess w')) i =
        if decide (k ∈ selectedPgs (sess w))
        then Z.rem (ledger_delta (pageRots (sess w)) i + deg + 360) 360
        else ledger_delta (pageRots (sess w)) i.
Proof. apply rotateSel_reachable. Qed.

(** Selecting the thumbnail at position [k] and rotating, from a world
    without selection. *)
Lemma turn_page (d : bool) (w : World) (k : nat) (i : entry) (deg : Z) :
  reachable d w →
  selectedPgs (sess w) = ∅ →
  pageOrder (sess w) !! k = Some i →
  ∃ w',
    run (thumbClick k;; rotateSel deg) w = (w', Ok tt) ∧
    reachable d w' ∧
    selectedPgs (sess w') = ∅ ∧
    pageOrder (sess w') = pageOrder (sess w) ∧
    ledger_delta (pageRots (sess w')) i =
      Z.rem (ledger_delta (pageRots (sess w)) i + deg + 360) 360.
Proof.
  intros Hr Hsel Hk.
  set (ws := MkWorld (set_selectedPgs {[k]} (sess w)) (calls w) (downloads w)).
  assert (Hclick : run (thumbClick k) w = (ws, Ok tt)).
  { unfold thumbClick. op_unfold. rewrite Hsel.
    rewrite decide_False by apply not_elem_of_empty. subst ws. do 3 f_equal.
    apply union_empty_l_L. }
  assert (Hrs : reachable d ws) by (by eapply reach_select).
  destruct (rotateSel_reachable d ws deg Hrs) as (w' & Hrun & Ho & Hs & Hl).
  { subst ws. cbn [sess selectedPgs set_selectedPgs]. rewrite size_singleton. lia. }
  exists w'. split.
  { unfold run in *. unfold mbind, Op_bind, bind. by rewrite Hclick. }
  split; [by eapply reach_rotate|]. split; [done|]. split; [done|].
  rewrite (Hl k i Hk). subst ws. cbn [sess selectedPgs set_selectedPgs pageRots].
  by rewrite decide_True by (by apply elem_of_singleton).
Qed.

Lemma quarter_turn (delta deg : Z) :
  0 ≤ delta < 360 → -360 ≤ deg →
  Z.rem (delta + deg + 360) 360 = (delta + deg) `mod` 360.
Proof.
  intros. rewrite Z.rem_mod_nonneg by lia.
  replace (delta + deg + 360) with (delta + deg + 1 * 360) by lia.
  by rewrite Z_mod_plus_full.
Qed.

(** Four right turns of a page bring its delta back: the deltas seen on
    the way are the original one plus 90, 180 and 270, modulo 360. *)
Theorem four_right_turns (d : bool) (w : World) (k : nat) (i : entry) :
  reachable d w →
  selectedPgs (sess w) = ∅ →
  pageOrder (sess w) !! k = Some i →
  0 ≤ ledger_delta (pageRots (sess w)) i < 360 →
  ∃ w1 w2 w3 w4,
    run (thumbClick k;; rotateSel 90) w = (w1, Ok tt) ∧
    run (thumbClick k;; rotateSel 90) w1 = (w2, Ok tt) ∧
    run (thumbClick k;; rotateSel 90) w2 = (w3, Ok tt) ∧
    run (thumbClick k;; rotateSel 90) w3 = (w4, Ok tt) ∧
    ledger_delta (pageRots (sess w1)) i = (ledger_delta (pageRots (sess w)) i + 90) `mod` 360 ∧
    ledger_delta (pageRots (sess w2)) i = (ledger_delta (pageRots (sess w)) i + 180) `mod` 360 ∧
    ledger_delta (pageRots (sess w3)) i = (ledger_delta (pageRots (sess w)) i + 270) `mod` 360 ∧
    ledger_delta (pageRots (sess w4)) i = ledger_delta (pageRots (sess w)) i.
Proof.
  intros Hr Hsel Hk Hd. set (δ := ledger_delta (pageRots (sess w)) i) in *.
  destruct (turn_page d w k i 90 Hr Hsel Hk) as (w1 & H1 & Hr1 & Hs1 & Ho1 & Hl1).
  rewrite <- Ho1 in Hk.
  destruct (turn_page d w1 k i 90 Hr1 Hs1 Hk) as (w2 & H2 & Hr2 & Hs2 & Ho2 & Hl2).
  rewrite <- Ho2 in Hk.
  destruct (turn_page d w2 k i 90 Hr2 Hs2 Hk) as (w3 & H3 & Hr3 & Hs3 & Ho3 & Hl3).
  rewrite <- Ho3 in Hk.
  destruct (turn_page d w3 k i 90 Hr3 Hs3 Hk) as (w4 & H4 & Hr4 & Hs4 & Ho4 & Hl4).
  exists w1, w2, w3, w4. repeat (split; [done|]).
  fold δ in Hl1. rewrite quarter_turn in Hl1 by lia.
  pose proof (Z.mod_pos_bound (δ + 90) 360 ltac:(lia)) as B1.
  rewrite Hl1 in Hl2. rewrite quarter_turn in Hl2 by lia.
  rewrite Zplus_mod_idemp_l in Hl2.
  pose proof (Z.mod_pos_bound (δ + 90 + 90) 360 ltac:(lia)) as B2.
  rewrite Hl2 in Hl3. rewrite quarter_turn in Hl3 by lia.
  rewrite Zplus_mod_idemp_l in Hl3.
  pose proof (Z.mod_pos_bound (δ + 90 + 90 + 90) 360 ltac:(lia)) as B3.
  rewrite Hl3 in Hl4. rewrite quarter_turn in Hl4 by lia.
  rewrite Zplus_mod_idemp_l in Hl4.
  split; [done|]. split; [rewrite Hl2; f_equal; lia|].
  split; [rewrite Hl3; f_equal; lia|].
  rewrite Hl4. replace (δ + 90 + 90 + 90 + 90) with (δ + 1 * 360) by lia.
  rewrite Z_mod_plus_full. by apply Z.mod_small.
Qed.

(** A left turn undoes a right turn, and a right turn a left one. *)
Theorem opposite_turns_cancel (d : bool) (w : World) (k : nat) (i : entry) (deg : Z) :
  reachable d w →
  selectedPgs (sess w) = ∅ →
  pageOrder (sess w) !! k = Some i →
  0 ≤ ledger_delta (pageRots (sess w)) i < 360 →
  deg = 90 ∨ deg = -90 →
  ∃ w1 w2,
    run (thumbClick k;; rotateSel deg) w = (w1, Ok tt) ∧
    run (thumbClick k;; rotateSel (- deg)) w1 = (w2, Ok tt) ∧
    0 ≤ ledger_delta (pageRots (sess w1)) i < 360 ∧
    ledger_delta (pageRots (sess w2)) i = ledger_delta (pageRots (sess w)) i.
Proof.
  intros Hr Hsel Hk Hd Hdeg. set (δ := ledger_delta (pageRots (sess w)) i) in *.
  destruct (turn_page d w k i deg Hr Hsel Hk) as (w1 & H1 & Hr1 & Hs1 & Ho1 & Hl1).
  rewrite <- Ho1 in Hk.
  destruct (turn_page d w1 k i (- deg) Hr1 Hs1 Hk) as (w2 & H2 & Hr2 & Hs2 & Ho2 & Hl2).
  exists w1, w2. split; [done|]. split; [done|].
  fold δ in Hl1. rewrite quarter_turn in Hl1 by lia.
  pose proof (Z.mod_pos_bound (δ + deg) 360 ltac:(lia)) as B1.
  split; [by rewrite Hl1|].
  rewrite Hl1 in Hl2. rewrite quarter_turn in Hl2 by lia.
  rewrite Zplus_mod_idemp_l in Hl2. rewrite Hl2.
  replace (δ + deg + - deg) with δ by lia. by apply Z.mod_small.
Qed.

(** ** The overlay edit from start to end *)

Lemma applyEdit_run (w : World) (b : bytes) (doc : document) :
  load b = Some doc → (1 ≤ length doc)%nat →
  run (applyEdit b) w =
    (MkWorld
       (MkSession (Some doc) (Some b) (identity_order (length doc)) ∅
          (selectedPgs (sess w))
          (Z.max 1 (Z.min (curPage (sess w)) (Z.of_nat (length doc))))
          (Z.of_nat (length doc)) (mergeFiles (sess w)))
       (calls w) (downloads w),
     Ok tt).
Proof.
  intros Hload Hn. unfold applyEdit, pdfjs_getDocument.
  unfold run, mbind, Op_bind, bind, get, from_option. rewrite Hload.
  unfold ret, modify. cbn [sess calls downloads set_rawBytes set_pdfJsDoc
    set_totalPages set_pageOrder set_pageRots set_curPage curPage pdfJsDoc
    rawBytes pageOrder pageRots selectedPgs totalPages mergeFiles].
  match goal with |- context [previewMain ?pg ?w0] =>
    change (previewMain pg w0) with (run (previewMain pg) w0);
    rewrite (previewMain_valid pg w0 doc)
  end.
  all: cbn [sess calls downloads];
    unfold set_curPage, set_pageRots, set_pageOrder, set_totalPages,
      set_pdfJsDoc, set_rawBytes;
    cbn [pdfJsDoc rawBytes pageOrder pageRots selectedPgs curPage totalPages
         mergeFiles].
  - do 3 f_equal. lia.
  - reflexivity.
  - apply identity_order_valid.
  - by rewrite identity_order_length.
  - intros Hnil. apply (f_equal length) in Hnil.
    rewrite identity_order_length in Hnil. simpl in Hnil. lia.
Qed.

Lemma edited_bytes_run (w : World) (raw : bytes) (src : document)
    (pages : list page) (mutate : document → result document) :
  rawBytes (sess w) = Some raw → load raw = Some src →
  mapM (page_at src) (pageOrder (sess w)) = Some pages →
  turns_accepted src (pageOrder (sess w)) (pageRots (sess w)) →
  run (edited_bytes mutate) w =
    match mutate (saved_pages
                    (imap (baked_page (pageOrder (sess w)) (pageRots (sess w))) pages)) with
    | Ok doc' =>
        (MkWorld (sess w)
           (calls w ++ [CLoad; CCreate; CCopy; CSave; CLoad; CSave]) (downloads w),
         Ok (save doc'))
    | Err e =>
        (MkWorld (sess w)
           (calls w ++ [CLoad; CCreate; CCopy; CSave; CLoad]) (downloads w),
         Err e)
    end.
Proof.
  intros Hraw Hload Hcopy Hacc. unfold edited_bytes.
  unfold run, mbind, Op_bind, bind.
  pose proof (rebuild_run w raw src pages Hraw Hload Hcopy Hacc) as Hrun.
  unfold run in Hrun. rewrite Hrun.
  unfold PDFDocument_load, doc_save. op_unfold. simpl. rewrite load_save_pages. simpl.
  destruct (mutate _); simpl; by rewrite <- !app_assoc.
Qed.

(** In every reachable world, adding a non-empty text on page [n] of the
    table works on the output of [rebuild].  When [setRotation] accepts
    the angle of every page that has a delta, the page drawn on is page
    [n] of that output, and when the drawing call succeeds the handler
    completes and installs the output with that one page replaced, under
    the identity order; when the drawing call throws, the handler fails
    with that error.  When [setRotation] rejects an angle, the handler
    fails in [rebuild], after the copy, and [S] is what it was. *)
Theorem add_text_outcome (d : bool) (w : World) (text : string) (n : Z)
    (draw : page → option page) :
  reachable d w →
  text ≠ EmptyString →
  1 ≤ n ≤ totalPages (sess w) →
  ∃ src,
    pdfJsDoc (sess w) = Some src ∧
    (turns_accepted src (pageOrder (sess w)) (pageRots (sess w)) →
     ∃ base p,
       (run rebuild w).2 = Ok (save base) ∧
       length base = length (pageOrder (sess w)) ∧
       base !! Z.to_nat (n - 1) = Some p ∧
       match draw p with
       | Some p' =>
           ∃ w', run (addTextBtn text (Some n) draw) w = (w', Ok tt) ∧
                 rawBytes (sess w') = Some (save (<[Z.to_nat (n - 1) := p']> base)) ∧
                 pageOrder (sess w') = identity_order (length base) ∧
                 pageRots (sess w') = ∅
       | None => (run (addTextBtn text (Some n) draw) w).2 = Err MutationFailed
       end) ∧
    (¬ turns_accepted src (pageOrder (sess w)) (pageRots (sess w)) →
     run (addTextBtn text (Some n) draw) w =
       (MkWorld (sess w) (calls w ++ [CLoad; CCreate; CCopy]) (downloads w),
        Err RotationRejected)).
Proof.
  intros Hr Htext Hn. destruct (reachable_session_ok d w Hr)
    as (raw & src & Hraw & Hload & Hdoc & Hnd & Hv & Ht & Hc).
  assert (Hedit : run (addTextBtn text (Some n) draw) w =
                  match run (edited_bytes (draw_on_page n draw)) w with
                  | (w1, Ok saved) => run (applyEdit saved) w1
                  | (w1, Err e) => (w1, Err e)
                  end).
  { unfold addTextBtn, okPage. unfold run, mbind, Op_bind, bind, get, from_option.
    rewrite Hraw. simpl. rewrite decide_False by done. simpl.
    by rewrite decide_False by lia. }
  exists src. split; [done|]. split.
  - intros Hacc. destruct (copy_valid src _ Hv) as [pages Hcopy].
    set (base := imap (baked_page (pageOrder (sess w)) (pageRots (sess w))) pages).
    assert (Hlen : length base = length (pageOrder (sess w))).
    { subst base. rewrite length_imap. apply mapM_Some in Hcopy.
      symmetry. by eapply Forall2_length. }
    destruct (lookup_lt_is_Some_2 base (Z.to_nat (n - 1))) as [p Hp]; [lia|].
    assert (Hbase : saved_pages base = base).
    { apply saved_pages_nonempty. intros Hnil. by rewrite Hnil in Hp. }
    exists base, p. split.
    { by rewrite (rebuild_run w raw src pages Hraw Hload Hcopy Hacc). }
    split; [done|]. split; [done|].
    rewrite Hedit, (edited_bytes_run w raw src pages _ Hraw Hload Hcopy Hacc).
    fold base. rewrite Hbase.
    unfold draw_on_page. simpl. rewrite decide_True by lia. rewrite Hp.
    destruct (draw p) as [p'|]; [|done].
    eexists. split.
    { apply applyEdit_run.
      - apply load_save_nonempty. intros Hnil. apply (f_equal length) in Hnil.
        rewrite length_insert in Hnil. simpl in Hnil. lia.
      - rewrite length_insert. lia. }
    simpl. by rewrite length_insert.
  - intros Hrej. rewrite Hedit. unfold edited_bytes.
    unfold run, mbind, Op_bind, bind.
    pose proof (rebuild_run_rejected w raw src Hraw Hload Hv Hrej) as Hrun.
    unfold run in Hrun. by rewrite Hrun.
Qed.

Lemma edited_bytes_saved (w w1 : World) (mutate : document → result document)
    (b : bytes) :
  run (edited_bytes mutate) w = (w1, Ok b) → ∃ doc', b = save doc'.
Proof.
  unfold edited_bytes. unfold run, mbind, Op_bind, bind.
  destruct (rebuild w) as [w0 [base|e]]; [|done].
  unfold PDFDocument_load, doc_save. op_unfold. simpl.
  destruct (load base) as [doc|]; simpl; [|done].
  destruct (mutate doc) as [doc'|e]; simpl; [|done].
  intros [= _ <-]. by eexists.
Qed.

(** Right after an overlay edit completed, [rebuild] gives a file with
    the very pages of the bytes the edit installed, in the same order and
    with the same rotation entries: the reorder, the deletes and the
    rotations that went into those bytes are not applied a second time.
    (The file is a new serialisation; only its pages are compared.) *)
Theorem rebuild_after_commit (w w' : World) (text : string) (pg : entry)
    (draw : page → option page) :
  run (addTextBtn text pg draw) w = (w', Ok tt) →
  ∃ b out doc,
    rawBytes (sess w') = Some b ∧ load b = Some doc ∧
    (run rebuild w').2 = Ok out ∧ load out = Some doc.
Proof.
  intros Hrun.
  destruct (addTextBtn_bytes _ _ _ _ _ Hrun) as (n & b & w1 & -> & _ & Hb & Hcommit).
  apply applyEdit_sess in Hcommit as (doc & Hload & Hn & ->).
  exists b, (save doc), doc. split; [done|]. split; [done|].
  assert (Hne : doc ≠ []).
  { intros ->. simpl in Hn. lia. }
  split; [|by apply load_save_nonempty].
  erewrite (rebuild_run _ b doc doc); simpl;
    [|done|done|apply copy_identity|apply turns_accepted_empty].
  by rewrite baked_page_empty.
Qed.
(** ** The first script's rebuild against [rebuild] *)

Lemma forEach_from_V1_Err (order : list entry) (rots : gmap entry Z)
    (pages : list page) (n : nat) (e : error) :
  forEach_from (V1.rebuild_page order rots) n pages (Err e) = Err e.
Proof. revert n. induction pages as [|p pages IH]; intros n; simpl; [done|apply IH]. Qed.

Lemma V1_rebuild_page_readable (order : list entry) (rots : gmap entry Z)
    (r : result document) (p : page) (n : nat) :
  (ledger_delta rots (js_index order n) ≠ 0 → rotation p ≠ RotThrows) →
  V1.rebuild_page order rots r p n = rebuild_page order rots r p n.
Proof.
  intros Hok. unfold V1.rebuild_page, rebuild_page, V1.rotation_angle,
    getPageRotationAngle, ledger_delta in *.
  destruct r as [d|e]; simpl; [|done].
  case_decide as Hd; [|done]. specialize (Hok Hd).
  by destruct (rotation p).
Qed.

Lemma forEach_from_V1_readable (order : list entry) (rots : gmap entry Z)
    (pages : list page) (n : nat) (r : result document) :
  (∀ j p, pages !! j = Some p → ledger_delta rots (js_index order (n + j)) ≠ 0 →
          rotation p ≠ RotThrows) →
  forEach_from (V1.rebuild_page order rots) n pages r =
    forEach_from (rebuild_page order rots) n pages r.
Proof.
  revert n r. induction pages as [|p pages IH]; intros n r Hok; cbn [forEach_from];
    [done|].
  rewrite V1_rebuild_page_readable.
  - apply IH. intros j q Hq Hd. apply (Hok (S j) q Hq).
    by replace (n + S j)%nat with (S n + j)%nat by lia.
  - intros Hd. apply (Hok 0%nat p eq_refl). by rewrite Nat.add_0_r.
Qed.

Lemma forEach_from_V1_fail (order : list entry) (rots : gmap entry Z)
    (pages : list page) (n : nat) (r : result document) (j : nat) (p : page) :
  pages !! j = Some p →
  ledger_delta rots (js_index order (n + j)) ≠ 0 →
  rotation p = RotThrows →
  ∃ e, forEach_from (V1.rebuild_page order rots) n pages r = Err e.
Proof.
  revert n r j. induction pages as [|q pages IH]; intros n r j Hj Hd Hrot; [done|].
  cbn [forEach_from]. destruct j as [|j]; simpl in Hj.
  - injection Hj as ->. rewrite Nat.add_0_r in Hd.
    assert (∃ e, V1.rebuild_page order rots r p n = Err e) as [e ->].
    { unfold V1.rebuild_page, V1.rotation_angle. destruct r as [d|e]; simpl; [|by eexists].
      unfold ledger_delta in Hd. rewrite decide_True by done. rewrite Hrot.
      by eexists. }
    exists e. apply forEach_from_V1_Err.
  - apply (IH (S n) _ j Hj); [|done].
    by replace (S n + j)%nat with (n + S j)%nat by lia.
Qed.

(** The first script's [getRebuildBytes] reads the rotation unguarded.
    On the same state it does exactly what [rebuild] does as long as the
    rotation of every page that has a delta in the ledger can be read (an
    absent entry reads as 0).  A single page with a delta and a rotation
    entry whose read throws makes it fail after the copy, where [rebuild]
    takes the rotation for 0 and, if [setRotation] accepts the angles,
    succeeds. *)
Theorem first_script_rebuild (w : World) (raw : bytes) (src : document) :
  rawBytes (sess w) = Some raw →
  load raw = Some src →
  Forall (valid_index (length src)) (pageOrder (sess w)) →
  ((∀ (k : nat) (i : Z) (p : page),
      pageOrder (sess w) !! k = Some (Some i) → src !! Z.to_nat i = Some p →
      ledger_delta (pageRots (sess w)) (Some i) ≠ 0 →
      rotation p ≠ RotThrows) →
   run V1.getRebuildBytes w = run rebuild w) ∧
  (∀ (k : nat) (i : Z) (p : page),
      pageOrder (sess w) !! k = Some (Some i) → src !! Z.to_nat i = Some p →
      ledger_delta (pageRots (sess w)) (Some i) ≠ 0 →
      rotation p = RotThrows →
      (∃ e, run V1.getRebuildBytes w =
              (MkWorld (sess w) (calls w ++ [CLoad; CCreate; CCopy]) (downloads w),
               Err e)) ∧
      (turns_accepted src (pageOrder (sess w)) (pageRots (sess w)) →
       ∃ out, (run rebuild w).2 = Ok out)).
Proof.
  intros Hraw Hload Hv.
  destruct (copy_valid src _ Hv) as [pages Hcopy].
  assert (Hpage : ∀ k i p, pageOrder (sess w) !! k = Some (Some i) →
                           src !! Z.to_nat i = Some p → pages !! k = Some p).
  { intros k i p Hk Hp. destruct (copy_lookup _ _ _ _ _ Hcopy Hk) as (q & Hq & Hat).
    simpl in Hat. case_decide; [|done]. congruence. }
  assert (Hunf : ∀ r : result document,
            forEach (V1.rebuild_page (pageOrder (sess w)) (pageRots (sess w)))
              pages (Ok []) = r →
            run V1.getRebuildBytes w =
              match r with
              | Ok d => (MkWorld (sess w) (calls w ++ [CLoad; CCreate; CCopy; CSave])
                           (downloads w), Ok (save d))
              | Err e => (MkWorld (sess w) (calls w ++ [CLoad; CCreate; CCopy])
                            (downloads w), Err e)
              end).
  { intros r Hr. unfold V1.getRebuildBytes, PDFDocument_load, PDFDocument_create,
      copyPages, doc_save. op_unfold. simpl.
    rewrite Hraw. simpl. rewrite Hload. simpl. rewrite Hcopy. simpl. rewrite Hr.
    destruct r; simpl; by rewrite <- !app_assoc. }
  split.
  - intros Hok. rewrite (Hunf _ eq_refl).
    unfold forEach. rewrite forEach_from_V1_readable.
    2:{ intros j p Hj Hd. simpl in Hd.
        destruct (copy_lookup_page _ _ _ _ _ Hcopy Hj) as (i & He & Hsrc).
        apply (Hok j i p He Hsrc). unfold js_index in Hd. by rewrite He in Hd. }
    unfold rebuild, PDFDocument_load, PDFDocument_create, copyPages, doc_save.
    op_unfold. simpl.
    rewrite Hraw. simpl. rewrite Hload. simpl. rewrite Hcopy. simpl.
    unfold forEach.
    destruct (forEach_from _ _ _ _); simpl; by rewrite <- !app_assoc.
  - intros k i p Hk Hp Hd Hrot. split.
    + destruct (forEach_from_V1_fail (pageOrder (sess w)) (pageRots (sess w))
                  pages 0 (Ok []) k p) as [e He]; [by eapply Hpage| |done|].
      { simpl. unfold js_index. by rewrite Hk. }
      exists e. by rewrite (Hunf (Err e) He).
    + intros Hacc. rewrite (rebuild_run w raw src pages Hraw Hload Hcopy Hacc).
      by eexists.
Qed.
(** ** The first script after an upload *)

Lemma getRebuildBytes_detached (w : World) :
  rawBytes (sess w) = Some detached →
  run V1.getRebuildBytes w =
    (MkWorld (sess w) (calls w ++ [CLoad]) (downloads w), Err SourceUnreadable).
Proof.
  intros Hraw. unfold V1.getRebuildBytes, PDFDocument_load. op_unfold. simpl.
  rewrite Hraw. simpl. by rewrite load_detached.
Qed.

(** After an upload that the first script completes, [state.rawBytes] is
    the array whose buffer PDF.js took: the preview shows the file, but
    [getRebuildBytes] fails at its load, and with it the add-text handler,
    which leaves the state object as it is. *)
Theorem first_script_upload_detaches (w w' : World) (b : bytes) :
  run (FirstScript.handleFileUpload b) w = (w', Ok tt) →
  ∃ doc,
    load b = Some doc ∧
    pdfJsDoc (sess w') = Some doc ∧
    pageOrder (sess w') = identity_order (length doc) ∧
    rawBytes (sess w') = Some detached ∧
    run V1.getRebuildBytes w' =
      (MkWorld (sess w') (calls w' ++ [CLoad]) (downloads w'), Err SourceUnreadable) ∧
    ∀ (text : string) (n : Z) (draw : page → option page),
      text ≠ EmptyString → 1 ≤ n ≤ totalPages (sess w') →
      run (FirstScript.addTextBtn text (Some n) draw) w' =
        (MkWorld (sess w') (calls w' ++ [CLoad]) (downloads w'), Err SourceUnreadable).
Proof.
  intros Hrun.
  assert (∃ doc, load b = Some doc ∧ pdfJsDoc (sess w') = Some doc ∧
                 pageOrder (sess w') = identity_order (length doc) ∧
                 rawBytes (sess w') = Some detached) as (doc & Hload & Hdoc & Ho & Hraw).
  { revert Hrun.
    unfold FirstScript.handleFileUpload, V1.pdfjs_getDocument_of_rawBytes,
      PDFDocument_load, pdfjs_getDocument.
    unfold run, mbind, Op_bind, bind, get, from_option, log, modify, ret, mret, Op_ret.
    cbn [sess calls downloads].
    destruct (load b) as [doc|] eqn:Hload; [|done]. cbn [sess calls downloads].
    match goal with |- context [previewMain ?pg ?w0] =>
      pose proof (previewMain_curPage pg w0) as Hc;
      unfold run in Hc; destruct (previewMain pg w0) as [w2 r2]
    end.
    simpl in Hc. intros [= <- ->]. subst w2. by exists doc. }
  exists doc. split; [done|]. split; [done|]. split; [done|]. split; [done|].
  split; [by apply getRebuildBytes_detached|].
  intros text n draw Htext Hn. unfold FirstScript.addTextBtn.
  unfold run, mbind, Op_bind, bind, get, from_option. rewrite Hdoc. simpl.
  rewrite decide_False by done. rewrite decide_False by lia.
  pose proof (getRebuildBytes_detached w' Hraw) as Hget.
  unfold run in Hget. by rewrite Hget.
Qed.

(** ** The delete handlers of the other scripts *)

(** The first script's delete leaves the current page alone: when the
    last page was current and the selected positions were positions of the
    table, the current page lies past the end of the shortened table. *)
Theorem first_script_delete_pointer (w w' : World) (confirmed : bool) :
  run (FirstScript.deleteSelectedBtn confirmed) w = (w', Ok tt) →
  curPage (sess w') = curPage (sess w) ∧
  totalPages (sess w') = Z.of_nat (length (pageOrder (sess w'))) ∧
  pageOrder (sess w') =
    keep_unselected (selectedPgs (sess w)) (pageOrder (sess w)) ∧
  ((∀ k, k ∈ selectedPgs (sess w) → (k < length (pageOrder (sess w)))%nat) →
   curPage (sess w) = Z.of_nat (length (pageOrder (sess w))) →
   totalPages (sess w') < curPage (sess w')).
Proof.
  unfold FirstScript.deleteSelectedBtn. unfold run, mbind, Op_bind, bind, get, throw.
  case_decide as Hsz; [done|]. destruct confirmed; simpl; [|done].
  case_decide; [done|]. simpl. rewrite splice_each_selection.
  match goal with |- context [renderGrid ?w0] => set (w1 := w0) end.
  pose proof (renderGrid_world w1) as Hr. unfold run in Hr.
  destruct (renderGrid w1) as [w2 [[]|e]]; cbn [fst] in Hr; [|done]. subst w2.
  intros [= <-]. simpl. split; [done|]. split; [done|]. split; [done|].
  intros Hin Hcur.
  pose proof (keep_unselected_from_length (selectedPgs (sess w)) 0
                (pageOrder (sess w))) as Hlen.
  rewrite selected_in_range_eq in Hlen by done.
  unfold keep_unselected. lia.
Qed.

(** The v4 delete handler does what the one of [script.js] does on every
    non-empty selection; on an empty selection it shows the delete-all
    message where [script.js] leaves silently.  Neither changes anything
    then. *)
Theorem v4_delete_agrees (w : World) (confirmed : bool) :
  ((0 < size (selectedPgs (sess w)))%nat →
     run (V4Script.deleteSelectedBtn confirmed) w = run (deleteSelectedBtn confirmed) w) ∧
  (size (selectedPgs (sess w)) = 0%nat →
     run (V4Script.deleteSelectedBtn confirmed) w = (w, Err CannotDeleteAll) ∧
     run (deleteSelectedBtn confirmed) w = (w, Err EmptySelection)).
Proof.
  unfold V4Script.deleteSelectedBtn, deleteSelectedBtn.
  unfold run, mbind, Op_bind, bind, get, throw. split.
  - intros Hsz. rewrite (decide_False (P := size _ = 0%nat)) by lia.
    destruct (decide (length (pageOrder (sess w)) ≤ size (selectedPgs (sess w)))%nat).
    + by rewrite decide_True by (by right).
    + by rewrite decide_False by lia.
  - intros Hsz. rewrite (decide_True (P := size _ = 0%nat)) by done.
    by rewrite decide_True by (by left).
Qed.

(** ** Uploading a file that does not parse *)

(** [loadFile] on bytes that do not parse fails, but the bytes are already
    in [S.rawBytes] while the preview document, the order table and the
    ledger are still those of the file that was open: download and
    rebuild then fail on the new bytes. *)
Theorem failed_upload_breaks_download (w : World) (b : bytes) :
  load b = None →
  run (loadFile b) w =
    (MkWorld (set_rawBytes (Some b) (sess w)) (calls w) (downloads w),
     Err SourceUnreadable) ∧
  (run rebuild (run (loadFile b) w).1).2 = Err SourceUnreadable ∧
  (run downloadBtn (run (loadFile b) w).1).2 = Err SourceUnreadable ∧
  downloads (run downloadBtn (run (loadFile b) w).1).1 = downloads w.
Proof.
  intros Hload.
  assert (Hrun : run (loadFile b) w =
    (MkWorld (set_rawBytes (Some b) (sess w)) (calls w) (downloads w),
     Err SourceUnreadable)).
  { unfold loadFile, ingestBytes, pdfjs_getDocument. op_unfold. simpl.
    by rewrite Hload. }
  rewrite Hrun. split; [done|].
  unfold downloadBtn, rebuild, PDFDocument_load. op_unfold. simpl.
  by rewrite Hload.
Qed.

(** The first script loads the bytes with pdf-lib before it assigns
    anything: on bytes that do not parse the upload fails and the state
    object is what it was. *)
Theorem first_script_failed_upload (w : World) (b : bytes) :
  load b = None →
  run (FirstScript.handleFileUpload b) w =
    (MkWorld (sess w) (calls w ++ [CLoad]) (downloads w), Err SourceUnreadable).
Proof.
  intros Hload. unfold FirstScript.handleFileUpload, PDFDocument_load.
  op_unfold. simpl. by rewrite Hload.
Qed.

(** ** The password button *)

(** Whatever the two passwords are, as long as the user password is not
    empty the password button hands the browser the very bytes the
    download button hands it, with the same codec calls and the same
    result, and leaves [S] alone. *)
Theorem password_button_is_download (w : World) (up owner : string) :
  up ≠ EmptyString →
  (run (applyPwdBtn up owner) w).2 = (run downloadBtn w).2 ∧
  (new_downloads w (run (applyPwdBtn up owner) w).1).*2 =
    (new_downloads w (run downloadBtn w).1).*2 ∧
  calls (run (applyPwdBtn up owner) w).1 = calls (run downloadBtn w).1 ∧
  sess (run (applyPwdBtn up owner) w).1 = sess w.
Proof.
  intros Hup. unfold applyPwdBtn, downloadBtn.
  unfold run, mbind, Op_bind, bind, get, from_option, dlBytes.
  destruct (rawBytes (sess w)) as [raw|]; simpl; [|done].
  rewrite decide_False by done.
  destruct (rebuild_sess w) as [Hs Hd]. unfold run in Hs, Hd.
  destruct (rebuild w) as [w1 [out|e]]; simpl in *.
  - unfold new_downloads. simpl. by rewrite Hd, !drop_app_length.
  - done.
Qed.

(** ** Selecting *)

(** Clicking a thumbnail twice leaves the world as it was. *)
Theorem thumbClick_twice (w : World) (idx : nat) :
  run (thumbClick idx;; thumbClick idx) w = (w, Ok tt).
Proof.
  unfold thumbClick. op_unfold. destruct w as [s c dl]. destruct s.
  unfold set_selectedPgs. simpl.
  destruct (decide (idx ∈ selectedPgs0)) as [Hin|Hin].
  - rewrite decide_False
      by (rewrite elem_of_difference, elem_of_singleton; by intros [_ ?]).
    do 3 f_equal.
    apply set_eq. intros k. rewrite elem_of_union, elem_of_difference, elem_of_singleton.
    split; [intros [[? _]| ->]; done|]. intros Hk.
    destruct (decide (k = idx)); [by right|by left].
  - rewrite decide_True
      by (rewrite elem_of_union, elem_of_singleton; by right).
    do 3 f_equal.
    apply set_eq. intros k. rewrite elem_of_difference, elem_of_union, elem_of_singleton.
    split; [by intros [[?|?] ?]|]. intros Hk. split; [by left|]. by intros ->.
Qed.

(** After "select all" the delete button never deletes: on a table with
    at least one entry it is refused with the delete-all message,
    whatever was selected before and whatever the answer to the
    confirmation would be, and only the selection has changed. *)
Theorem select_all_then_delete (w : World) (confirmed : bool) :
  pageOrder (sess w) ≠ [] →
  run (selectAllBtn;; deleteSelectedBtn confirmed) w =
    (MkWorld
       (set_selectedPgs
          (selectedPgs (sess w) ∪ list_to_set (seq 0 (length (pageOrder (sess w)))))
          (sess w))
       (calls w) (downloads w),
     Err CannotDeleteAll).
Proof.
  intros Hne. unfold selectAllBtn, deleteSelectedBtn.
  unfold run, mbind, Op_bind, bind, get, throw, modify. simpl.
  set (all := list_to_set (seq 0 (length (pageOrder (sess w)))) : gset nat).
  assert (Hall : size all = length (pageOrder (sess w))).
  { subst all. rewrite size_list_to_set by apply NoDup_seq. apply length_seq. }
  assert (Hsz : (size all ≤ size (selectedPgs (sess w) ∪ all))%nat).
  { apply subseteq_size. apply union_subseteq_r. }
  assert (length (pageOrder (sess w)) ≠ 0%nat) by (by destruct (pageOrder (sess w))).
  clearbody all. rewrite decide_False by lia. by rewrite decide_True by lia.
Qed.

(** ** Dragging a thumbnail *)

Lemma list_move_lookup {A} (l : list A) (i j : nat) (x : A) :
  l !! i = Some x → (j < length l)%nat →
  (take j (delete i l) ++ x :: drop j (delete i l)) !! j = Some x ∧
  delete j (take j (delete i l) ++ x :: drop j (delete i l)) = delete i l.
Proof.
  intros Hx Hj.
  assert (Hi : (i < length l)%nat) by (by eapply lookup_lt_Some).
  assert (Hlen : length (take j (delete i l)) = j).
  { rewrite length_take, length_delete by (by eexists). lia. }
  split.
  - rewrite lookup_app_r by lia. by rewrite Hlen, Nat.sub_diag.
  - set (l1 := take j (delete i l)) in *. set (l2 := drop j (delete i l)).
    rewrite <- Hlen. rewrite delete_middle. subst l1 l2. apply take_drop.
Qed.

Lemma list_move_back {A} (l : list A) (i : nat) (x : A) :
  l !! i = Some x →
  take i (delete i l) ++ x :: drop i (delete i l) = l.
Proof.
  intros Hx.
  assert (Hi : (i < length l)%nat) by (by eapply lookup_lt_Some).
  assert (Hlen : length (take i l) = i) by (rewrite length_take; lia).
  rewrite delete_take_drop.
  rewrite take_app_length' by done. rewrite drop_app_length' by done.
  by apply take_drop_middle.
Qed.

(** A drag from position [oldIndex] to position [newIndex], both
    positions of the table, puts the dragged entry at [newIndex], keeps
    the other entries in their order, and clears the selection; dragging
    it back restores the table. *)
Theorem drag_and_back (w : World) (oldIndex newIndex : nat) (x : entry) :
  pageOrder (sess w) !! oldIndex = Some x →
  (newIndex < length (pageOrder (sess w)))%nat →
  ∃ w1 w2,
    run (onEnd oldIndex newIndex) w = (w1, Ok tt) ∧
    pageOrder (sess w1) !! newIndex = Some x ∧
    delete newIndex (pageOrder (sess w1)) = delete oldIndex (pageOrder (sess w)) ∧
    selectedPgs (sess w1) = ∅ ∧
    run (onEnd newIndex oldIndex) w1 = (w2, Ok tt) ∧
    pageOrder (sess w2) = pageOrder (sess w).
Proof.
  intros Hx Hj.
  destruct (list_move_lookup _ oldIndex newIndex x Hx Hj) as [Hat Hdel].
  eexists _, _. split; [by apply onEnd_run|]. simpl.
  split; [done|]. split; [done|]. split; [done|].
  split; [by apply onEnd_run|]. simpl.
  rewrite Hdel. by apply list_move_back.
Qed.

(** A drag event whose [oldIndex] is not a position of the table removes
    nothing and inserts [undefined]: the table is one entry longer, and
    on a loaded file [rebuild] then fails in the copy, after the load and
    the create, and returns no bytes. *)
Theorem drag_out_of_range (w : World) (oldIndex newIndex : nat) (raw : bytes)
    (src : document) :
  (length (pageOrder (sess w)) ≤ oldIndex)%nat →
  rawBytes (sess w) = Some raw →
  load raw = Some src →
  ∃ w1,
    run (onEnd oldIndex newIndex) w = (w1, Ok tt) ∧
    length (pageOrder (sess w1)) = S (length (pageOrder (sess w))) ∧
    None ∈ pageOrder (sess w1) ∧
    run rebuild w1 =
      (MkWorld (sess w1) (calls w1 ++ [CLoad; CCreate; CCopy]) (downloads w1),
       Err CodecError).
Proof.
  intros Hge Hraw Hload.
  set (order1 := take newIndex (pageOrder (sess w)) ++
                 None :: drop newIndex (pageOrder (sess w))).
  assert (Hrun : run (onEnd oldIndex newIndex) w =
    (MkWorld (set_selectedPgs ∅ (set_pageOrder order1 (sess w)))
       (calls w) (downloads w), Ok tt)).
  { unfold onEnd, splice. op_unfold. simpl.
    rewrite Nat.add_0_r, Nat.add_1_r.
    rewrite (drop_ge _ oldIndex), (drop_ge _ (S oldIndex)) by lia.
    rewrite (take_ge _ oldIndex) by lia. rewrite app_nil_r. reflexivity. }
  assert (Hin : None ∈ order1).
  { subst order1. apply elem_of_app. right. apply list_elem_of_here. }
  assert (Hbad : ¬ Forall (valid_index (length src)) order1).
  { intros HF. eapply Forall_forall in HF; [|exact Hin]. done. }
  eexists. split; [exact Hrun|]. simpl. split; [|split; [done|]].
  - subst order1. rewrite length_app. simpl. rewrite length_take, length_drop. lia.
  - assert (mapM (page_at src) order1 = None) as Hcopy.
    { apply mapM_None. apply Exists_exists. by exists None. }
    unfold rebuild, PDFDocument_load, PDFDocument_create, copyPages. op_unfold.
    simpl. rewrite Hraw. simpl. rewrite Hload. simpl. rewrite Hcopy. simpl.
    by rewrite <- !app_assoc.
Qed.

(** ** Clearing the file *)

Lemma mergeBtn_same_queue (w1 w2 : World) :
  mergeFiles (sess w1) = mergeFiles (sess w2) →
  (run mergeBtn w1).2 = (run mergeBtn w2).2 ∧
  new_downloads w1 (run mergeBtn w1).1 = new_downloads w2 (run mergeBtn w2).1.
Proof.
  intros Hsame.
  destruct (decide (length (mergeFiles (sess w2)) < 2)%nat) as [Hlt|Hge].
  - unfold mergeBtn. unfold run, mbind, Op_bind, bind, get, mret, Op_ret, ret.
    rewrite Hsame. rewrite !decide_True by done. simpl.
    unfold new_downloads. by rewrite !drop_all.
  - rewrite !mergeBtn_run by (rewrite ?Hsame; lia). rewrite Hsame.
    destruct (merge_outcome _ _).2; simpl; by rewrite !new_downloads_app.
Qed.

(** After the clear button every handler that works on the open document
    is refused for want of a file and changes nothing, while the merge
    queue is kept: a merge gives what it gave before. *)
Theorem clear_then_handlers (w : World) :
  ∃ w',
    run clearFile w = (w', Ok tt) ∧
    mergeFiles (sess w') = mergeFiles (sess w) ∧
    run downloadBtn w' = (w', Err NoPdfLoaded) ∧
    (∀ from to, run (splitBtn from to) w' = (w', Err NoPdfLoaded)) ∧
    (∀ text pg draw, run (addTextBtn text pg draw) w' = (w', Err NoPdfLoaded)) ∧
    (∀ up owner, run (applyPwdBtn up owner) w' = (w', Err NoPdfLoaded)) ∧
    (run mergeBtn w').2 = (run mergeBtn w).2 ∧
    new_downloads w' (run mergeBtn w').1 = new_downloads w (run mergeBtn w).1.
Proof.
  eexists. split; [reflexivity|].
  split; [done|]. split; [done|]. split; [done|]. split; [done|]. split; [done|].
  by apply mergeBtn_same_queue.
Qed.

(** ** The colour of the text *)

Lemma hex_digit_range (c : Ascii.ascii) (d : Z) :
  hex_digit c = Some d → 0 ≤ d ≤ 15.
Proof.
  unfold hex_digit. repeat case_decide; intros [= <-]; lia.
Qed.

Lemma hex_pair_range (c1 c2 : Ascii.ascii) (n : Z) :
  hex_pair c1 c2 = Some n → 0 ≤ n ≤ 255.
Proof.
  unfold hex_pair. destruct (hex_digit c1) as [d1|] eqn:H1; [|done].
  destruct (hex_digit c2) as [d2|] eqn:H2; [|done]. simpl. intros [= <-].
  apply hex_digit_range in H1, H2. lia.
Qed.

(** Whatever the string, each component of the colour [hexRgb] returns
    lies between 0 and 255, so the quotient by 255 that the handlers pass
    on lies between 0 and 1. *)
Theorem hexRgb_range (hex : string) :
  0 ≤ rgb_r (hexRgb hex) ≤ 255 ∧
  0 ≤ rgb_g (hexRgb hex) ≤ 255 ∧
  0 ≤ rgb_b (hexRgb hex) ≤ 255.
Proof.
  unfold hexRgb.
  set (digits := match hex with String c rest => _ | EmptyString => _ end).
  clearbody digits.
  destruct digits as [|c1 [|c2 [|c3 [|c4 [|c5 [|c6 [|]]]]]]]; simpl; try lia.
  destruct (hex_pair c1 c2) as [r|] eqn:Hr; [|simpl; lia].
  destruct (hex_pair c3 c4) as [g|] eqn:Hg; [|simpl; lia].
  destruct (hex_pair c5 c6) as [b|] eqn:Hb; [|simpl; lia].
  simpl. apply hex_pair_range in Hr, Hg, Hb. lia.
Qed.

Lemma hex_digit_to_hex_digit (upper : bool) (d : Z) :
  0 ≤ d ≤ 15 → hex_digit (to_hex_digit upper d) = Some d.
Proof.
  intros Hd. unfold hex_digit, to_hex_digit.
  rewrite Ascii.N_ascii_embedding by (repeat case_decide; destruct upper; lia).
  rewrite Z2N.id by (repeat case_decide; destruct upper; lia).
  destruct (decide (d < 10)).
  - rewrite decide_True by lia. f_equal. lia.
  - destruct upper.
    + rewrite decide_False by lia. rewrite decide_False by lia.
      rewrite decide_True by lia. f_equal. lia.
    + rewrite decide_False by lia. rewrite decide_True by lia. f_equal. lia.
Qed.

Lemma hex_pair_hex2 (upper : bool) (n : Z) :
  0 ≤ n ≤ 255 →
  hex_pair (to_hex_digit upper (n / 16)) (to_hex_digit upper (n `mod` 16)) = Some n.
Proof.
  intros Hn. unfold hex_pair.
  pose proof (Z.mod_pos_bound n 16 ltac:(lia)).
  assert (0 ≤ n / 16 ≤ 15).
  { split; [apply Z.div_pos; lia|]. apply Z.lt_succ_r, Z.div_lt_upper_bound; lia. }
  rewrite !hex_digit_to_hex_digit by lia. simpl. f_equal.
  pose proof (Z.div_mod n 16 ltac:(lia)). lia.
Qed.

Lemma to_hex_digit_not_hash (upper : bool) (d : Z) :
  0 ≤ d ≤ 15 → String (to_hex_digit upper d) EmptyString ≠ "#".
Proof.
  intros Hd Heq. pose proof (hex_digit_to_hex_digit upper d Hd) as Hh.
  injection Heq as Heq. rewrite Heq in Hh. vm_compute in Hh. done.
Qed.

(** [hexRgb] reads back the usual notation of a colour: for components
    between 0 and 255 written as two hexadecimal digits each, in lower or
    upper case, with or without the leading [#], it returns those
    components. *)
Theorem hexRgb_reads_notation (upper : bool) (r g b : Z) :
  0 ≤ r ≤ 255 → 0 ≤ g ≤ 255 → 0 ≤ b ≤ 255 →
  hexRgb ("#" +:+ hex2 upper r +:+ hex2 upper g +:+ hex2 upper b) = RGB r g b ∧
  hexRgb (hex2 upper r +:+ hex2 upper g +:+ hex2 upper b) = RGB r g b.
Proof.
  intros Hr Hg Hb. unfold hexRgb, hex2. cbv [String.append]. split.
  - rewrite decide_True by done. by rewrite !hex_pair_hex2 by done.
  - rewrite decide_False.
    + by rewrite !hex_pair_hex2 by done.
    + apply to_hex_digit_not_hash. split; [apply Z.div_pos; lia|].
      apply Z.lt_succ_r, Z.div_lt_upper_bound; lia.
Qed.

(** ** The merge panel *)

Lemma merge_doc_at_Some (docs : list document) (i : Z) :
  docs ≠ [] → 0 ≤ i ≤ Z.max 0 (Z.of_nat (length docs) - 1) →
  ∃ doc, MergePanel.doc_at docs i = Some doc.
Proof.
  intros Hne Hi. unfold MergePanel.doc_at. rewrite decide_True by lia.
  destruct docs as [|d docs]; [done|]. simpl length in Hi.
  apply lookup_lt_is_Some_2. simpl. lia.
Qed.

Lemma renderMergePreview_aligned (s : MergePanel.State) :
  mapM load (MergePanel.mergeFiles s) = Some (MergePanel.mergeJsDocs s) →
  0 ≤ MergePanel.mergeCurDoc s
    ≤ Z.max 0 (Z.of_nat (length (MergePanel.mergeJsDocs s)) - 1) →
  MergePanel.mergeJsDocs s ≠ [] ∨ MergePanel.mergeCurPg s = 1 →
  MergePanel.aligned (MergePanel.renderMergePreview s).1.
Proof.
  intros Hfiles Hcur Hpg. unfold MergePanel.renderMergePreview.
  destruct (MergePanel.mergeJsDocs s) as [|d0 docs] eqn:Hdocs.
  - destruct Hpg as [|Hpg]; [done|]. simpl. unfold MergePanel.aligned.
    rewrite Hdocs. split; [done|]. split; [done|].
    unfold MergePanel.numPages_or_1, MergePanel.doc_at. rewrite Hdocs.
    case_decide; rewrite ?lookup_nil; lia.
  - destruct (merge_doc_at_Some (d0 :: docs) (MergePanel.mergeCurDoc s))
      as [doc Hdoc]; [done..|].
    rewrite Hdoc. simpl. unfold MergePanel.aligned. simpl.
    split; [done|]. split; [simpl length in Hcur; lia|].
    unfold MergePanel.numPages_or_1. simpl. rewrite Hdoc.
    case_decide; lia.
Qed.

Lemma push_files_aligned (files : list bytes) (s s1 : MergePanel.State) r :
  MergePanel.push_files files s = (s1, r) →
  mapM load (MergePanel.mergeFiles s) = Some (MergePanel.mergeJsDocs s) →
  mapM load (MergePanel.mergeFiles s1) = Some (MergePanel.mergeJsDocs s1) ∧
  MergePanel.mergeCurDoc s1 = MergePanel.mergeCurDoc s ∧
  MergePanel.mergeCurPg s1 = MergePanel.mergeCurPg s ∧
  ∃ docs, MergePanel.mergeJsDocs s1 = MergePanel.mergeJsDocs s ++ docs.
Proof.
  revert s. induction files as [|f files IH]; intros s Hrun Hs.
  - simpl in Hrun. simplify_eq. repeat split; try done. exists []. by rewrite app_nil_r.
  - simpl in Hrun. destruct (load f) as [jsDoc|] eqn:Hf.
    + apply IH in Hrun as (Hm & Hc & Hp & docs & Hd); simpl in *.
      * repeat split; try done. exists (jsDoc :: docs).
        by rewrite Hd, <- app_assoc.
      * apply mapM_Some. apply Forall2_app; [by apply mapM_Some|].
        by constructor.
    + simplify_eq. repeat split; try done. exists []. by rewrite app_nil_r.
Qed.

Lemma merge_doc_at_app (docs more : list document) (i : Z) :
  docs ≠ [] → 0 ≤ i ≤ Z.max 0 (Z.of_nat (length docs) - 1) →
  MergePanel.doc_at (docs ++ more) i = MergePanel.doc_at docs i.
Proof.
  intros Hne Hi. unfold MergePanel.doc_at. case_decide; [|done].
  apply lookup_app_l. destruct docs; [done|]. simpl length in *. lia.
Qed.

Lemma addMergeFiles_aligned (files : list bytes) (s s' : MergePanel.State) r :
  MergePanel.aligned s → MergePanel.addMergeFiles files s = (s', r) →
  MergePanel.aligned s'.
Proof.
  intros (Hfiles & Hcur & Hpg) Hrun. unfold MergePanel.addMergeFiles in Hrun.
  destruct (MergePanel.push_files files s) as [s1 r1] eqn:Hpush.
  apply push_files_aligned in Hpush as (Hm & Hc & Hp & docs & Hd); [|done].
  pose proof Hm as Hlen. apply length_mapM in Hlen.
  destruct r1 as [[]|e].
  - pose proof (renderMergePreview_aligned
        (MergePanel.MkState (MergePanel.mergeFiles s1) (MergePanel.mergeJsDocs s1)
           (Z.max 0 (Z.of_nat (length (MergePanel.mergeFiles s1)) - 1)) 1))
      as Hr.
    rewrite Hrun in Hr. apply Hr; simpl; [done| rewrite Hlen; lia | by right].
  - simplify_eq. unfold MergePanel.aligned. rewrite Hc, Hp.
    split; [done|]. rewrite Hd, length_app. split; [lia|].
    unfold MergePanel.numPages_or_1 in *. rewrite Hd, ?Hc.
    destruct (MergePanel.mergeJsDocs s) as [|d0 ds] eqn:Hds.
    + unfold MergePanel.doc_at in Hpg. rewrite lookup_nil in Hpg.
      assert (MergePanel.mergeCurPg s = 1) as -> by (case_decide; lia).
      clear Hpg. destruct (MergePanel.doc_at _ _); [case_decide|]; lia.
    + rewrite merge_doc_at_app; [done|done|]. simpl length in *. lia.
Qed.

Lemma removeMergeFile_aligned (i : nat) (s : MergePanel.State) :
  MergePanel.aligned s → MergePanel.aligned (MergePanel.removeMergeFile i s).
Proof.
  intros (Hfiles & Hcur & Hpg). unfold MergePanel.removeMergeFile.
  rewrite !splice_delete. apply renderMergePreview_aligned; simpl.
  - apply mapM_Some, Forall2_delete. by apply mapM_Some.
  - pose proof Hfiles as Hlen. apply length_mapM in Hlen.
    destruct (decide (i < length (MergePanel.mergeFiles s))%nat) as [Hi|Hi].
    + rewrite !length_delete by (apply lookup_lt_is_Some_2; lia).
      case_decide; lia.
    + rewrite !delete_take_drop, !take_ge, !drop_ge, !app_nil_r by lia.
      case_decide; lia.
  - by right.
Qed.

(** The merge panel keeps its parallel arrays and its cursor consistent:
    however files are added (also when one of them fails to parse half
    way), removed and browsed with the enabled buttons, the preview
    documents are the parses of the queued files in the same order, the
    previewed document is one of the queue, and the previewed page is at
    least 1 and at most that document's page count. *)
Theorem merge_panel_aligned (s : MergePanel.State) :
  MergePanel.reachable s → MergePanel.aligned s.
Proof.
  induction 1 as [|s files s' r _ IH Hadd|s i _ IH Hi|s i _ IH Hi
                  |s _ IH Hen|s _ IH Hen|s _ IH Hen|s _ IH Hen].
  - unfold MergePanel.aligned, MergePanel.numPages_or_1. simpl. done.
  - by eapply addMergeFiles_aligned.
  - by apply removeMergeFile_aligned.
  - destruct IH as (Hfiles & Hcur & Hpg). pose proof (length_mapM _ _ _ Hfiles).
    apply renderMergePreview_aligned; simpl; [done|lia|by right].
  - destruct IH as (Hfiles & Hcur & Hpg). unfold MergePanel.prevDoc_disabled in Hen.
    apply renderMergePreview_aligned; simpl; [done|lia|by right].
  - destruct IH as (Hfiles & Hcur & Hpg). unfold MergePanel.nextDoc_disabled in Hen.
    apply renderMergePreview_aligned; simpl; [done|lia|by right].
  - destruct IH as (Hfiles & Hcur & Hpg). unfold MergePanel.prevPg_disabled in Hen.
    apply renderMergePreview_aligned; simpl; [done|done|].
    left. intros Hnil. unfold MergePanel.numPages_or_1, MergePanel.doc_at in Hpg.
    rewrite Hnil, lookup_nil in Hpg. case_decide; lia.
  - destruct IH as (Hfiles & Hcur & Hpg). unfold MergePanel.nextPg_disabled in Hen.
    apply renderMergePreview_aligned; simpl; [done|done|].
    left. intros Hnil. apply Hen. by left.
Qed.

(** A batch of files is not added atomically: when a file of the batch
    fails to parse, the files before it stay in the queue with their
    preview documents, the files after it are not read, and the preview
    cursor is left where it was. *)
Theorem merge_add_partial (fs1 fs2 : list bytes) (bad : bytes)
    (ds1 : list document) (s : MergePanel.State) :
  mapM load fs1 = Some ds1 → load bad = None →
  MergePanel.addMergeFiles (fs1 ++ bad :: fs2) s =
    (MergePanel.MkState (MergePanel.mergeFiles s ++ fs1)
       (MergePanel.mergeJsDocs s ++ ds1)
       (MergePanel.mergeCurDoc s) (MergePanel.mergeCurPg s),
     Err SourceUnreadable).
Proof.
  intros Hfs Hbad. unfold MergePanel.addMergeFiles.
  assert (MergePanel.push_files (fs1 ++ bad :: fs2) s =
    (MergePanel.MkState (MergePanel.mergeFiles s ++ fs1)
       (MergePanel.mergeJsDocs s ++ ds1)
       (MergePanel.mergeCurDoc s) (MergePanel.mergeCurPg s),
     Err SourceUnreadable)) as ->; [|done].
  apply mapM_Some in Hfs. revert s.
  induction Hfs as [|f d fs1 ds1 Hf _ IH]; intros s.
  - simpl. rewrite Hbad, !app_nil_r. by destruct s.
  - simpl. rewrite Hf, IH. simpl. by rewrite <- !app_assoc.
Qed.

End Properties.

(** * The properties on the sample worlds *)

Section SampleProperties.
#[local] Existing Instance mem_codec.

Example sample_worlds :
  pageOrder (sess w_ABCD) = [Some 0; Some 1; Some 2; Some 3] ∧
  map_to_list (pageRots (sess w_rotated)) = [(Some 1, 90)] ∧
  pageOrder (sess w_edited) = [Some 1; Some 2; Some 0; Some 3] ∧
  map_to_list (pageRots (sess w_edited)) = [(Some 1, 90)] ∧
  pageOrder (sess w_deleted) = [Some 1; Some 2; Some 3] ∧
  totalPages (sess w_deleted) = 3 ∧
  mergeFiles (sess w_merge) = [Some doc_A2; Some doc_B3].
Proof. vm_compute. done. Qed.

(** ** Rebuild *)

(** [rebuild_output] on [w_rotated]: four pages come out, and the second
    one, rotated by 90 in the file and by 90 more in the ledger, is at
    180. *)
Lemma rebuild_output_witness :
  rawBytes (sess w_rotated) = Some (Some doc_ABCD) ∧
  Forall (valid_index (length doc_ABCD)) (pageOrder (sess w_rotated)) ∧
  turns_accepted doc_ABCD (pageOrder (sess w_rotated)) (pageRots (sess w_rotated)) ∧
  ∃ out outdoc,
    (run rebuild w_rotated).2 = Ok out ∧ load out = Some outdoc ∧
    length outdoc = 4%nat ∧
    ∃ q, outdoc !! 1%nat = Some q ∧ rotation q = RotAngle 180.
Proof.
  assert (Hraw : rawBytes (sess w_rotated) = Some (Some doc_ABCD)) by compute_done.
  assert (Hv : Forall (valid_index (length doc_ABCD)) (pageOrder (sess w_rotated)))
    by compute_done.
  assert (Hacc : turns_accepted doc_ABCD (pageOrder (sess w_rotated))
                   (pageRots (sess w_rotated))) by compute_done.
  split; [exact Hraw|]. split; [exact Hv|]. split; [exact Hacc|].
  destruct (proj1 (rebuild_output w_rotated (Some doc_ABCD) doc_ABCD Hraw eq_refl Hv) Hacc)
    as (out & outdoc & Hrun & Hload & Hlen & _ & Hpages).
  exists out, outdoc. rewrite Hrun. split; [done|]. split; [done|].
  split; [by rewrite Hlen|].
  destruct (Hpages 1%nat 1) as (p & q & Hp & Hq & _ & _ & Hrot & _); [compute_done|].
  exists q. split; [done|].
  injection Hp as <-. apply Hrot. compute_done.
Defined.

(** Three inputs on which [rebuild] does not give what C1 says.  A page
    whose rotation entry is 450 and that has no ledger entry comes out at
    450, not at 450 mod 360.  A page whose rotation entry is 45, rotated
    right once, makes [setRotation] throw: [rebuild] returns no bytes.  An
    empty order table over a document without a page gives a file with
    one page. *)
Lemma rebuild_keeps_unreduced_rotation :
  ((run rebuild w_C).2 = Ok (save [page_C]) ∧
   load (save [page_C]) = Some [page_C] ∧
   pageOrder (sess w_C) = [Some 0] ∧
   getPageRotationAngle page_C ≠
     (getPageRotationAngle page_C + ledger_delta (pageRots (sess w_C)) (Some 0))
       `mod` 360) ∧
  (rawBytes (sess w_S) = Some (Some [page_S]) ∧
   pageOrder (sess w_S) = [Some 0] ∧
   ledger_delta (pageRots (sess w_S)) (Some 0) = 90 ∧
   run rebuild w_S =
     (MkWorld (sess w_S) [CLoad; CCreate; CCopy] [], Err RotationRejected)) ∧
  (rawBytes (sess w_empty) = Some (Some []) ∧
   pageOrder (sess w_empty) = [] ∧
   (run rebuild w_empty).2 = Ok (save []) ∧
   load (save []) = Some [blank_page] ∧
   length [blank_page] ≠ length (pageOrder (sess w_empty))).
Proof. repeat split; compute_done. Qed.

(** ** Commit *)

Lemma addText_commit_witness :
  run (addTextBtn "hi" (Some 1) (draw_text "hi")) w_edited =
    (after (addTextBtn "hi" (Some 1) (draw_text "hi")) w_edited, Ok tt) ∧
  (run (edited_bytes (draw_on_page 1 (draw_text "hi"))) w_edited).2 =
    Ok (save [Page "Bhi" (RotAngle 180); page_C; page_A; page_D]) ∧
  rawBytes (sess (after (addTextBtn "hi" (Some 1) (draw_text "hi")) w_edited)) =
    Some (save [Page "Bhi" (RotAngle 180); page_C; page_A; page_D]) ∧
  pageOrder (sess (after (addTextBtn "hi" (Some 1) (draw_text "hi")) w_edited))
    = identity_order 4 ∧
  pageRots (sess (after (addTextBtn "hi" (Some 1) (draw_text "hi")) w_edited)) = ∅.
Proof.
  assert (Hrun : run (addTextBtn "hi" (Some 1) (draw_text "hi")) w_edited =
    (after (addTextBtn "hi" (Some 1) (draw_text "hi")) w_edited, Ok tt))
    by (vm_compute; reflexivity).
  assert (Hbytes : (run (edited_bytes (draw_on_page 1 (draw_text "hi"))) w_edited).2 =
    Ok (save [Page "Bhi" (RotAngle 180); page_C; page_A; page_D]))
    by (vm_compute; reflexivity).
  split; [exact Hrun|]. split; [exact Hbytes|].
  destruct (addText_commit _ _ _ _ _ Hrun)
    as (n & b & doc & Hn & Hb & Hraw & Hload & Hdoc & Ht & Ho & Hr & _).
  injection Hn as <-. rewrite Hbytes in Hb. injection Hb as <-.
  split; [exact Hraw|].
  rewrite Ho, Hr. split; [|done]. f_equal.
  assert (totalPages (sess (after (addTextBtn "hi" (Some 1) (draw_text "hi")) w_edited)) = 4)
    as Ht' by compute_done.
  rewrite Ht' in Ht. lia.
Defined.

(** A commit leaves the selection as it was. *)
Lemma commit_keeps_selection :
  selectedPgs (sess w_selected) = {[0%nat]} ∧
  (run (addTextBtn "hi" (Some 1) (draw_text "hi")) w_selected).2 = Ok tt ∧
  selectedPgs (sess (after (addTextBtn "hi" (Some 1) (draw_text "hi")) w_selected))
    = {[0%nat]} ∧
  selectedPgs (sess (after (addTextBtn "hi" (Some 1) (draw_text "hi")) w_selected))
    ≠ ∅.
Proof. repeat split; compute_done. Qed.

Lemma failed_edit_commits_nothing_witness :
  (run (edited_bytes (draw_on_page 1 draw_throws)) w_edited).2 = Err MutationFailed ∧
  sess (after (edited_bytes (draw_on_page 1 draw_throws)) w_edited) = sess w_edited ∧
  ∃ e', (run (addTextBtn "hi" (Some 1) draw_throws) w_edited).2 = Err e' ∧
        sess (run (addTextBtn "hi" (Some 1) draw_throws) w_edited).1 = sess w_edited.
Proof.
  assert (Hfail : run (edited_bytes (draw_on_page 1 draw_throws)) w_edited =
    (after (edited_bytes (draw_on_page 1 draw_throws)) w_edited, Err MutationFailed))
    by (vm_compute; reflexivity).
  split; [by rewrite Hfail|].
  exact (failed_edit_commits_nothing _ _ "hi" _ _ _ Hfail).
Defined.

(** ** Validation *)

Lemma rebuild_invalid_order_witness :
  rawBytes (sess w_corrupt) = Some (Some doc_ABCD) ∧
  ¬ Forall (valid_index (length doc_ABCD)) (pageOrder (sess w_corrupt)) ∧
  run rebuild w_corrupt =
    (MkWorld (sess w_corrupt) (calls w_corrupt ++ [CLoad; CCreate; CCopy])
       (downloads w_corrupt),
     Err CodecError).
Proof.
  assert (Hraw : rawBytes (sess w_corrupt) = Some (Some doc_ABCD)) by compute_done.
  assert (Hbad : ¬ Forall (valid_index (length doc_ABCD)) (pageOrder (sess w_corrupt)))
    by compute_done.
  split; [exact Hraw|]. split; [exact Hbad|].
  exact (rebuild_invalid_order w_corrupt (Some doc_ABCD) doc_ABCD Hraw eq_refl Hbad).
Defined.

(** On a table with an entry outside the four pages, [rebuild] has
    already made three codec calls when it fails, and what it fails with
    is the codec's error, not the corruption error. *)
Lemma invalid_order_fails_in_copy :
  pageOrder (sess w_corrupt) = [Some 0; Some 7] ∧
  calls w_corrupt = [] ∧
  (run rebuild w_corrupt).2 = Err CodecError ∧
  (run rebuild w_corrupt).2 ≠ Err StateCorruption ∧
  calls (run rebuild w_corrupt).1 = [CLoad; CCreate; CCopy] ∧
  calls (run rebuild w_corrupt).1 ≠ calls w_corrupt.
Proof. repeat split; by vm_compute. Qed.

(** ** The order table *)



(** ** Round trip *)

Lemma ingest_rebuild_round_trip_witness :
  load (Some doc_ABCD) = Some doc_ABCD ∧
  ∃ w1 out outdoc,
    run (ingestBytes (Some doc_ABCD) true) world0 = (w1, Ok tt) ∧
    (run rebuild w1).2 = Ok out ∧
    load out = Some outdoc ∧
    length outdoc = length doc_ABCD.
Proof.
  split; [reflexivity|].
  destruct (ingest_rebuild_round_trip (H:=mem_codec) world0 (Some doc_ABCD) doc_ABCD eq_refl)
    as (w1 & out & outdoc & H1 & H2 & H3 & H4 & _).
  exists w1, out, outdoc. split; [done|]. split; [done|]. split; [done|].
  by apply H4.
Defined.

(** A page rotated by 90 in the input is rotated by 90 in the output; and
    an input without a page comes out with one page. *)
Lemma round_trip_keeps_rotation :
  (run (ingestBytes (Some [page_B]) true) world0 = (w_B, Ok tt) ∧
   pageRots (sess w_B) = ∅ ∧
   (run rebuild w_B).2 = Ok (save [page_B]) ∧
   load (save [page_B]) = Some [page_B] ∧
   getPageRotationAngle page_B ≠ 0) ∧
  (run (ingestBytes (Some []) true) world0 = (w_empty, Ok tt) ∧
   (run rebuild w_empty).2 = Ok (save []) ∧
   load (save []) = Some [blank_page] ∧
   length [blank_page] ≠ length (@nil page)).
Proof. repeat split; compute_done. Qed.

(** ** Delete *)



(** ** Merge *)

(** A (2 pages) and B (3 pages) give A1, A2, B1, B2, B3; with one file
    alone the handler returns at once; the session of the open document is
    not touched. *)
Lemma merge_concatenates_witness :
  (2 ≤ length (mergeFiles (sess w_merge)))%nat ∧
  mapM load (mergeFiles (sess w_merge)) = Some [doc_A2; doc_B3] ∧
  run mergeBtn w_merge =
    (MkWorld (sess w_merge) [CCreate; CLoad; CCopy; CLoad; CCopy; CSave]
       [(MergedPdf,
         save [Page "A1" RotAbsent; Page "A2" RotAbsent; Page "B1" RotAbsent;
               Page "B2" (RotAngle 90); Page "B3" RotAbsent])],
     Ok tt) ∧
  run mergeBtn (after (addMergeFiles [Some doc_A2]) w_edited) =
    (after (addMergeFiles [Some doc_A2]) w_edited, Ok tt).
Proof.
  assert (H2 : (2 ≤ length (mergeFiles (sess w_merge)))%nat) by compute_done.
  assert (Hl : mapM load (mergeFiles (sess w_merge)) = Some [doc_A2; doc_B3])
    by compute_done.
  split; [exact H2|]. split; [exact Hl|]. split.
  - rewrite (proj1 (proj2 (merge_concatenates w_merge)) _ H2 Hl). compute_done.
  - apply (proj1 (merge_concatenates _)). compute_done.
Defined.

(** With one file in the queue the merge handler returns normally: no
    error is raised, nothing is downloaded. *)
Lemma merge_of_one_file_returns :
  length (mergeFiles (sess (after (addMergeFiles [Some doc_A2]) w_edited))) = 1%nat ∧
  run mergeBtn (after (addMergeFiles [Some doc_A2]) w_edited) =
    (after (addMergeFiles [Some doc_A2]) w_edited, Ok tt) ∧
  (run mergeBtn (after (addMergeFiles [Some doc_A2]) w_edited)).2
    ≠ Err InsufficientInputs.
Proof.
  assert (Hlen : length (mergeFiles (sess (after (addMergeFiles [Some doc_A2]) w_edited)))
                 = 1%nat) by compute_done.
  split; [exact Hlen|].
  rewrite mergeBtn_few by (rewrite Hlen; lia). by split.
Qed.

(** ** Split *)

Lemma split_ignores_pending_edits_witness :
  rawBytes (sess w_ABCD) = rawBytes (sess w_edited) ∧
  pageOrder (sess w_ABCD) ≠ pageOrder (sess w_edited) ∧
  pageRots (sess w_ABCD) ≠ pageRots (sess w_edited) ∧
  new_downloads w_ABCD (run (splitBtn (Some 2) (Some 3)) w_ABCD).1 =
    new_downloads w_edited (run (splitBtn (Some 2) (Some 3)) w_edited).1 ∧
  new_downloads w_ABCD (run (splitBtn (Some 2) (Some 3)) w_ABCD).1 =
    [(PagesPdf 2 3, save [page_B; page_C])].
Proof.
  split; [compute_done|]. split; [compute_done|]. split; [compute_done|].
  destruct (split_ignores_pending_edits w_ABCD w_edited (Some doc_ABCD) 2 3)
    as (_ & Hd & _ & _ & Hout); try compute_done.
  split; [exact Hd|].
  destruct (Hout doc_ABCD eq_refl) as [_ Hn]; [compute_done|].
  rewrite Hn. compute_done.
Defined.

(** ** The first script *)

(** Its split goes through [getRebuildBytes], so the pending reorder and
    rotation of [w_edited] end up in the extracted pages. *)
Example first_script_split_bakes_edits :
  new_downloads w_ABCD (run (V1.splitBtn (Some 2) (Some 3)) w_ABCD).1 =
    [(PagesPdf 2 3, save [page_B; page_C])] ∧
  new_downloads w_edited (run (V1.splitBtn (Some 2) (Some 3)) w_edited).1 =
    [(PagesPdf 2 3, save [page_C; page_A])].
Proof. split; compute_done. Qed.

(** Its [reloadFromBytes] resets the order table and the ledger only when
    the page count changed, so after an overlay edit both survive. *)
Example first_script_reload_keeps_order :
  (run V1.getRebuildBytes w_edited).2
    = Ok (save [Page "B" (RotAngle 180); page_C; page_A; page_D]) ∧
  pageOrder (sess (after (b ← V1.getRebuildBytes; V1.reloadFromBytes b) w_edited))
    = [Some 1; Some 2; Some 0; Some 3] ∧
  map_to_list
    (pageRots (sess (after (b ← V1.getRebuildBytes; V1.reloadFromBytes b) w_edited)))
    = [(Some 1, 90)].
Proof. repeat split; compute_done. Qed.


(** ** The further properties on the sample worlds *)

Lemma w_ABCD_reachable : reachable false w_ABCD.
Proof. by apply (reach_ingest (H:=mem_codec) world0 (Some doc_ABCD)). Qed.

Lemma w_selected_reachable : reachable false w_selected.
Proof.
  apply (reach_select false w_ABCD 0%nat); [|by vm_compute].
  apply w_ABCD_reachable.
Qed.

Lemma w_edited_reachable : reachable false w_edited.
Proof.
  apply (reach_rotate false (after (onEnd 0 2;; thumbClick 0) w_ABCD) 90);
    [|by vm_compute].
  apply (reach_select false (after (onEnd 0 2) w_ABCD) 0%nat); [|by vm_compute].
  apply (reach_reorder false w_ABCD 0%nat 2%nat); [|compute_done|by vm_compute].
  apply w_ABCD_reachable.
Qed.

Lemma w_S_reachable : reachable false w_S.
Proof.
  pose (w1 := after (ingestBytes (H:=mem_codec) (Some [page_S]) true) world0).
  apply (reach_rotate false (after (thumbClick 0) w1) 90); [|by vm_compute].
  apply (reach_select false w1 0%nat); [|by vm_compute].
  by apply (reach_ingest (H:=mem_codec) world0 (Some [page_S])).
Qed.

(** [reachable_preview_consistent] on [w_edited]. *)
Lemma reachable_preview_consistent_witness :
  reachable false w_edited ∧
  ∃ raw src,
    rawBytes (sess w_edited) = Some raw ∧ load raw = Some src ∧
    pdfJsDoc (sess w_edited) = Some src ∧
    (length (pageOrder (sess w_edited)) ≤ length src)%nat ∧
    1 ≤ curPage (sess w_edited)
      ≤ Z.max 1 (Z.of_nat (length (pageOrder (sess w_edited)))).
Proof.
  split; [exact w_edited_reachable|].
  exact (reachable_preview_consistent false w_edited w_edited_reachable).
Defined.

(** [download_outcome] on [w_edited], one file of four pages, and on
    [w_S], where the page at 45 was rotated right: nothing comes out. *)
Lemma download_outcome_witness :
  reachable false w_edited ∧
  (∃ out outdoc,
     run downloadBtn w_edited =
       (MkWorld (sess w_edited) (calls w_edited ++ [CLoad; CCreate; CCopy; CSave])
          (downloads w_edited ++ [(EditedPdf, out)]),
        Ok tt) ∧
     load out = Some outdoc ∧
     length outdoc = 4%nat) ∧
  reachable false w_S ∧
  run downloadBtn w_S =
    (MkWorld (sess w_S) (calls w_S ++ [CLoad; CCreate; CCopy]) (downloads w_S),
     Err RotationRejected).
Proof.
  split; [exact w_edited_reachable|]. split.
  - destruct (download_outcome false w_edited w_edited_reachable)
      as (src & Hdoc & Hok & _).
    assert (src = doc_ABCD) as -> by (vm_compute in Hdoc; by injection Hdoc as <-).
    destruct Hok as (out & outdoc & Hrun & Hload & Hlen); [compute_done|].
    by exists out, outdoc.
  - split; [exact w_S_reachable|].
    destruct (download_outcome false w_S w_S_reachable) as (src & Hdoc & _ & Hrej).
    assert (src = [page_S]) as -> by (vm_compute in Hdoc; by injection Hdoc as <-).
    apply Hrej. compute_done.
Defined.

(** [split_succeeds] on [w_edited], pages 2 to 3. *)
Lemma split_succeeds_witness :
  reachable false w_edited ∧ 1 ≤ 2 ∧ 2 ≤ 3 ∧ 3 ≤ totalPages (sess w_edited) ∧
  ∃ raw src,
    rawBytes (sess w_edited) = Some raw ∧ load raw = Some src ∧
    run (splitBtn (Some 2) (Some 3)) w_edited =
      (MkWorld (sess w_edited) (calls w_edited ++ [CLoad; CCreate; CCopy; CSave])
         (downloads w_edited ++ [(PagesPdf 2 3, save (page_range src 2 3))]),
       Ok tt) ∧
    Z.of_nat (length (page_range src 2 3)) = 3 - 2 + 1.
Proof.
  assert (H1 : 1 ≤ 2) by lia. assert (H2 : 2 ≤ 3) by lia.
  assert (H3 : 3 ≤ totalPages (sess w_edited)) by (by vm_compute).
  split; [exact w_edited_reachable|]. split; [exact H1|]. split; [exact H2|].
  split; [exact H3|].
  exact (split_succeeds false w_edited 2 3 w_edited_reachable H1 H2 H3).
Defined.



(** [rotate_selected_pages] on [w_selected], turned right. *)
Lemma rotate_selected_pages_witness :
  reachable false w_selected ∧
  (0 < size (selectedPgs (sess w_selected)))%nat ∧
  ∃ w',
    run (rotateSel 90) w_selected = (w', Ok tt) ∧
    pageOrder (sess w') = pageOrder (sess w_selected) ∧
    selectedPgs (sess w') = ∅ ∧
    ∀ (k : nat) (i : entry), pageOrder (sess w_selected) !! k = Some i →
      ledger_delta (pageRots (sess w')) i =
        if decide (k ∈ selectedPgs (sess w_selected))
        then Z.rem (ledger_delta (pageRots (sess w_selected)) i + 90 + 360) 360
        else ledger_delta (pageRots (sess w_selected)) i.
Proof.
  assert (H1 : (0 < size (selectedPgs (sess w_selected)))%nat) by (vm_compute; lia).
  split; [exact w_selected_reachable|]. split; [exact H1|].
  exact (rotate_selected_pages false w_selected 90 w_selected_reachable H1).
Defined.

(** [four_right_turns] on the second page of [w_ABCD]. *)
Lemma four_right_turns_witness :
  reachable false w_ABCD ∧
  selectedPgs (sess w_ABCD) = ∅ ∧
  pageOrder (sess w_ABCD) !! 1%nat = Some (Some 1) ∧
  0 ≤ ledger_delta (pageRots (sess w_ABCD)) (Some 1) < 360 ∧
  ∃ w1 w2 w3 w4,
    run (thumbClick 1;; rotateSel 90) w_ABCD = (w1, Ok tt) ∧
    run (thumbClick 1;; rotateSel 90) w1 = (w2, Ok tt) ∧
    run (thumbClick 1;; rotateSel 90) w2 = (w3, Ok tt) ∧
    run (thumbClick 1;; rotateSel 90) w3 = (w4, Ok tt) ∧
    ledger_delta (pageRots (sess w1)) (Some 1) =
      (ledger_delta (pageRots (sess w_ABCD)) (Some 1) + 90) `mod` 360 ∧
    ledger_delta (pageRots (sess w2)) (Some 1) =
      (ledger_delta (pageRots (sess w_ABCD)) (Some 1) + 180) `mod` 360 ∧
    ledger_delta (pageRots (sess w3)) (Some 1) =
      (ledger_delta (pageRots (sess w_ABCD)) (Some 1) + 270) `mod` 360 ∧
    ledger_delta (pageRots (sess w4)) (Some 1) =
      ledger_delta (pageRots (sess w_ABCD)) (Some 1).
Proof.
  assert (H1 : selectedPgs (sess w_ABCD) = ∅) by (by vm_compute).
  assert (H2 : pageOrder (sess w_ABCD) !! 1%nat = Some (Some 1)) by (by vm_compute).
  assert (H3 : 0 ≤ ledger_delta (pageRots (sess w_ABCD)) (Some 1) < 360)
    by (by vm_compute).
  split; [exact w_ABCD_reachable|]. split; [exact H1|]. split; [exact H2|].
  split; [exact H3|].
  exact (four_right_turns false w_ABCD 1 (Some 1) w_ABCD_reachable H1 H2 H3).
Defined.

(** [opposite_turns_cancel] on the second page of [w_ABCD]: right, then
    left. *)
Lemma opposite_turns_cancel_witness :
  reachable false w_ABCD ∧
  selectedPgs (sess w_ABCD) = ∅ ∧
  pageOrder (sess w_ABCD) !! 1%nat = Some (Some 1) ∧
  0 ≤ ledger_delta (pageRots (sess w_ABCD)) (Some 1) < 360 ∧
  ∃ w1 w2,
    run (thumbClick 1;; rotateSel 90) w_ABCD = (w1, Ok tt) ∧
    run (thumbClick 1;; rotateSel (- 90)) w1 = (w2, Ok tt) ∧
    0 ≤ ledger_delta (pageRots (sess w1)) (Some 1) < 360 ∧
    ledger_delta (pageRots (sess w2)) (Some 1) =
      ledger_delta (pageRots (sess w_ABCD)) (Some 1).
Proof.
  assert (H1 : selectedPgs (sess w_ABCD) = ∅) by (by vm_compute).
  assert (H2 : pageOrder (sess w_ABCD) !! 1%nat = Some (Some 1)) by (by vm_compute).
  assert (H3 : 0 ≤ ledger_delta (pageRots (sess w_ABCD)) (Some 1) < 360)
    by (by vm_compute).
  split; [exact w_ABCD_reachable|]. split; [exact H1|]. split; [exact H2|].
  split; [exact H3|].
  exact (opposite_turns_cancel false w_ABCD 1 (Some 1) 90 w_ABCD_reachable
           H1 H2 H3 (or_introl eq_refl)).
Defined.

(** [add_text_outcome] on [w_edited]: a text on page 2. *)
Lemma add_text_outcome_witness :
  reachable false w_edited ∧ "hi" ≠ EmptyString ∧
  1 ≤ 2 ≤ totalPages (sess w_edited) ∧
  ∃ base p,
    (run rebuild w_edited).2 = Ok (save base) ∧
    length base = length (pageOrder (sess w_edited)) ∧
    base !! Z.to_nat (2 - 1) = Some p ∧
    match draw_text "hi" p with
    | Some p' =>
        ∃ w', run (addTextBtn "hi" (Some 2) (draw_text "hi")) w_edited = (w', Ok tt) ∧
              rawBytes (sess w') = Some (save (<[Z.to_nat (2 - 1) := p']> base)) ∧
              pageOrder (sess w') = identity_order (length base) ∧
              pageRots (sess w') = ∅
    | None =>
        (run (addTextBtn "hi" (Some 2) (draw_text "hi")) w_edited).2 = Err MutationFailed
    end.
Proof.
  assert (H1 : "hi" ≠ EmptyString) by done.
  assert (H2 : 1 ≤ 2 ≤ totalPages (sess w_edited)) by (by vm_compute).
  split; [exact w_edited_reachable|]. split; [exact H1|]. split; [exact H2|].
  destruct (add_text_outcome false w_edited "hi" 2 (draw_text "hi")
              w_edited_reachable H1 H2) as (src & Hdoc & Hok & _).
  assert (src = doc_ABCD) as -> by (vm_compute in Hdoc; by injection Hdoc as <-).
  apply Hok. compute_done.
Defined.

(** [rebuild_after_commit] after a text was added to [w_edited]. *)
Lemma rebuild_after_commit_witness :
  run (addTextBtn "hi" (Some 2) (draw_text "hi")) w_edited =
    (after (addTextBtn "hi" (Some 2) (draw_text "hi")) w_edited, Ok tt) ∧
  ∃ b out doc,
    rawBytes (sess (after (addTextBtn "hi" (Some 2) (draw_text "hi")) w_edited))
      = Some b ∧
    load b = Some doc ∧
    (run rebuild (after (addTextBtn "hi" (Some 2) (draw_text "hi")) w_edited)).2
      = Ok out ∧
    load out = Some doc.
Proof.
  assert (H1 : run (addTextBtn "hi" (Some 2) (draw_text "hi")) w_edited =
    (after (addTextBtn "hi" (Some 2) (draw_text "hi")) w_edited, Ok tt))
    by (by vm_compute).
  split; [exact H1|].
  exact (rebuild_after_commit w_edited _ "hi" (Some 2) (draw_text "hi") H1).
Defined.

(** [first_script_rebuild] on [w_T], whose one page has a delta and a
    rotation entry that cannot be read. *)
Lemma first_script_rebuild_witness :
  rawBytes (sess w_T) = Some (Some [page_T]) ∧
  load (Some [page_T]) = Some [page_T] ∧
  Forall (valid_index (length [page_T])) (pageOrder (sess w_T)) ∧
  pageOrder (sess w_T) !! 0%nat = Some (Some 0) ∧
  ledger_delta (pageRots (sess w_T)) (Some 0) ≠ 0 ∧
  rotation page_T = RotThrows ∧
  (∃ e, run V1.getRebuildBytes w_T =
          (MkWorld (sess w_T) (calls w_T ++ [CLoad; CCreate; CCopy]) (downloads w_T),
           Err e)) ∧
  ∃ out, (run rebuild w_T).2 = Ok out.
Proof.
  assert (H1 : rawBytes (sess w_T) = Some (Some [page_T])) by (by vm_compute).
  assert (H2 : load (Some [page_T]) = Some [page_T]) by done.
  assert (H3 : Forall (valid_index (length [page_T])) (pageOrder (sess w_T)))
    by compute_done.
  assert (H4 : pageOrder (sess w_T) !! 0%nat = Some (Some 0)) by (by vm_compute).
  assert (H5 : ledger_delta (pageRots (sess w_T)) (Some 0) ≠ 0) by (by vm_compute).
  split; [exact H1|]. split; [exact H2|]. split; [exact H3|]. split; [exact H4|].
  split; [exact H5|]. split; [done|].
  destruct (proj2 (first_script_rebuild w_T (Some [page_T]) [page_T] H1 H2 H3)
              0%nat 0 page_T H4 eq_refl H5 eq_refl) as [Hfail Hok].
  split; [exact Hfail|]. apply Hok. compute_done.
Defined.

(** [first_script_upload_detaches]: [doc_ABCD] uploaded in the first
    script. *)
Lemma first_script_upload_detaches_witness :
  run (FirstScript.handleFileUpload (Some doc_ABCD)) world0 =
    (after (FirstScript.handleFileUpload (Some doc_ABCD)) world0, Ok tt) ∧
  rawBytes (sess (after (FirstScript.handleFileUpload (Some doc_ABCD)) world0))
    = Some detached ∧
  (run V1.getRebuildBytes
     (after (FirstScript.handleFileUpload (Some doc_ABCD)) world0)).2
    = Err SourceUnreadable ∧
  (run (FirstScript.addTextBtn "hi" (Some 2) (draw_text "hi"))
     (after (FirstScript.handleFileUpload (Some doc_ABCD)) world0)).2
    = Err SourceUnreadable.
Proof.
  assert (H1 : run (FirstScript.handleFileUpload (Some doc_ABCD)) world0 =
    (after (FirstScript.handleFileUpload (Some doc_ABCD)) world0, Ok tt))
    by (by vm_compute).
  split; [exact H1|].
  destruct (first_script_upload_detaches (H:=mem_codec) world0 _ (Some doc_ABCD) H1)
    as (doc & _ & _ & _ & Hraw & Hget & Hadd).
  split; [exact Hraw|]. split; [by rewrite Hget|].
  rewrite (Hadd "hi" 2 (draw_text "hi")); [done|done|by vm_compute].
Defined.

(** [first_script_delete_pointer] on [w_selected]. *)
Lemma first_script_delete_pointer_witness :
  run (FirstScript.deleteSelectedBtn true) w_selected =
    (after (FirstScript.deleteSelectedBtn true) w_selected, Ok tt) ∧
  curPage (sess (after (FirstScript.deleteSelectedBtn true) w_selected))
    = curPage (sess w_selected) ∧
  totalPages (sess (after (FirstScript.deleteSelectedBtn true) w_selected)) =
    Z.of_nat (length (pageOrder (sess (after (FirstScript.deleteSelectedBtn true) w_selected)))) ∧
  pageOrder (sess (after (FirstScript.deleteSelectedBtn true) w_selected)) =
    keep_unselected (selectedPgs (sess w_selected)) (pageOrder (sess w_selected)) ∧
  ((∀ k, k ∈ selectedPgs (sess w_selected) →
         (k < length (pageOrder (sess w_selected)))%nat) →
   curPage (sess w_selected) = Z.of_nat (length (pageOrder (sess w_selected))) →
   totalPages (sess (after (FirstScript.deleteSelectedBtn true) w_selected))
     < curPage (sess (after (FirstScript.deleteSelectedBtn true) w_selected))).
Proof.
  assert (H1 : run (FirstScript.deleteSelectedBtn true) w_selected =
    (after (FirstScript.deleteSelectedBtn true) w_selected, Ok tt))
    by (by vm_compute).
  split; [exact H1|].
  exact (first_script_delete_pointer w_selected _ true H1).
Defined.

(** [failed_upload_breaks_download]: an unreadable file dropped on
    [w_ABCD]. *)
Lemma failed_upload_breaks_download_witness :
  load (None : bytes) = None ∧
  run (loadFile None) w_ABCD =
    (MkWorld (set_rawBytes (Some None) (sess w_ABCD)) (calls w_ABCD) (downloads w_ABCD),
     Err SourceUnreadable) ∧
  (run rebuild (run (loadFile None) w_ABCD).1).2 = Err SourceUnreadable ∧
  (run downloadBtn (run (loadFile None) w_ABCD).1).2 = Err SourceUnreadable ∧
  downloads (run downloadBtn (run (loadFile None) w_ABCD).1).1 = downloads w_ABCD.
Proof.
  assert (H1 : load (None : bytes) = None) by done.
  split; [exact H1|].
  exact (failed_upload_breaks_download w_ABCD None H1).
Defined.

(** [first_script_failed_upload]: the same file, the first script. *)
Lemma first_script_failed_upload_witness :
  load (None : bytes) = None ∧
  run (FirstScript.handleFileUpload None) w_ABCD =
    (MkWorld (sess w_ABCD) (calls w_ABCD ++ [CLoad]) (downloads w_ABCD),
     Err SourceUnreadable).
Proof.
  assert (H1 : load (None : bytes) = None) by done.
  split; [exact H1|].
  exact (first_script_failed_upload w_ABCD None H1).
Defined.

(** [password_button_is_download] on [w_edited]. *)
Lemma password_button_is_download_witness :
  "secret" ≠ EmptyString ∧
  (run (applyPwdBtn "secret" "") w_edited).2 = (run downloadBtn w_edited).2 ∧
  (new_downloads w_edited (run (applyPwdBtn "secret" "") w_edited).1).*2 =
    (new_downloads w_edited (run downloadBtn w_edited).1).*2 ∧
  calls (run (applyPwdBtn "secret" "") w_edited).1 = calls (run downloadBtn w_edited).1 ∧
  sess (run (applyPwdBtn "secret" "") w_edited).1 = sess w_edited.
Proof.
  assert (H1 : "secret" ≠ EmptyString) by done.
  split; [exact H1|].
  exact (password_button_is_download w_edited "secret" "" H1).
Defined.

(** [select_all_then_delete] on [w_ABCD]. *)
Lemma select_all_then_delete_witness :
  pageOrder (sess w_ABCD) ≠ [] ∧
  run (selectAllBtn;; deleteSelectedBtn true) w_ABCD =
    (MkWorld
       (set_selectedPgs
          (selectedPgs (sess w_ABCD) ∪ list_to_set (seq 0 (length (pageOrder (sess w_ABCD)))))
          (sess w_ABCD))
       (calls w_ABCD) (downloads w_ABCD),
     Err CannotDeleteAll).
Proof.
  assert (H1 : pageOrder (sess w_ABCD) ≠ []) by (by vm_compute).
  split; [exact H1|].
  exact (select_all_then_delete w_ABCD true H1).
Defined.

(** [drag_and_back] on [w_ABCD]: the first page to the third place and
    back. *)
Lemma drag_and_back_witness :
  pageOrder (sess w_ABCD) !! 0%nat = Some (Some 0) ∧
  (2 < length (pageOrder (sess w_ABCD)))%nat ∧
  ∃ w1 w2,
    run (onEnd 0 2) w_ABCD = (w1, Ok tt) ∧
    pageOrder (sess w1) !! 2%nat = Some (Some 0) ∧
    delete 2%nat (pageOrder (sess w1)) = delete 0%nat (pageOrder (sess w_ABCD)) ∧
    selectedPgs (sess w1) = ∅ ∧
    run (onEnd 2 0) w1 = (w2, Ok tt) ∧
    pageOrder (sess w2) = pageOrder (sess w_ABCD).
Proof.
  assert (H1 : pageOrder (sess w_ABCD) !! 0%nat = Some (Some 0)) by (by vm_compute).
  assert (H2 : (2 < length (pageOrder (sess w_ABCD)))%nat) by (vm_compute; lia).
  split; [exact H1|]. split; [exact H2|].
  exact (drag_and_back w_ABCD 0 2 (Some 0) H1 H2).
Defined.

(** [drag_out_of_range] on [w_ABCD]: an old index past the four
    thumbnails. *)
Lemma drag_out_of_range_witness :
  (length (pageOrder (sess w_ABCD)) ≤ 5)%nat ∧
  rawBytes (sess w_ABCD) = Some (Some doc_ABCD) ∧
  load (Some doc_ABCD) = Some doc_ABCD ∧
  ∃ w1,
    run (onEnd 5 0) w_ABCD = (w1, Ok tt) ∧
    length (pageOrder (sess w1)) = S (length (pageOrder (sess w_ABCD))) ∧
    None ∈ pageOrder (sess w1) ∧
    run rebuild w1 =
      (MkWorld (sess w1) (calls w1 ++ [CLoad; CCreate; CCopy]) (downloads w1),
       Err CodecError).
Proof.
  assert (H1 : (length (pageOrder (sess w_ABCD)) ≤ 5)%nat) by (vm_compute; lia).
  assert (H2 : rawBytes (sess w_ABCD) = Some (Some doc_ABCD)) by (by vm_compute).
  assert (H3 : load (Some doc_ABCD) = Some doc_ABCD) by done.
  split; [exact H1|]. split; [exact H2|]. split; [exact H3|].
  exact (drag_out_of_range w_ABCD 5 0 (Some doc_ABCD) doc_ABCD H1 H2 H3).
Defined.

(** [hexRgb_reads_notation] on orange, [ff8000]. *)
Lemma hexRgb_reads_notation_witness :
  0 ≤ 255 ≤ 255 ∧ 0 ≤ 128 ≤ 255 ∧ 0 ≤ 0 ≤ 255 ∧
  hex2 false 255 +:+ hex2 false 128 +:+ hex2 false 0 = "ff8000" ∧
  hexRgb ("#" +:+ hex2 false 255 +:+ hex2 false 128 +:+ hex2 false 0)
    = RGB 255 128 0 ∧
  hexRgb (hex2 false 255 +:+ hex2 false 128 +:+ hex2 false 0) = RGB 255 128 0.
Proof.
  assert (H1 : 0 ≤ 255 ≤ 255) by lia. assert (H2 : 0 ≤ 128 ≤ 255) by lia.
  assert (H3 : 0 ≤ 0 ≤ 255) by lia.
  split; [exact H1|]. split; [exact H2|]. split; [exact H3|].
  split; [by vm_compute|].
  exact (hexRgb_reads_notation false 255 128 0 H1 H2 H3).
Defined.

(** [merge_panel_aligned] after two files were added and the first one
    removed. *)
Lemma merge_panel_aligned_witness :
  MergePanel.reachable
    (MergePanel.removeMergeFile 0
       (MergePanel.addMergeFiles [Some doc_A2; Some doc_B3] MergePanel.init).1) ∧
  MergePanel.aligned
    (MergePanel.removeMergeFile 0
       (MergePanel.addMergeFiles [Some doc_A2; Some doc_B3] MergePanel.init).1).
Proof.
  assert (H1 : MergePanel.reachable
    (MergePanel.removeMergeFile 0
       (MergePanel.addMergeFiles [Some doc_A2; Some doc_B3] MergePanel.init).1)).
  { apply MergePanel.reach_remove; [|vm_compute; lia].
    eapply MergePanel.reach_add; [apply MergePanel.reach_init|].
    apply surjective_pairing. }
  split; [exact H1|].
  exact (merge_panel_aligned _ H1).
Defined.

(** [merge_add_partial]: an unreadable file between two readable ones. *)
Lemma merge_add_partial_witness :
  mapM load [Some doc_A2] = Some [doc_A2] ∧ load (None : bytes) = None ∧
  MergePanel.addMergeFiles ([Some doc_A2] ++ None :: [Some doc_B3]) MergePanel.init =
    (MergePanel.MkState (MergePanel.mergeFiles MergePanel.init ++ [Some doc_A2])
       (MergePanel.mergeJsDocs MergePanel.init ++ [doc_A2])
       (MergePanel.mergeCurDoc MergePanel.init) (MergePanel.mergeCurPg MergePanel.init),
     Err SourceUnreadable).
Proof.
  assert (H1 : mapM load [Some doc_A2] = Some [doc_A2]) by done.
  assert (H2 : load (None : bytes) = None) by done.
  split; [exact H1|]. split; [exact H2|].
  exact (merge_add_partial [Some doc_A2] [Some doc_B3] None [doc_A2]
           MergePanel.init H1 H2).
Defined.
End SampleProperties.
